(** * smtpd/dns.c: the DNS resolution core of OpenSMTPD

    A shallow embedding of [smtpd/dns.c] (the wire decoder, the
    address-literal recognizer and the request orchestrator) together with
    the properties its specification states about it.

    Conventions of the embedding.
    - A [char] buffer is a [list byte]; a C string is the list of its bytes
      up to, and without, the terminating NUL.
    - [size_t] values are integers of [Z] and every [size_t] operation that
      the source performs is wrapped by [size_t] (reduction modulo 2^64).
    - A C function that writes through a pointer takes the old value of the
      pointee and returns the new one next to its return code.
    - A load or store outside the object it addresses does not return a
      value: the run stops in [Crash], which records the offending index.
    - Where a property speaks of the memory that follows a buffer, the
      list of bytes holds the buffer and then the bytes that can be read
      after it, and the length of the buffer is given apart. *)

From Stdlib.Strings Require Import Byte String.
From Stdlib Require Import ZArith List Bool Lia.
Import ListNotations.
Local Open Scope Z_scope.

(* ------------------------------------------------------------------ *)
(** ** Outcome of a run *)

Inductive fault : Type :=
| OutOfBoundsRead (idx : Z)    (* load of object[idx], idx outside the object *)
| OutOfBoundsWrite (idx : Z)   (* store to object[idx], idx outside the object *)
| UseAfterFree                 (* access to a session that was freed *)
| FatalExit.                   (* fatal(): the process exits *)

Inductive result (A : Type) : Type :=
| Ret (a : A)
| Crash (f : fault)
| OutOfFuel.

Arguments Ret {A} a.
Arguments Crash {A} f.
Arguments OutOfFuel {A}.

Definition bind {A B : Type} (r : result A) (k : A -> result B) : result B :=
  match r with
  | Ret a => k a
  | Crash f => Crash f
  | OutOfFuel => OutOfFuel
  end.

Notation "x <- c ;; k" := (bind c (fun x => k))
  (at level 61, c at next level, right associativity).
Notation "' pat <- c ;; k" := (bind c (fun x => match x with pat => k end))
  (at level 61, pat pattern, c at next level, right associativity).

(* ------------------------------------------------------------------ *)
(** ** Machine integers and memory *)

(** Value of an [unsigned char]. *)
Definition u8 (b : byte) : Z := Z.of_N (Byte.to_N b).

(** The byte of a given value (only used to write buffers down). *)
Definition B (n : Z) : byte :=
  match Byte.of_N (Z.to_N n) with
  | Some b => b
  | None => x00
  end.

(** [size_t] arithmetic wraps modulo 2^64. *)
Definition size_t (z : Z) : Z := z mod 18446744073709551616.

(** [data[i]] for a buffer that holds exactly the bytes of [data]. *)
Definition load (data : list byte) (i : Z) : result Z :=
  if i <? 0 then Crash (OutOfBoundsRead i)
  else match nth_error data (Z.to_nat i) with
       | Some b => Ret (u8 b)
       | None => Crash (OutOfBoundsRead i)
       end.

(** The [n] bytes [data[i] .. data[i+n-1]] that a [memmove] reads. *)
Definition load_bytes (data : list byte) (i n : Z) : result (list byte) :=
  if i <? 0 then Crash (OutOfBoundsRead i)
  else if Z.of_nat (length data) <? i + n
       then Crash (OutOfBoundsRead (Z.max i (Z.of_nat (length data))))
       else Ret (firstn (Z.to_nat n) (skipn (Z.to_nat i) data)).

(** Big-endian value of a byte sequence ([ntohs], [ntohl] applied to the
    bytes as they were copied from the wire). *)
Definition be_value (raw : list byte) : Z :=
  fold_left (fun acc b => acc * 256 + u8 b) raw 0.

(* ------------------------------------------------------------------ *)
(** ** Constants of the system headers *)

(** Modelled from the spec: the constant [MAXDNAME] of <arpa/nameser.h>,
    which is not part of the repository; the spec's Constants section gives
    255 bytes, the on-wire length of a domain name. *)
Definition MAXDNAME : Z := 255.

(** Modelled from the spec: [HFIXEDSZ] of <arpa/nameser.h>, the fixed
    12-byte header. *)
Definition HFIXEDSZ : Z := 12.

(** Record types and the class IN, with the values RFC 1035 and RFC 3596
    assign (<arpa/nameser.h>). *)
Definition T_A : Z := 1.
Definition T_NS : Z := 2.
Definition T_CNAME : Z := 5.
Definition T_SOA : Z := 6.
Definition T_PTR : Z := 12.
Definition T_MX : Z := 15.
Definition T_AAAA : Z := 28.
Definition C_IN : Z := 1.

(* ------------------------------------------------------------------ *)
(** ** The wire decoder *)

(** [struct unpack] *)
Record unpack : Type := mk_unpack {
  up_buf : list byte;
  up_len : Z;
  up_offset : Z;
  up_err : option string
}.

Definition set_err (p : unpack) (e : string) : unpack :=
  mk_unpack (up_buf p) (up_len p) (up_offset p) (Some e).

Definition set_offset (p : unpack) (o : Z) : unpack :=
  mk_unpack (up_buf p) (up_len p) o (up_err p).

(** [struct dns_header]; [h_id] stays as it was copied (the source converts
    every field but [id]). *)
Record dns_header : Type := mk_header {
  h_id : list byte;
  h_flags : Z;
  h_qdcount : Z;
  h_ancount : Z;
  h_nscount : Z;
  h_arcount : Z
}.

(** [struct dns_query] *)
Record dns_query : Type := mk_query {
  q_dname : list byte;
  q_type : Z;
  q_class : Z
}.

(** The union [rr] of [struct dns_rr]: one constructor per arm. [rdata] of
    the arm [other] is a pointer into the input buffer, kept as its offset
    from [p->buf]. *)
Inductive rr_union : Type :=
| rr_cname (cname : list byte)
| rr_mx (preference : Z) (exchange : list byte)
| rr_ns (nsname : list byte)
| rr_ptr (ptrname : list byte)
| rr_soa (mname rname : list byte) (serial refresh retry expire minimum : Z)
| rr_in_a (addr : list byte)
| rr_in_aaaa (addr6 : list byte)
| rr_other (rdlen : Z) (rdata : Z).

(** [struct dns_rr] *)
Record dns_rr : Type := mk_rr {
  rr_dname : list byte;
  rr_type : Z;
  rr_class : Z;
  rr_ttl : Z;
  rr : rr_union
}.

(** Reading a member of the union: the member of the arm that was stored
    last, and no bytes when another arm was stored. *)
Definition rr_name1 (u : rr_union) : list byte :=
  match u with
  | rr_cname n | rr_ns n | rr_ptr n | rr_soa n _ _ _ _ _ _ => n
  | _ => []
  end.

Definition mx_preference (u : rr_union) : Z :=
  match u with rr_mx pref _ => pref | _ => 0 end.

Definition mx_exchange (u : rr_union) : list byte :=
  match u with rr_mx _ exch => exch | _ => [] end.

Definition soa_rname (u : rr_union) : list byte :=
  match u with rr_soa _ r _ _ _ _ _ => r | _ => [] end.

Definition soa_word (k : nat) (u : rr_union) : Z :=
  match u with
  | rr_soa _ _ a b c d e => nth k [a; b; c; d; e] 0
  | _ => 0
  end.

Definition in_addr_bytes (u : rr_union) : list byte :=
  match u with rr_in_a a | rr_in_aaaa a => a | _ => [] end.

(** *** dname_expand *)

(** The variables of [dname_expand] that its loop changes. [x_dst] holds
    the bytes stored through [dst] so far ([None] when [dst] is NULL). *)
Record expand : Type := mk_expand {
  x_offset : Z;
  x_start : Z;
  x_end : Z;
  x_res : Z;
  x_dst : option (list byte);
  x_max : Z
}.

(** What one turn of the loop does. *)
Inductive turn : Type :=
| Next (x : expand)       (* go round again *)
| Leave (x : expand)      (* the length byte is zero: the loop ends *)
| Minus1 (x : expand).    (* return (-1) *)

(** The body of [for (; (n = data[offset]); )]. *)
Definition dname_turn (data : list byte) (len : Z) (x : expand) : result turn :=
  n <- load data (x_offset x) ;;
  if n =? 0 then Ret (Leave x)
  else if Z.land n 192 =? 192 then
    if len <? size_t (x_offset x + 2) then Ret (Minus1 x)
    else
      b <- load data (size_t (x_offset x + 1)) ;;
      let ptr := size_t (256 * Z.land n (Z.lnot 192) + b) in
      if x_start x <=? ptr then Ret (Minus1 x)
      else
        let e := if x_end x <? size_t (x_offset x + 2)
                 then size_t (x_offset x + 2) else x_end x in
        Ret (Next (mk_expand ptr ptr e (x_res x) (x_dst x) (x_max x)))
  else if len <? size_t (x_offset x + n + 1) then Ret (Minus1 x)
  else
    '(dst, max) <-
       match x_dst x with
       | Some written =>
           if x_max x =? 0 then Ret (x_dst x, x_max x)
           else
             let count := if x_max x <? size_t (n + 1)
                          then x_max x else size_t (n + 1) in
             chunk <- load_bytes data (x_offset x) count ;;
             Ret (Some (written ++ chunk), size_t (x_max x - count))
       | None => Ret (None, x_max x)
       end ;;
    let offset := size_t (x_offset x + n + 1) in
    let e := if x_end x <? offset then offset else x_end x in
    Ret (Next (mk_expand offset (x_start x) e (x_res x + (n + 1)) dst max)).

Fixpoint dname_loop (fuel : nat) (data : list byte) (len : Z) (x : expand)
  : result (bool * expand) :=
  match fuel with
  | O => OutOfFuel
  | S fuel' =>
      t <- dname_turn data len x ;;
      match t with
      | Next x' => dname_loop fuel' data len x'
      | Leave x' => Ret (true, x')
      | Minus1 x' => Ret (false, x')
      end
  end.

(** Turns the loop is given: every turn either lowers [start] or raises
    [offset], so [(offset + 1) * (len + 1)] turns are never used up. *)
Definition dname_fuel (len offset : Z) : nat :=
  S (Z.to_nat ((offset + 1) * (len + 1))).

(** [dname_expand]: the return value, the cell [*newoffset] ([None] for a
    NULL pointer) and the bytes stored through [dst]. *)
Definition dname_expand (data : list byte) (len offset : Z)
    (newoffset : option Z) (dst : option (list byte)) (max : Z)
  : result (Z * option Z * option (list byte)) :=
  if len <=? offset then Ret (-1, newoffset, dst)
  else
    '(ok, x) <- dname_loop (dname_fuel len offset) data len
                  (mk_expand offset offset offset 0 dst max) ;;
    if negb ok then Ret (-1, newoffset, x_dst x)
    else
      let e := if x_end x <? size_t (x_offset x + 1)
               then size_t (x_offset x + 1) else x_end x in
      let dst' := match x_dst x with
                  | Some written =>
                      if x_max x =? 0 then Some written
                      else Some (written ++ [x00])
                  | None => None
                  end in
      let newoffset' := match newoffset with
                        | Some _ => Some e
                        | None => None
                        end in
      Ret (x_res x + 1, newoffset', dst').

(** *** The cursor *)

Definition unpack_init (buf : list byte) (len : Z) : unpack :=
  mk_unpack buf len 0 None.

Definition unpack_data (p : unpack) (data : list byte) (n : Z)
  : result (Z * unpack * list byte) :=
  match up_err p with
  | Some _ => Ret (-1, p, data)
  | None =>
      if size_t (up_len p - up_offset p) <? n
      then Ret (-1, set_err p "too short", data)
      else
        bytes <- load_bytes (up_buf p) (up_offset p) n ;;
        Ret (0, set_offset p (size_t (up_offset p + n)), bytes)
  end.

Definition unpack_u16 (p : unpack) (u16 : Z) : result (Z * unpack * Z) :=
  '(r, p, raw) <- unpack_data p [] 2 ;;
  if r =? -1 then Ret (-1, p, u16) else Ret (0, p, be_value raw).

Definition unpack_u32 (p : unpack) (u32 : Z) : result (Z * unpack * Z) :=
  '(r, p, raw) <- unpack_data p [] 4 ;;
  if r =? -1 then Ret (-1, p, u32) else Ret (0, p, be_value raw).

Definition unpack_inaddr (p : unpack) (a : list byte)
  : result (Z * unpack * list byte) :=
  unpack_data p a 4.

Definition unpack_in6addr (p : unpack) (a6 : list byte)
  : result (Z * unpack * list byte) :=
  unpack_data p a6 16.

Definition unpack_dname (p : unpack) (dst : list byte) (max : Z)
  : result (Z * unpack * list byte) :=
  match up_err p with
  | Some _ => Ret (-1, p, dst)
  | None =>
      '(e, newoffset, written) <-
         dname_expand (up_buf p) (up_len p) (up_offset p)
                      (Some (up_offset p)) (Some []) max ;;
      let p := set_offset p (match newoffset with
                             | Some o => o
                             | None => up_offset p
                             end) in
      let dst := match written with Some w => w | None => dst end in
      if e =? -1 then Ret (-1, set_err p "bad domain name", dst)
      else if (e <? 0) || (MAXDNAME <? e)
           then Ret (-1, set_err p "domain name too long", dst)
           else Ret (0, p, dst)
  end.

Definition slice (raw : list byte) (i n : nat) : list byte :=
  firstn n (skipn i raw).

Definition unpack_header (p : unpack) (h : dns_header)
  : result (Z * unpack * dns_header) :=
  '(r, p, raw) <- unpack_data p [] HFIXEDSZ ;;
  if r =? -1 then Ret (-1, p, h)
  else Ret (0, p, mk_header (slice raw 0 2)
                            (be_value (slice raw 2 2))
                            (be_value (slice raw 4 2))
                            (be_value (slice raw 6 2))
                            (be_value (slice raw 8 2))
                            (be_value (slice raw 10 2))).

Definition failed (p : unpack) : Z :=
  match up_err p with Some _ => -1 | None => 0 end.

Definition unpack_query (p : unpack) (q : dns_query)
  : result (Z * unpack * dns_query) :=
  '(_, p, dname) <- unpack_dname p (q_dname q) MAXDNAME ;;
  '(_, p, type) <- unpack_u16 p (q_type q) ;;
  '(_, p, class) <- unpack_u16 p (q_class q) ;;
  Ret (failed p, p, mk_query dname type class).

(** *** unpack_rr *)

(** The five reads that open [unpack_rr]: name, type, class, TTL and the
    local [rdlen] (which starts without a value). *)
Definition unpack_rr_head (p : unpack) (r : dns_rr)
  : result (unpack * dns_rr * Z) :=
  '(_, p, dname) <- unpack_dname p (rr_dname r) MAXDNAME ;;
  '(_, p, type) <- unpack_u16 p (rr_type r) ;;
  '(_, p, class) <- unpack_u16 p (rr_class r) ;;
  '(_, p, ttl) <- unpack_u32 p (rr_ttl r) ;;
  '(_, p, rdlen) <- unpack_u16 p 0 ;;
  Ret (p, mk_rr dname type class ttl (rr r), rdlen).

(** The [switch (rr->rr_type)]: the cursor and the union after it. *)
Definition unpack_rr_switch (p : unpack) (r : dns_rr) (rdlen : Z)
  : result (unpack * rr_union) :=
  let other :=
    Ret (set_offset p (size_t (up_offset p + rdlen)),
         rr_other rdlen (up_offset p)) in
  if rr_type r =? T_CNAME then
    '(_, p, n) <- unpack_dname p (rr_name1 (rr r)) MAXDNAME ;;
    Ret (p, rr_cname n)
  else if rr_type r =? T_MX then
    '(_, p, pref) <- unpack_u16 p (mx_preference (rr r)) ;;
    '(_, p, exch) <- unpack_dname p (mx_exchange (rr r)) MAXDNAME ;;
    Ret (p, rr_mx pref exch)
  else if rr_type r =? T_NS then
    '(_, p, n) <- unpack_dname p (rr_name1 (rr r)) MAXDNAME ;;
    Ret (p, rr_ns n)
  else if rr_type r =? T_PTR then
    '(_, p, n) <- unpack_dname p (rr_name1 (rr r)) MAXDNAME ;;
    Ret (p, rr_ptr n)
  else if rr_type r =? T_SOA then
    '(_, p, mname) <- unpack_dname p (rr_name1 (rr r)) MAXDNAME ;;
    '(_, p, rname) <- unpack_dname p (soa_rname (rr r)) MAXDNAME ;;
    '(_, p, serial) <- unpack_u32 p (soa_word 0 (rr r)) ;;
    '(_, p, refresh) <- unpack_u32 p (soa_word 1 (rr r)) ;;
    '(_, p, retry) <- unpack_u32 p (soa_word 2 (rr r)) ;;
    '(_, p, expire) <- unpack_u32 p (soa_word 3 (rr r)) ;;
    '(_, p, minimum) <- unpack_u32 p (soa_word 4 (rr r)) ;;
    Ret (p, rr_soa mname rname serial refresh retry expire minimum)
  else if rr_type r =? T_A then
    if negb (rr_class r =? C_IN) then other
    else
      '(_, p, a) <- unpack_inaddr p (in_addr_bytes (rr r)) ;;
      Ret (p, rr_in_a a)
  else if rr_type r =? T_AAAA then
    if negb (rr_class r =? C_IN) then other
    else
      '(_, p, a6) <- unpack_in6addr p (in_addr_bytes (rr r)) ;;
      Ret (p, rr_in_aaaa a6)
  else other.

Definition set_rr (r : dns_rr) (u : rr_union) : dns_rr :=
  mk_rr (rr_dname r) (rr_type r) (rr_class r) (rr_ttl r) u.

Definition unpack_rr (p : unpack) (r : dns_rr)
  : result (Z * unpack * dns_rr) :=
  '(p, r, rdlen) <- unpack_rr_head p r ;;
  match up_err p with
  | Some _ => Ret (-1, p, r)
  | None =>
      if size_t (up_len p - up_offset p) <? rdlen
      then Ret (-1, set_err p "too short", r)
      else
        let save_offset := up_offset p in
        '(p, u) <- unpack_rr_switch p r rdlen ;;
        let r := set_rr r u in
        match up_err p with
        | Some _ => Ret (-1, p, r)
        | None =>
            (* make sure that the advertised rdlen is really ok *)
            let p := if negb (size_t (up_offset p - save_offset) =? rdlen)
                     then set_err p "bad dlen" else p in
            Ret (failed p, p, r)
        end
  end.

(* ------------------------------------------------------------------ *)
(** ** C strings *)

(** The string a buffer holds: its bytes before the first NUL. *)
Fixpoint cstr (buf : list byte) : list byte :=
  match buf with
  | [] => []
  | c :: rest => if u8 c =? 0 then [] else c :: cstr rest
  end.

(** The bytes of a string literal. *)
Definition lit (s : string) : list byte := list_byte_of_string s.

Definition tolower (c : Z) : Z :=
  if (65 <=? c) && (c <=? 90) then c + 32 else c.

(** [strncasecmp(a, b, n) == 0] *)
Fixpoint strncasecmp0 (a b : list byte) (n : nat) : bool :=
  match n with
  | O => true
  | S n' =>
      match a, b with
      | [], [] => true
      | x :: a', y :: b' =>
          (tolower (u8 x) =? tolower (u8 y)) && strncasecmp0 a' b' n'
      | _, _ => false
      end
  end.

(** [strcasecmp(a, b) == 0] *)
Fixpoint strcasecmp0 (a b : list byte) : bool :=
  match a, b with
  | [], [] => true
  | x :: a', y :: b' => (tolower (u8 x) =? tolower (u8 y)) && strcasecmp0 a' b'
  | _, _ => false
  end.

(** The string [strlcpy(dst, src, size)] leaves in [dst]; the call returns
    [strlen(src)]. *)
Definition strlcpy (src : list byte) (size : Z) : list byte :=
  firstn (Z.to_nat (size - 1)) src.

(** The string left by [p = strchr(s, c); if (p) *p = 0;]. *)
Fixpoint cut_at (c : Z) (s : list byte) : list byte :=
  match s with
  | [] => []
  | x :: rest => if u8 x =? c then [] else x :: cut_at c rest
  end.

(** Modelled from the spec: [HOST_NAME_MAX] of <limits.h>; the spec gives
    the host-name buffer 255 bytes + NUL. *)
Definition HOST_NAME_MAX : Z := 255.

(** Modelled from the spec: [SMTPD_MAXDOMAINPARTSIZE] of smtpd.h, a header
    that is not at hand; the spec gives the address-literal buffer 255
    bytes. *)
Definition SMTPD_MAXDOMAINPARTSIZE : Z := 255.

(** *** print_dname *)

Fixpoint print_dname_loop (fuel : nat) (dname : list byte) (i : Z)
    (buf : list byte) (left : Z) : result (list byte) :=
  match fuel with
  | O => OutOfFuel
  | S fuel' =>
      d <- load dname i ;;
      if (d =? 0) || (left =? 0) then Ret buf
      else
        let count := if d <? size_t (left - 1) then d else size_t (left - 1) in
        chunk <- load_bytes dname (i + 1) count ;;
        let i := i + (d + 1) in
        let left := size_t (left - count) in
        let buf := buf ++ chunk in
        if negb (left =? 0)
        then print_dname_loop fuel' dname i (buf ++ lit ".") (size_t (left - 1))
        else print_dname_loop fuel' dname i buf left
  end.

(** [print_dname]: the bytes stored in [buf] before its closing NUL; [left]
    falls at every turn of the loop, so [max] turns are enough. *)
Definition print_dname (dname : list byte) (max : Z) : result (list byte) :=
  d <- load dname 0 ;;
  if d =? 0 then Ret (strlcpy (lit ".") max)
  else print_dname_loop (S (Z.to_nat max)) dname 0 [] (size_t (max - 1)).

(** [buf[strlen(buf) - 1] = 0] on a buffer of [size] bytes. *)
Definition chop (buf : list byte) (size : Z) : result (list byte) :=
  let i := size_t (Z.of_nat (length (cstr buf)) - 1) in
  if i <? size then Ret (firstn (Z.to_nat i) (cstr buf))
  else Crash (OutOfBoundsWrite i).

(* ------------------------------------------------------------------ *)
(** ** Messages, sessions and the resolver *)

(** The message types [dns_imsg] switches on and the ones it sends; any
    other type is [IMSG_other]. *)
Inductive imsg_type : Type :=
| IMSG_MTA_DNS_HOST
| IMSG_MTA_DNS_HOST_END
| IMSG_MTA_DNS_PTR
| IMSG_SMTP_DNS_PTR
| IMSG_MTA_DNS_MX
| IMSG_MTA_DNS_MX_PREFERENCE
| IMSG_other (type : Z).

(** [enum dns_error] of smtpd.h (the spec's status codes OK, Retry, Invalid,
    NoName, NotFound). *)
Inductive dns_error : Type :=
| DNS_OK
| DNS_RETRY
| DNS_EINVAL
| DNS_ENONAME
| DNS_ENOTFOUND.

(** What follows the request id in an inbound message. *)
Inductive imsg_data : Type :=
| D_string (s : list byte)
| D_sockaddr (sa : list byte)
| D_string2 (s1 s2 : list byte).

Record imsg : Type := mk_imsg {
  hdr_type : imsg_type;
  im_reqid : Z;
  im_data : imsg_data
}.

(** One [m_add_*] call; [m_status] is [m_add_int] of a [dns_error]. *)
Inductive marg : Type :=
| m_id (id : Z)
| m_sockaddr (sa : list byte)
| m_int (i : Z)
| m_status (e : dns_error)
| m_string (s : list byte).

(** A message between [m_create] and [m_close]. *)
Record message : Type := mk_message {
  msg_p : Z;
  msg_type : imsg_type;
  msg_args : list marg
}.

(** [struct dns_session] *)
Record dns_session : Type := mk_session {
  s_p : Z;
  s_reqid : Z;
  s_type : imsg_type;
  s_name : list byte;
  s_mxfound : Z;
  s_error : Z;
  s_refcount : Z
}.

(** [struct dns_lookup]; its [session] is the session of the request. *)
Record dns_lookup : Type := mk_lookup {
  l_preference : Z
}.

Inductive ai_family_t : Type := PF_UNSPEC | AF_INET6.

(** The members of [struct addrinfo] the source sets in [hints]. *)
Record ai_hints : Type := mk_hints {
  ai_numerichost : bool;
  ai_family : ai_family_t
}.

(** The members of [struct addrinfo] the source reads from a result. *)
Record addrinfo : Type := mk_addrinfo {
  ai_addr : list byte;
  ai_addrlen : Z
}.

(** [struct asr_result]. [ar_addrinfo] is the list linked by [ai_next];
    [ar_host] is what [getnameinfo_async] stored in the host buffer it was
    given. *)
Record asr_result : Type := mk_result {
  ar_h_errno : Z;
  ar_rcode : Z;
  ar_gai_errno : Z;
  ar_data : list byte;
  ar_addrinfo : list addrinfo;
  ar_host : list byte
}.

Definition ar_datalen (ar : asr_result) : Z := Z.of_nat (length (ar_data ar)).

(** <netdb.h> and <arpa/nameser.h> *)
Definition NO_RECOVERY : Z := 3.
Definition NO_DATA : Z := 4.
Definition NXDOMAIN : Z := 3.

(** A query handed to [event_asr_run] and the callback it will call. *)
Inductive asr_query : Type :=
| getaddrinfo_async (host : list byte) (hints : ai_hints)
| getnameinfo_async (sa : list byte)
| res_query_async (name : list byte).

Inductive callback : Type :=
| dispatch_host (lookup : dns_lookup)
| dispatch_ptr
| dispatch_mx
| dispatch_mx_preference.

(** The part of the process one request touches: its session ([None] once
    freed), the queries in flight and the messages sent on [s->p]. *)
Record world : Type := mk_world {
  w_session : option dns_session;
  w_events : list (asr_query * callback);
  w_sent : list message
}.

Definition the_session (w : world) : result dns_session :=
  match w_session w with
  | Some s => Ret s
  | None => Crash UseAfterFree
  end.

Definition set_session (w : world) (s : dns_session) : world :=
  mk_world (Some s) (w_events w) (w_sent w).

Definition free_session (w : world) : world :=
  mk_world None (w_events w) (w_sent w).

Definition send (w : world) (m : message) : world :=
  mk_world (w_session w) (w_events w) (w_sent w ++ [m]).

Definition event_asr_run (w : world) (q : asr_query) (cb : callback) : world :=
  mk_world (w_session w) (w_events w ++ [(q, cb)]) (w_sent w).

Definition host_end (s : dns_session) (e : dns_error) : message :=
  mk_message (s_p s) IMSG_MTA_DNS_HOST_END [m_id (s_reqid s); m_status e].

Definition host_msg (s : dns_session) (sa : list byte) (pref : Z) : message :=
  mk_message (s_p s) IMSG_MTA_DNS_HOST
             [m_id (s_reqid s); m_sockaddr sa; m_int pref].

(* ------------------------------------------------------------------ *)
(** ** The orchestrator *)

Section Orchestrator.

(** The system's [getaddrinfo]: its return value and [res]. *)
Variable getaddrinfo : list byte -> ai_hints -> Z * option addrinfo.

(** The bytes [struct sockaddr_storage ss] of [dns_imsg] starts with. *)
Variable ss : list byte.

Definition domainname_is_addr (s : list byte) (sa : option (list byte))
    (sl : option Z) : Z * option (list byte) * option Z :=
  match s with
  | [] => (0, sa, sl)
  | c :: _ =>
      if negb (u8 c =? 91) then (0, sa, sl)
      else
        let i6 := strncasecmp0 (lit "[IPv6:") s 6 in
        let s := skipn (if i6 then 6 else 1) s in
        let l := Z.of_nat (length s) in
        let buf := strlcpy s SMTPD_MAXDOMAINPARTSIZE in
        if (SMTPD_MAXDOMAINPARTSIZE <=? l) || (l =? 0)
           || negb (u8 (last buf x00) =? 93)
        then (0, sa, sl)
        else
          let buf := removelast buf in
          let hints := mk_hints true (if i6 then AF_INET6 else PF_UNSPEC) in
          let '(error, res) := getaddrinfo buf hints in
          match res with
          | None => (0, sa, sl)
          | Some res =>
              match sa, sl with
              | Some sa_bytes, Some sl_val =>
                  let sl2 := if ai_addrlen res <? sl_val
                             then ai_addrlen res else sl_val in
                  (1,
                   Some (firstn (Z.to_nat sl2) (ai_addr res)
                         ++ skipn (Z.to_nat sl2) sa_bytes),
                   Some (ai_addrlen res))
              | _, _ => (1, sa, sl)
              end
          end
  end.

(** The name [dns_lookup_host] resolves: [host], or the inside of its
    brackets when it starts with one. *)
Definition bare_host (host : list byte) : list byte :=
  match host with
  | [] => host
  | c :: _ =>
      if u8 c =? 91 then
        let host := if strncasecmp0 (lit "[IPv6:") host 6
                    then skipn 6 host else skipn 1 host in
        cut_at 93 (strlcpy host (HOST_NAME_MAX + 1))
      else host
  end.

Definition dns_lookup_host (w : world) (host : list byte) (preference : Z)
  : result world :=
  s <- the_session w ;;
  let lookup := mk_lookup preference in
  let s := mk_session (s_p s) (s_reqid s) (s_type s) (s_name s)
                      (s_mxfound s) (s_error s) (s_refcount s + 1) in
  Ret (event_asr_run (set_session w s)
         (getaddrinfo_async (bare_host host) (mk_hints false PF_UNSPEC))
         (dispatch_host lookup)).

(** [dns_imsg]; [submitted] tells whether [res_query_async] returned a
    query (it is the only submission whose result the source tests). *)
Definition dns_imsg (p : Z) (im : imsg) (submitted : bool) : result world :=
  let s := mk_session p (im_reqid im) (hdr_type im) [] 0 0 0 in
  let w := mk_world (Some s) [] [] in
  match hdr_type im, im_data im with
  | IMSG_MTA_DNS_HOST, D_string host =>
      dns_lookup_host w host (-1)
  | IMSG_MTA_DNS_PTR, D_sockaddr sa
  | IMSG_SMTP_DNS_PTR, D_sockaddr sa =>
      Ret (event_asr_run w (getnameinfo_async sa) dispatch_ptr)
  | IMSG_MTA_DNS_MX, D_string domain =>
      let s := mk_session p (im_reqid im) (hdr_type im)
                          (strlcpy domain (HOST_NAME_MAX + 1)) 0 0 0 in
      let w := set_session w s in
      let '(lit_addr, sa, sl) :=
        domainname_is_addr domain (Some ss) (Some (Z.of_nat (length ss))) in
      if negb (lit_addr =? 0) then
        let sa := match sa with Some b => b | None => ss end in
        Ret (free_session
               (send (send w (host_msg s sa (-1))) (host_end s DNS_OK)))
      else if negb submitted then
        Ret (free_session (send w (host_end s DNS_EINVAL)))
      else Ret (event_asr_run w (res_query_async (s_name s)) dispatch_mx)
  | IMSG_MTA_DNS_MX_PREFERENCE, D_string2 domain mx =>
      let s := mk_session p (im_reqid im) (hdr_type im)
                          (strlcpy mx (HOST_NAME_MAX + 1)) 0 0 0 in
      let w := set_session w s in
      if negb submitted then
        Ret (free_session
               (send w (mk_message (s_p s) IMSG_MTA_DNS_MX_PREFERENCE
                          [m_id (s_reqid s); m_status DNS_ENOTFOUND])))
      else Ret (event_asr_run w (res_query_async domain)
                              dispatch_mx_preference)
  | _, _ => Crash FatalExit
  end.

(** The loop of [dns_dispatch_host] over [ar->ar_addrinfo]. *)
Fixpoint host_addresses (ai : list addrinfo) (lookup : dns_lookup)
    (s : dns_session) (w : world) : dns_session * world :=
  match ai with
  | [] => (s, w)
  | a :: next =>
      let s := mk_session (s_p s) (s_reqid s) (s_type s) (s_name s)
                          (size_t (s_mxfound s + 1)) (s_error s)
                          (s_refcount s) in
      host_addresses next lookup s
        (send w (host_msg s (ai_addr a) (l_preference lookup)))
  end.

Definition dns_dispatch_host (ar : asr_result) (lookup : dns_lookup)
    (w : world) : result world :=
  s <- the_session w ;;
  let '(s, w) := host_addresses (ar_addrinfo ar) lookup s w in
  let s := if negb (ar_gai_errno ar =? 0)
           then mk_session (s_p s) (s_reqid s) (s_type s) (s_name s)
                           (s_mxfound s) (ar_gai_errno ar) (s_refcount s)
           else s in
  let s := mk_session (s_p s) (s_reqid s) (s_type s) (s_name s)
                      (s_mxfound s) (s_error s) (s_refcount s - 1) in
  if negb (s_refcount s =? 0) then Ret (set_session w s)
  else
    Ret (free_session
           (send (set_session w s)
                 (host_end s (if negb (s_mxfound s =? 0)
                              then DNS_OK else DNS_ENOTFOUND)))).

Definition dns_dispatch_ptr (ar : asr_result) (w : world) : result world :=
  s <- the_session w ;;
  Ret (free_session
         (send w (mk_message (s_p s) (s_type s)
                    ([m_id (s_reqid s);
                      m_status (if negb (ar_gai_errno ar =? 0)
                                then DNS_ENOTFOUND else DNS_OK)]
                     ++ (if ar_gai_errno ar =? 0
                         then [m_string (s_name s)] else []))))).

(** Locals of the two MX callbacks start without a value. *)
Definition no_header : dns_header := mk_header [] 0 0 0 0 0.
Definition no_query : dns_query := mk_query [] 0 0.
Definition no_rr : dns_rr := mk_rr [] 0 0 0 (rr_other 0 0).

(** The loop [for (; h.ancount; h.ancount--)] of [dns_dispatch_mx]. *)
Fixpoint mx_walk (ancount : nat) (pack : unpack) (r : dns_rr) (w : world)
    (found : Z) : result (world * Z) :=
  match ancount with
  | O => Ret (w, found)
  | S ancount' =>
      '(c, pack, r) <- unpack_rr pack r ;;
      if c =? -1 then Ret (w, found)
      else if negb (rr_type r =? T_MX) then mx_walk ancount' pack r w found
      else
        buf <- print_dname (mx_exchange (rr r)) 512 ;;
        buf <- chop buf 512 ;;
        w <- dns_lookup_host w buf (mx_preference (rr r)) ;;
        mx_walk ancount' pack r w (size_t (found + 1))
  end.

Definition dns_dispatch_mx (ar : asr_result) (w : world) : result world :=
  s <- the_session w ;;
  if negb (ar_h_errno ar =? 0) && negb (ar_h_errno ar =? NO_DATA) then
    Ret (free_session
           (send w (host_end s
                      (if ar_rcode ar =? NXDOMAIN then DNS_ENONAME
                       else if ar_h_errno ar =? NO_RECOVERY then DNS_EINVAL
                       else DNS_RETRY))))
  else
    let pack := unpack_init (ar_data ar) (ar_datalen ar) in
    '(c, pack, h) <- unpack_header pack no_header ;;
    if c =? -1 then Ret w
    else
      '(c, pack, q) <- unpack_query pack no_query ;;
      if c =? -1 then Ret w
      else
        '(w, found) <- mx_walk (Z.to_nat (h_ancount h)) pack no_rr w 0 ;;
        (* fallback to host if no MX is found. *)
        if found =? 0 then dns_lookup_host w (s_name s) 0
        else Ret w.

(** The loop of [dns_dispatch_mx_preference]: [error] and [rr] after it. *)
Fixpoint preference_walk (ancount : nat) (pack : unpack) (r : dns_rr)
    (name : list byte) : result (dns_error * dns_rr) :=
  match ancount with
  | O => Ret (DNS_ENOTFOUND, r)
  | S ancount' =>
      '(c, pack, r) <- unpack_rr pack r ;;
      if c =? -1 then Ret (DNS_ENOTFOUND, r)
      else if negb (rr_type r =? T_MX) then preference_walk ancount' pack r name
      else
        buf <- print_dname (mx_exchange (rr r)) 512 ;;
        buf <- chop buf 512 ;;
        if strcasecmp0 name buf then Ret (DNS_OK, r)
        else preference_walk ancount' pack r name
  end.

Definition dns_dispatch_mx_preference (ar : asr_result) (w : world)
  : result world :=
  s <- the_session w ;;
  '(error, r) <-
     (if negb (ar_h_errno ar =? 0) then
        Ret (if ar_rcode ar =? NXDOMAIN then DNS_ENONAME
             else if (ar_h_errno ar =? NO_RECOVERY)
                     || (ar_h_errno ar =? NO_DATA) then DNS_EINVAL
             else DNS_RETRY, no_rr)
      else
        let pack := unpack_init (ar_data ar) (ar_datalen ar) in
        '(c, pack, h) <- unpack_header pack no_header ;;
        if c =? -1 then Ret (DNS_ENOTFOUND, no_rr)
        else
          '(c, pack, q) <- unpack_query pack no_query ;;
          if c =? -1 then Ret (DNS_ENOTFOUND, no_rr)
          else preference_walk (Z.to_nat (h_ancount h)) pack no_rr (s_name s)) ;;
  Ret (free_session
         (send w (mk_message (s_p s) IMSG_MTA_DNS_MX_PREFERENCE
                    ([m_id (s_reqid s); m_status error]
                     ++ (match error with
                         | DNS_OK => [m_int (mx_preference (rr r))]
                         | _ => []
                         end))))).

(** The resolver completes the [k]-th query in flight with [ar]: the query
    leaves the queue and its callback runs. A reverse lookup has stored the
    name in [s->name] by then. *)
Definition remove_nth {A : Type} (k : nat) (l : list A) : list A :=
  firstn k l ++ skipn (S k) l.

Definition event_asr_dispatch (k : nat) (ar : asr_result) (w : world)
  : result world :=
  match nth_error (w_events w) k with
  | None => Ret w
  | Some (q, cb) =>
      let w := mk_world (w_session w) (remove_nth k (w_events w)) (w_sent w) in
      match cb with
      | dispatch_host lookup => dns_dispatch_host ar lookup w
      | dispatch_ptr =>
          s <- the_session w ;;
          dns_dispatch_ptr ar
            (set_session w
               (mk_session (s_p s) (s_reqid s) (s_type s)
                           (strlcpy (cstr (ar_host ar)) (HOST_NAME_MAX + 1))
                           (s_mxfound s) (s_error s) (s_refcount s)))
      | dispatch_mx => dns_dispatch_mx ar w
      | dispatch_mx_preference => dns_dispatch_mx_preference ar w
      end
  end.

(** A run: completions delivered one after the other. *)
Fixpoint run (evs : list (nat * asr_result)) (w : world) : result world :=
  match evs with
  | [] => Ret w
  | (k, ar) :: rest => w <- event_asr_dispatch k ar w ;; run rest w
  end.

End Orchestrator.

(* ------------------------------------------------------------------ *)
(** ** Notions the properties are stated with *)

Definition SIZE_MAX : Z := 18446744073709551615.

(** A cursor over a buffer of [up_len] bytes, as [unpack_init] makes it and
    the decoder keeps it. *)
Definition cursor_ok (p : unpack) : Prop :=
  up_len p = Z.of_nat (length (up_buf p))
  /\ 0 <= up_offset p <= up_len p
  /\ up_len p + 255 <= SIZE_MAX.

(** [p'] is [p] moved forward over the same buffer. *)
Definition advances (p p' : unpack) : Prop :=
  up_buf p' = up_buf p /\ up_len p' = up_len p
  /\ up_offset p <= up_offset p' /\ cursor_ok p'.

(** What the loop of [dname_expand] keeps true of its variables. *)
Definition expand_ok (len : Z) (x : expand) : Prop :=
  0 <= x_start x <= x_offset x /\ x_offset x <= len /\ x_end x <= len.

(** What falls at every turn of that loop. *)
Definition expand_measure (len : Z) (x : expand) : Z :=
  x_start x * (len + 1) + (len - x_offset x).

(** The loop, started in [x], comes to [y] after some turns. *)
Inductive turns (data : list byte) (len : Z) : expand -> expand -> Prop :=
| turns_here (x : expand) : turns data len x x
| turns_next (x y z : expand) :
    dname_turn data len x = Ret (Next y) ->
    turns data len y z ->
    turns data len x z.

(** The variables [dname_expand] enters its loop with. *)
Definition expand_init (offset : Z) (dst : option (list byte)) (max : Z)
  : expand :=
  mk_expand offset offset offset 0 dst max.

(** The length byte at [x_offset] has both high bits set and, with the byte
    after it, denotes the offset [ptr]. *)
Definition pointer_at (data : list byte) (x : expand) (ptr : Z) : Prop :=
  exists n b,
    load data (x_offset x) = Ret n
    /\ Z.land n 192 = 192
    /\ load data (size_t (x_offset x + 1)) = Ret b
    /\ ptr = 256 * Z.land n (Z.lnot 192) + b.

(** The arm of the [switch] of [unpack_rr] a record of this type and class
    takes is [other]. *)
Definition other_arm (type class : Z) : bool :=
  negb ((type =? T_CNAME) || (type =? T_MX) || (type =? T_NS)
        || (type =? T_PTR) || (type =? T_SOA))
  && negb (((type =? T_A) || (type =? T_AAAA)) && (class =? C_IN)).

(** The answer section as the spec speaks of it: the records decoded one
    after the other, [ancount] of them at most, up to the first that does
    not decode. *)
Fixpoint answer_section (ancount : nat) (pack : unpack) (r : dns_rr)
  : result (list dns_rr) :=
  match ancount with
  | O => Ret []
  | S ancount' =>
      '(c, pack, r) <- unpack_rr pack r ;;
      if c =? -1 then Ret []
      else
        rest <- answer_section ancount' pack r ;;
        Ret (r :: rest)
  end.

Definition mx_records (rrs : list dns_rr) : list dns_rr :=
  filter (fun r => rr_type r =? T_MX) rrs.

(** The preference a query in flight carries when it is a host lookup. *)
Definition lookup_preference (e : asr_query * callback) : option Z :=
  match e with
  | (getaddrinfo_async _ _, dispatch_host lookup) => Some (l_preference lookup)
  | _ => None
  end.

(** The host name [dns_dispatch_mx] derives from an MX record: the exchange
    printed in a buffer of 512 bytes, without its last character. *)
Definition exchange_host (m : dns_rr) : result (list byte) :=
  buf <- print_dname (mx_exchange (rr m)) 512 ;;
  chop buf 512.

(** The query in flight [e] is the host lookup spawned for the MX record
    [m]: it resolves the host of its exchange and carries its preference. *)
Definition spawned_for (m : dns_rr) (e : asr_query * callback) : Prop :=
  exists host,
    exchange_host m = Ret host
    /\ e = (getaddrinfo_async (bare_host host) (mk_hints false PF_UNSPEC),
            dispatch_host (mk_lookup (mx_preference (rr m)))).

(** Address messages among the messages sent. *)
Definition is_host_msg (m : message) : bool :=
  match msg_type m with IMSG_MTA_DNS_HOST => true | _ => false end.

Definition found_count (sent : list message) : Z :=
  Z.of_nat (length (filter is_host_msg sent)).

(** The status a message carries after the request id. *)
Definition reply_status (m : message) : option dns_error :=
  match msg_args m with
  | m_id _ :: m_status e :: _ => Some e
  | _ => None
  end.

(** The terminal message of a request: the terminator of HOST and MX, the
    reply of PTR and MX_PREFERENCE. *)
Definition is_terminal (m : message) : bool :=
  match msg_type m with
  | IMSG_MTA_DNS_HOST_END | IMSG_MTA_DNS_PTR | IMSG_SMTP_DNS_PTR
  | IMSG_MTA_DNS_MX_PREFERENCE => true
  | _ => false
  end.

(** What every read of the cursor does: it moves forward over the same
    buffer, and returns -1 exactly when it leaves an error behind. *)
Definition read_ok {A : Type} (p : unpack) (r : result (Z * unpack * A))
  : Prop :=
  forall c p' v, r = Ret (c, p', v) ->
    advances p p' /\ c = failed p'
    /\ (up_err p' = None -> up_err p = None).

(** What the loop keeps true of [res], [max] and the bytes stored through
    [dst], for a destination of [max0] bytes. *)
Definition dst_ok (max0 : Z) (x : expand) : Prop :=
  0 <= x_res x /\ 0 <= x_max x
  /\ exists w, x_dst x = Some w
               /\ Z.of_nat (length w) + x_max x = max0
               /\ Z.of_nat (length w) = Z.min (x_res x) max0.

(* ------------------------------------------------------------------ *)
(** ** Sample data *)

Definition bytes (l : list Z) : list byte := map B l.

(** A header: id 1, a response, one question, no record. *)
Definition sample_header : list byte :=
  bytes [0; 1; 129; 128; 0; 1; 0; 0; 0; 0; 0; 0].

(** A header and a question whose name, the label "a", ends with the
    payload: 14 bytes. *)
Definition sample_cut_name : list byte := sample_header ++ bytes [1; 97].

(** The name "a" followed by a pointer to the offset 2, where the pointer
    itself stands. *)
Definition sample_loop : list byte := bytes [1; 97; 192; 2].

(** The name "www". *)
Definition sample_www : list byte := bytes [3; 119; 119; 119; 0].

(** A record of the root name: MX, IN, TTL 60, rdlength 3, preference 10
    and the root name as exchange. *)
Definition sample_mx_rr : list byte :=
  bytes [0; 0; 15; 0; 1; 0; 0; 0; 60; 0; 3; 0; 10; 0].

(** The same record with rdlength 4 and one more byte. *)
Definition sample_bad_dlen : list byte :=
  bytes [0; 0; 15; 0; 1; 0; 0; 0; 60; 0; 4; 0; 10; 0; 0].

(** An answer to "a MX?": two MX records, 10 mx.a and 20 a. *)
Definition sample_answer : list byte :=
  bytes [0; 1; 129; 128; 0; 1; 0; 2; 0; 0; 0; 0;
         1; 97; 0; 0; 15; 0; 1;
         192; 12; 0; 15; 0; 1; 0; 0; 0; 60; 0; 7; 0; 10; 2; 109; 120; 192; 12;
         192; 12; 0; 15; 0; 1; 0; 0; 0; 60; 0; 4; 0; 20; 192; 12].

(** A [getaddrinfo] that resolves nothing. *)
Definition getaddrinfo_none : list byte -> ai_hints -> Z * option addrinfo :=
  fun _ _ => (1, None).

Definition sample_session : dns_session :=
  mk_session 1 7 IMSG_MTA_DNS_MX (lit "a") 0 0 0.

(* ------------------------------------------------------------------ *)
(** ** Notions of the further properties *)


(** The errors the decoder leaves in a cursor. *)
Definition decoder_error (e : option string) : Prop :=
  e = None
  \/ e = Some "too short"%string
  \/ e = Some "bad domain name"%string
  \/ e = Some "domain name too long"%string
  \/ e = Some "bad dlen"%string.

(** A read leaves in the cursor an error of the decoder, when it found one
    of them or none. *)
Definition keeps_errors {A : Type} (p : unpack) (r : result (Z * unpack * A))
  : Prop :=
  forall c p' v, r = Ret (c, p', v) ->
    decoder_error (up_err p) -> decoder_error (up_err p').

(** The wire form of a name given by its labels: every label after its
    length byte, then the zero byte of the root. *)
Definition wire_labels (labels : list (list byte)) : list byte :=
  flat_map (fun l => B (Z.of_nat (length l)) :: l) labels.

Definition wire_name (labels : list (list byte)) : list byte :=
  wire_labels labels ++ [x00].

(** The printed form of a name: every label followed by a dot. *)
Definition dotted (labels : list (list byte)) : list byte :=
  flat_map (fun l => l ++ lit ".") labels.

(** A label of a domain name: 1 to 63 bytes. *)
Definition label_ok (l : list byte) : Prop :=
  (1 <= length l <= 63)%nat.

(** A string written with its closing NUL fits a buffer of [max] bytes; the
    run that writes it returns, or stops on a load outside the name it
    reads. *)
Definition fits_in (max : Z) (r : result (list byte)) : Prop :=
  match r with
  | Ret out => Z.of_nat (length out) < max
  | Crash f => exists i, f = OutOfBoundsRead i
  | OutOfFuel => False
  end.

(** A record of the root name: MX, IN, TTL 60, rdlength 6, preference 10
    and an exchange of one label, a zero byte and "a". *)
Definition sample_zero_label : list byte :=
  bytes [0; 0; 15; 0; 1; 0; 0; 0; 60; 0; 6; 0; 10; 2; 0; 97; 0].

(** A query in flight is a host lookup. *)
Definition is_host_lookup (e : asr_query * callback) : bool :=
  match e with
  | (getaddrinfo_async _ _, dispatch_host _) => true
  | _ => false
  end.

(** The state of a request while its host lookups complete: all queries in
    flight are host lookups; as long as the session lives it counts them, at
    least one is left and no terminator was sent; once it is freed none is
    left and one terminator was sent, as the last message. *)
Definition fanout_ok (w : world) : Prop :=
  forallb is_host_lookup (w_events w) = true
  /\ match w_session w with
     | Some s =>
         s_refcount s = Z.of_nat (length (w_events w))
         /\ w_events w <> []
         /\ filter is_terminal (w_sent w) = []
     | None =>
         w_events w = []
         /\ exists before s e,
              w_sent w = before ++ [host_end s e]
              /\ filter is_terminal before = []
     end.

(** Two host lookups in flight for the request of [sample_session]. *)
Definition sample_fanout : world :=
  mk_world (Some (mk_session 1 7 IMSG_MTA_DNS_MX (lit "a") 0 0 2))
           [(getaddrinfo_async (lit "mx.a") (mk_hints false PF_UNSPEC),
             dispatch_host (mk_lookup 10));
            (getaddrinfo_async (lit "a") (mk_hints false PF_UNSPEC),
             dispatch_host (mk_lookup 20))]
           [].

(** The request id a message starts with. *)
Definition msg_reqid (m : message) : option Z :=
  match msg_args m with
  | m_id id :: _ => Some id
  | _ => None
  end.

(** A [getaddrinfo] that resolves every text to the same address. *)
Definition getaddrinfo_any : list byte -> ai_hints -> Z * option addrinfo :=
  fun _ _ => (0, Some (mk_addrinfo (bytes [10; 0; 0; 0]) 4)).

(** A 16-bit and a 32-bit value in network byte order. *)
Definition be16 (v : Z) : list byte := [B (v / 256); B (v mod 256)].

Definition be32 (v : Z) : list byte :=
  [B (v / 16777216); B (v / 65536 mod 256); B (v / 256 mod 256);
   B (v mod 256)].

(** An MX record on the wire: the owner name, the type, the class, the TTL,
    the length of the data, and as data the preference and the exchange. *)
Definition wire_mx (owner : list (list byte)) (class ttl pref : Z)
    (exch : list (list byte)) : list byte :=
  wire_name owner ++ be16 T_MX ++ be16 class ++ be32 ttl
  ++ be16 (2 + Z.of_nat (length (wire_name exch)))
  ++ be16 pref ++ wire_name exch.

(** The question of a message on the wire: name, type and class. *)
Definition wire_query (name : list (list byte)) (type class : Z)
  : list byte :=
  wire_name name ++ be16 type ++ be16 class.

(** The header of a message on the wire: id, flags and the four counts. *)
Definition wire_header (id flags qdcount ancount nscount arcount : Z)
  : list byte :=
  be16 id ++ be16 flags ++ be16 qdcount ++ be16 ancount ++ be16 nscount
  ++ be16 arcount.

(** An MX record by its fields. *)
Record mx_record : Type := mk_mx_record {
  mr_owner : list (list byte);
  mr_class : Z;
  mr_ttl : Z;
  mr_pref : Z;
  mr_exch : list (list byte)
}.

Definition wire_record (m : mx_record) : list byte :=
  wire_mx (mr_owner m) (mr_class m) (mr_ttl m) (mr_pref m) (mr_exch m).

(** The fields fit their places on the wire, and no label of the exchange
    holds a zero byte. *)
Definition mx_record_ok (m : mx_record) : Prop :=
  Forall label_ok (mr_owner m) /\ Forall label_ok (mr_exch m)
  /\ Z.of_nat (length (wire_name (mr_owner m))) <= MAXDNAME
  /\ Z.of_nat (length (wire_name (mr_exch m))) <= MAXDNAME
  /\ 0 <= mr_class m < 65536 /\ 0 <= mr_ttl m < 4294967296
  /\ 0 <= mr_pref m < 65536
  /\ Forall (Forall (fun b => u8 b <> 0)) (mr_exch m).

(** The record as [unpack_rr] stores it. *)
Definition decoded (m : mx_record) : dns_rr :=
  mk_rr (wire_name (mr_owner m)) T_MX (mr_class m) (mr_ttl m)
        (rr_mx (mr_pref m) (wire_name (mr_exch m))).

(** The host lookup of the exchange of a record: its labels separated by
    dots, under the preference of the record. *)
Definition lookup_of (m : mx_record) : asr_query * callback :=
  (getaddrinfo_async (bare_host (removelast (dotted (mr_exch m))))
                     (mk_hints false PF_UNSPEC),
   dispatch_host (mk_lookup (mr_pref m))).

(** An answer on the wire: header, question and MX records. *)
Definition wire_answer (id flags qdcount nscount arcount : Z)
    (qname : list (list byte)) (qtype qclass : Z) (records : list mx_record)
  : list byte :=
  wire_header id flags qdcount (Z.of_nat (length records)) nscount arcount
  ++ wire_query qname qtype qclass
  ++ concat (map wire_record records).

(** An answer to "a MX?" written without pointers: 10 mx.a and 20 a. *)
Definition sample_records : list mx_record :=
  [mk_mx_record [lit "a"] 1 60 10 [lit "mx"; lit "a"];
   mk_mx_record [lit "a"] 1 60 20 [lit "a"]].

Definition sample_wire_answer : list byte :=
  wire_answer 1 33152 1 0 0 [lit "a"] 15 1 sample_records.

(* ------------------------------------------------------------------ *)
(** ** The buffer in memory *)

(** The decoder is handed the address of a buffer and its length. In a
    cursor [up_buf] holds the bytes that can be read from that address, the
    [up_len] bytes of the buffer first and then the bytes that follow it in
    memory, if any: a load of one of them returns, a load further away is a
    fault. A cursor on such a memory, small enough for [size_t]: *)
Definition in_memory (p : unpack) : Prop :=
  0 <= up_len p /\ 0 <= up_offset p
  /\ up_len p + 65536 <= SIZE_MAX
  /\ Z.of_nat (length (up_buf p)) + 65536 <= SIZE_MAX.

(** What a read of the cursor does, whatever follows the buffer in memory:
    the cursor stays on the same memory and never moves backwards, the read
    returns -1 exactly when it leaves an error, and when it leaves none it
    has moved the cursor by [n] bytes at least, not further than one byte
    after the buffer or than the last byte it could load. *)
Definition moved {A : Type} (n : Z) (p : unpack)
    (r : result (Z * unpack * A)) : Prop :=
  forall c p' v, r = Ret (c, p', v) ->
    in_memory p'
    /\ up_buf p' = up_buf p /\ up_len p' = up_len p
    /\ up_offset p <= up_offset p'
    /\ c = failed p'
    /\ (up_err p' = None ->
        up_err p = None
        /\ up_offset p + n <= up_offset p'
        /\ up_offset p'
           <= Z.max (up_len p + 1) (Z.of_nat (length (up_buf p)))).

(* ------------------------------------------------------------------ *)
(** ** Notions of the walks over the answer section *)

(** The record [r] does not stop the loop of [dns_dispatch_mx_preference]
    looking for [name]: it is not of type MX, or its exchange prints, with
    its last character cut, as another host. *)
Definition passed_over (name : list byte) (r : dns_rr) : Prop :=
  rr_type r = T_MX ->
  exists host, exchange_host r = Ret host /\ strcasecmp0 name host = false.

(** The reply to a request for the preference of an exchange. *)
Definition preference_reply (s : dns_session) (e : dns_error)
    (preference : list marg) : message :=
  mk_message (s_p s) IMSG_MTA_DNS_MX_PREFERENCE
             ([m_id (s_reqid s); m_status e] ++ preference).


(** An answer to "a MX?" with two records: 20 a, then MX 10 with the
    exchange of [sample_zero_answer]. *)
Definition sample_match_then_zero : list byte :=
  bytes [0; 1; 129; 128; 0; 1; 0; 2; 0; 0; 0; 0;
         1; 97; 0; 0; 15; 0; 1;
         192; 12; 0; 15; 0; 1; 0; 0; 0; 60; 0; 4; 0; 20; 192; 12;
         192; 12; 0; 15; 0; 1; 0; 0; 0; 60; 0; 6; 0; 10; 2; 0; 97; 0].

(** A payload of 21 bytes: a header that announces one record, the
    question "a MX?", and the owner of a record, the label "a", which ends
    with the payload. *)
Definition sample_cut_owner : list byte :=
  bytes [0; 1; 129; 128; 0; 1; 0; 1; 0; 0; 0; 0;
         1; 97; 0; 0; 15; 0; 1;
         1; 97].

(** Thirteen bytes that follow it in memory: a zero byte, then what reads
    as the type 99, the class 1, the TTL 60, the length 2 and two bytes. *)
Definition sample_after : list byte :=
  bytes [0; 0; 99; 0; 1; 0; 0; 0; 60; 0; 2; 7; 7].

(* ------------------------------------------------------------------ *)
(** * Properties *)

(* ------------------------------------------------------------------ *)
(** ** Inversion of runs *)

Lemma bind_Ret {A B : Type} (r : result A) (k : A -> result B) (b : B) :
  bind r k = Ret b -> exists a, r = Ret a /\ k a = Ret b.
Proof.
  destruct r as [a| |]; simpl; intros H; try discriminate.
  exists a; split; [reflexivity | exact H].
Qed.

Ltac inv_bind H :=
  let a := fresh "a" in
  let E := fresh "E" in
  apply bind_Ret in H as (a & E & H).

(** ** Bytes and loads *)

Lemma u8_range (b : byte) : 0 <= u8 b <= 255.
Proof.
  unfold u8. pose proof (Byte.to_N_bounded b) as H.
  apply N2Z.inj_le in H. simpl in H. lia.
Qed.

Lemma land_low6 (b : byte) : 0 <= Z.land (u8 b) (Z.lnot 192) <= 63.
Proof.
  destruct b; vm_compute; split; intro H; discriminate H.
Qed.

Lemma load_Ret (data : list byte) (i n : Z) :
  load data i = Ret n ->
  0 <= i < Z.of_nat (length data) /\ exists b, n = u8 b.
Proof.
  unfold load. destruct (Z.ltb_spec i 0); [discriminate|].
  destruct (nth_error data (Z.to_nat i)) as [b|] eqn:E; [|discriminate].
  intros H1. inversion H1; subst.
  assert (Hlt : (Z.to_nat i < length data)%nat).
  { apply nth_error_Some. rewrite E. discriminate. }
  split; [lia | exists b; reflexivity].
Qed.

Lemma load_bytes_Ret (data : list byte) (i n : Z) (l : list byte) :
  load_bytes data i n = Ret l ->
  0 <= i /\ i + n <= Z.of_nat (length data)
  /\ l = firstn (Z.to_nat n) (skipn (Z.to_nat i) data).
Proof.
  unfold load_bytes. destruct (Z.ltb_spec i 0); [discriminate|].
  destruct (Z.ltb_spec (Z.of_nat (length data)) (i + n)); [discriminate|].
  intros H1; inversion H1; subst. repeat split; lia.
Qed.

Lemma load_bytes_length (data : list byte) (i n : Z) (l : list byte) :
  0 <= n -> load_bytes data i n = Ret l -> Z.of_nat (length l) = n.
Proof.
  intros Hn H. apply load_bytes_Ret in H as (Hi & Hle & ->).
  rewrite length_firstn, length_skipn. lia.
Qed.


(** ** [size_t] arithmetic *)

Ltac wrap_lia := unfold size_t, SIZE_MAX in *; Z.div_mod_to_equations; lia.

Lemma size_t_small (z : Z) : 0 <= z <= SIZE_MAX -> size_t z = z.
Proof. intros H. wrap_lia. Qed.

(** ** The loop of [dname_expand] *)

Section Loop.

Variable data : list byte.
Variable len : Z.
Hypothesis len_data : len = Z.of_nat (length data).
Hypothesis len_fits : len + 255 <= SIZE_MAX.

Lemma dname_turn_Next (x x' : expand) :
  expand_ok len x ->
  dname_turn data len x = Ret (Next x') ->
  expand_ok len x'
  /\ 0 <= expand_measure len x' < expand_measure len x
  /\ x_end x <= x_end x'.
Proof.
  intros (Hs & Ho & He) H. unfold dname_turn in H.
  inv_bind H. apply load_Ret in E as (Hi & b & ->).
  pose proof (u8_range b) as Hb. pose proof (land_low6 b) as Hp.
  destruct (u8 b =? 0); [discriminate|].
  destruct (Z.land (u8 b) 192 =? 192).
  - destruct (Z.ltb_spec len (size_t (x_offset x + 2))); [discriminate|].
    inv_bind H. apply load_Ret in E as (Hi2 & b2 & ->).
    pose proof (u8_range b2) as Hb2.
    rewrite (size_t_small (256 * _ + _)) in H by (unfold SIZE_MAX; lia).
    rewrite (size_t_small (x_offset x + 2)) in * by lia.
    destruct (Z.leb_spec (x_start x) (256 * Z.land (u8 b) (Z.lnot 192) + u8 b2));
      [discriminate|].
    set (ptr := 256 * Z.land (u8 b) (Z.lnot 192) + u8 b2) in *.
    inversion H; subst x'; clear H.
    unfold expand_ok, expand_measure; cbn [x_offset x_start x_end].
    assert (Hmul : 1 * (len + 1) <= (x_start x - ptr) * (len + 1))
      by (apply Z.mul_le_mono_nonneg_r; lia).
    assert (Hpos : 0 <= ptr * (len + 1)) by (apply Z.mul_nonneg_nonneg; lia).
    destruct (Z.ltb_spec (x_end x) (x_offset x + 2)); repeat split; lia.
  - rewrite (size_t_small (x_offset x + u8 b + 1)) in * by lia.
    destruct (Z.ltb_spec len (x_offset x + u8 b + 1)); [discriminate|].
    inv_bind H. destruct a as [dst max].
    inversion H; subst x'; clear H.
    unfold expand_ok, expand_measure; cbn [x_offset x_start x_end].
    assert (Hpos : 0 <= x_start x * (len + 1)) by (apply Z.mul_nonneg_nonneg; lia).
    destruct (Z.ltb_spec (x_end x) (x_offset x + u8 b + 1)); repeat split; lia.
Qed.

Lemma dname_turn_Leave (x x' : expand) :
  dname_turn data len x = Ret (Leave x') ->
  x' = x /\ 0 <= x_offset x < len.
Proof.
  intros H. unfold dname_turn in H.
  inv_bind H. apply load_Ret in E as (Hi & b & ->).
  destruct (u8 b =? 0).
  - inversion H; subst. split; [reflexivity | lia].
  - destruct (Z.land (u8 b) 192 =? 192).
    + destruct (len <? size_t (x_offset x + 2)); [discriminate|].
      inv_bind H. destruct (x_start x <=? _); discriminate.
    + destruct (len <? size_t (x_offset x + u8 b + 1)); [discriminate|].
      inv_bind H. destruct a. discriminate.
Qed.

Lemma dname_turn_Minus1 (x x' : expand) :
  dname_turn data len x = Ret (Minus1 x') -> x' = x.
Proof.
  intros H. unfold dname_turn in H. inv_bind H.
  destruct (a =? 0); [discriminate|].
  destruct (Z.land a 192 =? 192).
  - destruct (len <? size_t (x_offset x + 2)); [congruence|].
    inv_bind H. destruct (x_start x <=? _); [congruence | discriminate].
  - destruct (len <? size_t (x_offset x + a + 1)); [congruence|].
    inv_bind H. destruct a0. discriminate.
Qed.

Lemma dname_turn_fuel (x : expand) : dname_turn data len x <> OutOfFuel.
Proof.
  unfold dname_turn, load, load_bytes, bind.
  repeat match goal with
         | |- context [match ?c with _ => _ end] =>
             lazymatch c with
             | context [match _ with _ => _ end] => fail
             | _ => destruct c
             end
         end; discriminate.
Qed.

(** The loop ends before its fuel does. *)
Lemma dname_loop_fuel (fuel : nat) (x : expand) :
  expand_ok len x ->
  expand_measure len x < Z.of_nat fuel ->
  dname_loop fuel data len x <> OutOfFuel.
Proof.
  revert x. induction fuel as [|fuel IH]; intros x Hok Hm.
  - exfalso. destruct Hok as (Hs & Ho & He). unfold expand_measure in Hm.
    assert (0 <= x_start x * (len + 1)) by (apply Z.mul_nonneg_nonneg; lia).
    lia.
  - simpl. destruct (dname_turn data len x) as [t| |] eqn:E; simpl;
      try discriminate; [|apply dname_turn_fuel in E; contradiction].
    destruct t as [x'|x'|x']; try discriminate.
    apply dname_turn_Next in E as (Hok' & Hm' & _); [|exact Hok].
    apply IH; [exact Hok' | lia].
Qed.

(** What holds of the variables when the loop is left. *)
Lemma dname_loop_Ret (fuel : nat) (x x' : expand) (ok : bool) :
  expand_ok len x ->
  dname_loop fuel data len x = Ret (ok, x') ->
  expand_ok len x' /\ x_end x <= x_end x'
  /\ (ok = true -> x_offset x' < len).
Proof.
  revert x. induction fuel as [|fuel IH]; intros x Hok H; [discriminate|].
  simpl in H. inv_bind H. destruct a as [x1|x1|x1].
  - apply dname_turn_Next in E as (Hok' & _ & Hend); [|exact Hok].
    destruct (IH _ Hok' H) as (H1 & H2 & H3).
    split; [exact H1 | split; [lia | exact H3]].
  - apply dname_turn_Leave in E as (-> & Hlt). inversion H; subst.
    split; [exact Hok | split; [lia | intros _; lia]].
  - apply dname_turn_Minus1 in E as ->. inversion H; subst.
    split; [exact Hok | split; [lia | discriminate]].
Qed.

End Loop.

(** ** The cursor operations *)

Lemma dname_expand_fuel (data : list byte) (len offset : Z)
    (no : option Z) (dst : option (list byte)) (max : Z) :
  len = Z.of_nat (length data) -> len + 255 <= SIZE_MAX -> 0 <= offset ->
  dname_expand data len offset no dst max <> OutOfFuel.
Proof.
  intros Hlen Hfit Hoff. unfold dname_expand.
  destruct (Z.leb_spec len offset); [discriminate|].
  assert (Hok : expand_ok len (mk_expand offset offset offset 0 dst max))
    by (unfold expand_ok; simpl; lia).
  pose proof (dname_loop_fuel data len Hlen Hfit (dname_fuel len offset) _ Hok)
    as Hf.
  destruct (dname_loop _ data len _) as [[ok x]| |]; simpl.
  - destruct ok; discriminate.
  - discriminate.
  - exfalso. apply Hf; [|reflexivity].
    unfold expand_measure, dname_fuel; cbn [x_start x_offset].
    rewrite Nat2Z.inj_succ, Z2Nat.id by (apply Z.mul_nonneg_nonneg; lia). lia.
Qed.

Lemma dname_expand_Ret (data : list byte) (len offset : Z) (o : Z)
    (dst : option (list byte)) (max e : Z) (no : option Z)
    (d : option (list byte)) :
  len = Z.of_nat (length data) -> len + 255 <= SIZE_MAX -> 0 <= offset ->
  dname_expand data len offset (Some o) dst max = Ret (e, no, d) ->
  (e = -1 /\ no = Some o)
  \/ (exists o', no = Some o' /\ offset <= o' <= len).
Proof.
  intros Hlen Hfit Hoff H. unfold dname_expand in H.
  destruct (Z.leb_spec len offset).
  { inversion H; subst. left; split; reflexivity. }
  inv_bind H. destruct a as [ok x].
  assert (Hok : expand_ok len (mk_expand offset offset offset 0 dst max))
    by (unfold expand_ok; simpl; lia).
  apply (dname_loop_Ret data len Hlen Hfit) in E as (Hok' & Hend & Hlt);
    [|exact Hok].
  destruct Hok' as (Hs & Ho & He). cbn [x_end] in Hend.
  destruct ok; simpl in H; inversion H; subst; clear H.
  - right. specialize (Hlt eq_refl).
    rewrite (size_t_small (x_offset x + 1)) by lia.
    eexists; split; [reflexivity|].
    destruct (Z.ltb_spec (x_end x) (x_offset x + 1)); lia.
  - left; split; reflexivity.
Qed.

Lemma failed_None (p : unpack) : up_err p = None -> failed p = 0.
Proof. unfold failed. intros ->. reflexivity. Qed.

Lemma advances_refl (p : unpack) : cursor_ok p -> advances p p.
Proof. intros H. unfold advances. repeat split; try apply H; lia. Qed.

Lemma advances_trans (p q r : unpack) :
  advances p q -> advances q r -> advances p r.
Proof.
  intros (B1 & L1 & O1 & C1) (B2 & L2 & O2 & C2).
  unfold advances. repeat split; try apply C2; try congruence; lia.
Qed.

Lemma advances_set_err (p : unpack) (e : string) :
  cursor_ok p -> advances p (set_err p e).
Proof. intros H. unfold advances, cursor_ok in *; simpl. intuition lia. Qed.

Lemma unpack_data_ok (p : unpack) (data : list byte) (n : Z) :
  cursor_ok p -> 0 <= n -> read_ok p (unpack_data p data n).
Proof.
  intros Hp Hn c p' v H. unfold unpack_data in H.
  destruct (up_err p) as [e|] eqn:Ee.
  { inversion H; subst. split; [apply advances_refl; exact Hp|].
    split; [unfold failed; rewrite Ee; reflexivity | congruence]. }
  destruct Hp as (Hl & Ho & Hf).
  rewrite (size_t_small (up_len p - up_offset p)) in H by lia.
  destruct (Z.ltb_spec (up_len p - up_offset p) n).
  { inversion H; subst. split; [apply advances_set_err; repeat split; lia|].
    split; [reflexivity | discriminate]. }
  inv_bind H. inversion H; subst; clear H.
  rewrite (size_t_small (up_offset p + n)) by lia.
  unfold advances, cursor_ok, failed, set_offset; simpl. rewrite Ee.
  intuition lia.
Qed.

Lemma unpack_data_moves (p p' : unpack) (data v : list byte) (n : Z) :
  cursor_ok p -> 0 <= n ->
  unpack_data p data n = Ret (0, p', v) ->
  up_offset p' = up_offset p + n /\ Z.of_nat (length v) = n.
Proof.
  intros Hp Hn H. unfold unpack_data in H.
  destruct (up_err p) as [e|] eqn:Ee; [discriminate|].
  destruct Hp as (Hl & Ho & Hf).
  rewrite (size_t_small (up_len p - up_offset p)) in H by lia.
  destruct (Z.ltb_spec (up_len p - up_offset p) n); [discriminate|].
  inv_bind H. inversion H; subst; clear H.
  rewrite (size_t_small (up_offset p + n)) by lia.
  split; [reflexivity | eapply load_bytes_length; eassumption].
Qed.

Lemma unpack_u16_ok (p : unpack) (u16 : Z) :
  cursor_ok p -> read_ok p (unpack_u16 p u16).
Proof.
  intros Hp c p' v H. unfold unpack_u16 in H.
  inv_bind H. destruct a as [[r q] raw].
  apply (unpack_data_ok p [] 2 Hp ltac:(lia)) in E as (Ha & Hc & He).
  destruct (r =? -1) eqn:Er; inversion H; subst; clear H.
  - apply Z.eqb_eq in Er. repeat split; try apply Ha; tauto || congruence.
  - destruct (up_err p') eqn:Ee; unfold failed in *; rewrite Ee in *;
      [discriminate|]. repeat split; try apply Ha; tauto.
Qed.

Lemma unpack_u32_ok (p : unpack) (u32 : Z) :
  cursor_ok p -> read_ok p (unpack_u32 p u32).
Proof.
  intros Hp c p' v H. unfold unpack_u32 in H.
  inv_bind H. destruct a as [[r q] raw].
  apply (unpack_data_ok p [] 4 Hp ltac:(lia)) in E as (Ha & Hc & He).
  destruct (r =? -1) eqn:Er; inversion H; subst; clear H.
  - apply Z.eqb_eq in Er. repeat split; try apply Ha; tauto || congruence.
  - destruct (up_err p') eqn:Ee; unfold failed in *; rewrite Ee in *;
      [discriminate|]. repeat split; try apply Ha; tauto.
Qed.

Lemma unpack_dname_ok (p : unpack) (dst : list byte) (max : Z) :
  cursor_ok p -> read_ok p (unpack_dname p dst max).
Proof.
  intros Hp c p' v H. unfold unpack_dname in H.
  destruct (up_err p) as [e|] eqn:Ee.
  { inversion H; subst. split; [apply advances_refl; exact Hp|].
    split; [unfold failed; rewrite Ee; reflexivity | congruence]. }
  inv_bind H. destruct a as [[e no] written].
  destruct Hp as (Hl & Ho & Hf).
  apply dname_expand_Ret in E; try assumption; try lia.
  assert (Hadv : advances p (set_offset p (match no with
                                           | Some o => o
                                           | None => up_offset p
                                           end))).
  { unfold advances, cursor_ok, set_offset; simpl.
    destruct E as [(_ & ->)|(o' & -> & Hr)]; intuition lia. }
  destruct (e =? -1).
  { inversion H; subst; clear H. split; [|split; [reflexivity|discriminate]].
    eapply advances_trans; [exact Hadv|]. apply advances_set_err, Hadv. }
  destruct ((e <? 0) || (MAXDNAME <? e)).
  { inversion H; subst; clear H. split; [|split; [reflexivity|discriminate]].
    eapply advances_trans; [exact Hadv|]. apply advances_set_err, Hadv. }
  inversion H; subst; clear H. split; [exact Hadv|].
  unfold failed, set_offset; simpl. rewrite Ee. split; [reflexivity|tauto].
Qed.

Lemma be_value_u16 (raw : list byte) :
  length raw = 2%nat -> 0 <= be_value raw <= 65535.
Proof.
  destruct raw as [|a [|b [|c raw]]]; try discriminate. intros _.
  unfold be_value; cbn [fold_left].
  pose proof (u8_range a). pose proof (u8_range b). lia.
Qed.

Lemma unpack_u16_value (p p' : unpack) (u16 c v : Z) :
  cursor_ok p -> unpack_u16 p u16 = Ret (c, p', v) ->
  up_err p' = None -> 0 <= v <= 65535.
Proof.
  intros Hp H He. unfold unpack_u16 in H.
  inv_bind H. destruct a as [[r q] raw].
  pose proof (unpack_data_ok p [] 2 Hp ltac:(lia) _ _ _ E) as (_ & Hc & _).
  destruct (r =? -1) eqn:Er; inversion H; subst; clear H.
  - apply Z.eqb_eq in Er. unfold failed in Er. rewrite He in Er. discriminate.
  - rewrite (failed_None _ He) in E.
    apply unpack_data_moves in E as (_ & Hlen); [|exact Hp|lia].
    apply be_value_u16. lia.
Qed.

(** Runs one read of a chain: [H] is the run of the chain, [L] the lemma of
    its first read, [Hp] the state of the cursor before it. *)
Ltac read_step H L Hp :=
  let a := fresh "a" in
  let E := fresh "E" in
  let c := fresh "c" in
  let q := fresh "q" in
  let v := fresh "v" in
  let Ha := fresh "Ha" in
  let Hc := fresh "Hc" in
  let He := fresh "He" in
  apply bind_Ret in H as (a & E & H);
  destruct a as [[c q] v];
  pose proof (L Hp _ _ _ E) as (Ha & Hc & He).

(** Chains the moves of successive reads. *)
Ltac adv :=
  match goal with
  | H : advances ?a ?b |- advances ?a ?b => exact H
  | H : advances ?a ?b |- advances ?a ?c =>
      apply (advances_trans a b c H); adv
  end.

Lemma unpack_rr_head_ok (p p1 : unpack) (r r1 : dns_rr) (rdlen : Z) :
  cursor_ok p ->
  unpack_rr_head p r = Ret (p1, r1, rdlen) ->
  advances p p1
  /\ (up_err p1 = None -> up_err p = None /\ 0 <= rdlen <= 65535)
  /\ rr r1 = rr r.
Proof.
  intros Hp H. unfold unpack_rr_head in H.
  read_step H (unpack_dname_ok p (rr_dname r) MAXDNAME) Hp.
  assert (Hq : cursor_ok q) by apply Ha.
  read_step H (unpack_u16_ok q (rr_type r)) Hq.
  assert (Hq0 : cursor_ok q0) by apply Ha0.
  read_step H (unpack_u16_ok q0 (rr_class r)) Hq0.
  assert (Hq1 : cursor_ok q1) by apply Ha1.
  read_step H (unpack_u32_ok q1 (rr_ttl r)) Hq1.
  assert (Hq2 : cursor_ok q2) by apply Ha2.
  read_step H (unpack_u16_ok q2 0) Hq2.
  inversion H; subst; clear H. split; [|split; [|reflexivity]].
  - adv.
  - intros Hn. split; [tauto|]. eapply unpack_u16_value; eassumption.
Qed.

Lemma advances_other (p : unpack) (rdlen : Z) :
  cursor_ok p -> 0 <= rdlen -> rdlen <= up_len p - up_offset p ->
  advances p (set_offset p (size_t (up_offset p + rdlen)))
  /\ size_t (up_offset p + rdlen) = up_offset p + rdlen.
Proof.
  intros (Hl & Ho & Hf) H0 H1.
  rewrite size_t_small by lia.
  unfold advances, cursor_ok, set_offset; simpl. intuition lia.
Qed.

Lemma unpack_rr_switch_ok (p p2 : unpack) (r : dns_rr) (rdlen : Z)
    (u : rr_union) :
  cursor_ok p -> 0 <= rdlen -> rdlen <= up_len p - up_offset p ->
  unpack_rr_switch p r rdlen = Ret (p2, u) ->
  advances p p2
  /\ (other_arm (rr_type r) (rr_class r) = true ->
      u = rr_other rdlen (up_offset p)).
Proof.
  intros Hp H0 H1 H. unfold unpack_rr_switch, unpack_inaddr, unpack_in6addr in H.
  unfold other_arm.
  pose proof (advances_other p rdlen Hp H0 H1) as (Hoth & _).
  destruct (rr_type r =? T_CNAME).
  { read_step H (unpack_dname_ok p (rr_name1 (rr r)) MAXDNAME) Hp.
    inversion H; subst. split; [exact Ha | discriminate]. }
  destruct (rr_type r =? T_MX).
  { read_step H (unpack_u16_ok p (mx_preference (rr r))) Hp.
    assert (Hq : cursor_ok q) by apply Ha.
    read_step H (unpack_dname_ok q (mx_exchange (rr r)) MAXDNAME) Hq.
    inversion H; subst. split; [|discriminate].
    adv. }
  destruct (rr_type r =? T_NS).
  { read_step H (unpack_dname_ok p (rr_name1 (rr r)) MAXDNAME) Hp.
    inversion H; subst. split; [exact Ha | discriminate]. }
  destruct (rr_type r =? T_PTR).
  { read_step H (unpack_dname_ok p (rr_name1 (rr r)) MAXDNAME) Hp.
    inversion H; subst. split; [exact Ha | discriminate]. }
  destruct (rr_type r =? T_SOA).
  { read_step H (unpack_dname_ok p (rr_name1 (rr r)) MAXDNAME) Hp.
    assert (Hq : cursor_ok q) by apply Ha.
    read_step H (unpack_dname_ok q (soa_rname (rr r)) MAXDNAME) Hq.
    assert (Hq0 : cursor_ok q0) by apply Ha0.
    read_step H (unpack_u32_ok q0 (soa_word 0 (rr r))) Hq0.
    assert (Hq1 : cursor_ok q1) by apply Ha1.
    read_step H (unpack_u32_ok q1 (soa_word 1 (rr r))) Hq1.
    assert (Hq2 : cursor_ok q2) by apply Ha2.
    read_step H (unpack_u32_ok q2 (soa_word 2 (rr r))) Hq2.
    assert (Hq3 : cursor_ok q3) by apply Ha3.
    read_step H (unpack_u32_ok q3 (soa_word 3 (rr r))) Hq3.
    assert (Hq4 : cursor_ok q4) by apply Ha4.
    read_step H (unpack_u32_ok q4 (soa_word 4 (rr r))) Hq4.
    inversion H; subst. split; [|discriminate].
    adv. }
  destruct (rr_type r =? T_A).
  { destruct (rr_class r =? C_IN); cbn [negb] in H.
    - assert (H4 : 0 <= 4) by lia.
      read_step H (unpack_data_ok p (in_addr_bytes (rr r)) 4 Hp) H4.
      inversion H; subst. split; [exact Ha | discriminate].
    - inversion H; subst. split; [exact Hoth | reflexivity]. }
  destruct (rr_type r =? T_AAAA).
  { destruct (rr_class r =? C_IN); cbn [negb] in H.
    - assert (H16 : 0 <= 16) by lia.
      read_step H (unpack_data_ok p (in_addr_bytes (rr r)) 16 Hp) H16.
      inversion H; subst. split; [exact Ha | discriminate].
    - inversion H; subst. split; [exact Hoth | reflexivity]. }
  inversion H; subst. split; [exact Hoth | reflexivity].
Qed.

(** ** Resource records *)

Lemma set_err_failed (p : unpack) (e : string) : failed (set_err p e) = -1.
Proof. reflexivity. Qed.

(** [unpack_rr] between its five opening reads and its return. *)
Lemma unpack_rr_unfold (p p1 : unpack) (r r1 : dns_rr) (rdlen : Z) :
  unpack_rr_head p r = Ret (p1, r1, rdlen) ->
  unpack_rr p r =
  match up_err p1 with
  | Some _ => Ret (-1, p1, r1)
  | None =>
      if size_t (up_len p1 - up_offset p1) <? rdlen
      then Ret (-1, set_err p1 "too short", r1)
      else
        '(p2, u) <- unpack_rr_switch p1 r1 rdlen ;;
        match up_err p2 with
        | Some _ => Ret (-1, p2, set_rr r1 u)
        | None =>
            let p3 := if negb (size_t (up_offset p2 - up_offset p1) =? rdlen)
                      then set_err p2 "bad dlen" else p2 in
            Ret (failed p3, p3, set_rr r1 u)
        end
  end.
Proof. intros H. unfold unpack_rr. rewrite H. reflexivity. Qed.

(** C6. Whenever [unpack_rr] succeeds, the cursor stands exactly [rdlen]
    bytes after the position saved before the body was decoded, [rdlen]
    being the value read from the wire; and when the body decodes without
    error over another number of bytes, [unpack_rr] returns -1 and leaves
    the error "bad dlen" in the cursor. *)
Theorem unpack_rr_consumes_rdlen (p p1 : unpack) (r r1 : dns_rr) (rdlen : Z) :
  cursor_ok p ->
  unpack_rr_head p r = Ret (p1, r1, rdlen) ->
  (forall p' r',
      unpack_rr p r = Ret (0, p', r') ->
      up_offset p' - up_offset p1 = rdlen)
  /\ (forall p2 u,
         up_err p1 = None ->
         rdlen <= up_len p1 - up_offset p1 ->
         unpack_rr_switch p1 r1 rdlen = Ret (p2, u) ->
         up_err p2 = None ->
         up_offset p2 - up_offset p1 <> rdlen ->
         unpack_rr p r = Ret (-1, set_err p2 "bad dlen", set_rr r1 u)).
Proof.
  intros Hp Hhead.
  pose proof (unpack_rr_head_ok p p1 r r1 rdlen Hp Hhead) as (Hadv & Hrd & _).
  assert (Hp1 : cursor_ok p1) by apply Hadv.
  rewrite (unpack_rr_unfold p p1 r r1 rdlen Hhead).
  assert (Hsub : size_t (up_len p1 - up_offset p1) = up_len p1 - up_offset p1).
  { destruct Hp1 as (Hl & Ho & Hf). apply size_t_small. lia. }
  rewrite Hsub. split.
  - intros p' r' H.
    destruct (up_err p1) eqn:E1; [discriminate|].
    destruct (Hrd eq_refl) as (_ & Hr).
    destruct (Z.ltb_spec (up_len p1 - up_offset p1) rdlen); [discriminate|].
    inv_bind H. destruct a as [p2 u].
    apply unpack_rr_switch_ok in E as (Hadv2 & _); [|exact Hp1|lia|lia].
    destruct (up_err p2) eqn:E2; [discriminate|].
    assert (Hdiff : size_t (up_offset p2 - up_offset p1)
                    = up_offset p2 - up_offset p1).
    { destruct Hadv2 as (_ & _ & Hle & (Hl & Ho & Hf)).
      destruct Hp1 as (_ & Ho1 & _). apply size_t_small. lia. }
    rewrite Hdiff in H.
    destruct (Z.eqb_spec (up_offset p2 - up_offset p1) rdlen) as [Heq|Hne];
      cbn [negb] in H; [|rewrite set_err_failed in H; discriminate].
    inversion H; subst; clear H. reflexivity.
  - intros p2 u E1 Hfit Hsw E2 Hne. rewrite E1.
    destruct (Hrd E1) as (_ & Hr).
    destruct (Z.ltb_spec (up_len p1 - up_offset p1) rdlen); [lia|].
    rewrite Hsw. cbn [bind]. rewrite E2.
    pose proof (unpack_rr_switch_ok p1 p2 r1 rdlen u Hp1 ltac:(lia) Hfit Hsw)
      as (Hadv2 & _).
    assert (Hdiff : size_t (up_offset p2 - up_offset p1)
                    = up_offset p2 - up_offset p1).
    { destruct Hadv2 as (_ & _ & Hle & (Hl & Ho & Hf)).
      destruct Hp1 as (_ & Ho1 & _). apply size_t_small. lia. }
    rewrite Hdiff.
    destruct (Z.eqb_spec (up_offset p2 - up_offset p1) rdlen) as [Heq|_];
      [contradiction|]. reflexivity.
Qed.

(** ** The decoder returns *)

Lemma load_bytes_fuel (data : list byte) (i n : Z) :
  load_bytes data i n <> OutOfFuel.
Proof.
  unfold load_bytes. destruct (i <? 0); [discriminate|].
  destruct (_ <? _); discriminate.
Qed.

(** A read that returns, followed by a continuation that returns on every
    cursor the read can leave, returns. *)
Lemma read_then_fuel {A B : Type} (p : unpack) (r : result (Z * unpack * A))
    (k : Z * unpack * A -> result B) :
  r <> OutOfFuel -> read_ok p r ->
  (forall c q v, cursor_ok q -> up_buf q = up_buf p -> k (c, q, v) <> OutOfFuel) ->
  bind r k <> OutOfFuel.
Proof.
  intros Hr Hok Hk. destruct r as [[[c q] v]| |]; cbn [bind].
  - destruct (Hok c q v eq_refl) as ((Hb & _ & _ & Hq) & _). apply Hk; assumption.
  - discriminate.
  - contradiction.
Qed.

Lemma unpack_data_fuel (p : unpack) (data : list byte) (n : Z) :
  unpack_data p data n <> OutOfFuel.
Proof.
  unfold unpack_data. destruct (up_err p); [discriminate|].
  destruct (_ <? _); [discriminate|].
  pose proof (load_bytes_fuel (up_buf p) (up_offset p) n) as H.
  destruct (load_bytes _ _ _); cbn [bind]; [discriminate|discriminate|exfalso; apply H; reflexivity].
Qed.

Lemma unpack_u16_fuel (p : unpack) (u16 : Z) : unpack_u16 p u16 <> OutOfFuel.
Proof.
  unfold unpack_u16. pose proof (unpack_data_fuel p [] 2) as H.
  destruct (unpack_data p [] 2) as [[[c q] v]| |]; cbn [bind];
    [destruct (c =? -1); discriminate | discriminate | exfalso; apply H; reflexivity].
Qed.

Lemma unpack_u32_fuel (p : unpack) (u32 : Z) : unpack_u32 p u32 <> OutOfFuel.
Proof.
  unfold unpack_u32. pose proof (unpack_data_fuel p [] 4) as H.
  destruct (unpack_data p [] 4) as [[[c q] v]| |]; cbn [bind];
    [destruct (c =? -1); discriminate | discriminate | exfalso; apply H; reflexivity].
Qed.

Lemma unpack_dname_fuel (p : unpack) (dst : list byte) (max : Z) :
  cursor_ok p -> unpack_dname p dst max <> OutOfFuel.
Proof.
  intros (Hl & Ho & Hf). unfold unpack_dname.
  destruct (up_err p); [discriminate|].
  pose proof (dname_expand_fuel (up_buf p) (up_len p) (up_offset p)
                (Some (up_offset p)) (Some []) max Hl Hf ltac:(lia)) as H.
  destruct (dname_expand _ _ _ _ _ _) as [[[e no] w]| |]; cbn [bind];
    [|discriminate|exfalso; apply H; reflexivity].
  destruct (e =? -1); [discriminate|].
  destruct ((e <? 0) || (MAXDNAME <? e)); discriminate.
Qed.

(** Peels the first read off a chain of reads that has to return. *)
Ltac fuel_read Lfuel Lok Hp :=
  let c := fresh "c" in
  let q := fresh "q" in
  let v := fresh "v" in
  let Hq := fresh "Hq" in
  let Hb := fresh "Hb" in
  eapply read_then_fuel;
  [ apply Lfuel; try exact Hp
  | apply Lok; try exact Hp; try lia
  | intros c q v Hq Hb; cbn beta iota ].

Lemma unpack_header_fuel (p : unpack) (h : dns_header) :
  unpack_header p h <> OutOfFuel.
Proof.
  unfold unpack_header. pose proof (unpack_data_fuel p [] HFIXEDSZ) as H.
  destruct (unpack_data p [] HFIXEDSZ) as [[[c q] v]| |]; cbn [bind];
    [destruct (c =? -1); discriminate | discriminate | exfalso; apply H; reflexivity].
Qed.

Lemma unpack_query_fuel (p : unpack) (q : dns_query) :
  cursor_ok p -> unpack_query p q <> OutOfFuel.
Proof.
  intros Hp. unfold unpack_query.
  fuel_read unpack_dname_fuel unpack_dname_ok Hp.
  fuel_read unpack_u16_fuel unpack_u16_ok Hq.
  fuel_read unpack_u16_fuel unpack_u16_ok Hq0.
  discriminate.
Qed.

Lemma unpack_rr_head_fuel (p : unpack) (r : dns_rr) :
  cursor_ok p -> unpack_rr_head p r <> OutOfFuel.
Proof.
  intros Hp. unfold unpack_rr_head.
  fuel_read unpack_dname_fuel unpack_dname_ok Hp.
  fuel_read unpack_u16_fuel unpack_u16_ok Hq.
  fuel_read unpack_u16_fuel unpack_u16_ok Hq0.
  fuel_read unpack_u32_fuel unpack_u32_ok Hq1.
  fuel_read unpack_u16_fuel unpack_u16_ok Hq2.
  discriminate.
Qed.

Lemma unpack_rr_switch_fuel (p : unpack) (r : dns_rr) (rdlen : Z) :
  cursor_ok p -> unpack_rr_switch p r rdlen <> OutOfFuel.
Proof.
  intros Hp. unfold unpack_rr_switch, unpack_inaddr, unpack_in6addr.
  destruct (rr_type r =? T_CNAME).
  { fuel_read unpack_dname_fuel unpack_dname_ok Hp. discriminate. }
  destruct (rr_type r =? T_MX).
  { fuel_read unpack_u16_fuel unpack_u16_ok Hp.
    fuel_read unpack_dname_fuel unpack_dname_ok Hq. discriminate. }
  destruct (rr_type r =? T_NS).
  { fuel_read unpack_dname_fuel unpack_dname_ok Hp. discriminate. }
  destruct (rr_type r =? T_PTR).
  { fuel_read unpack_dname_fuel unpack_dname_ok Hp. discriminate. }
  destruct (rr_type r =? T_SOA).
  { fuel_read unpack_dname_fuel unpack_dname_ok Hp.
    fuel_read unpack_dname_fuel unpack_dname_ok Hq.
    fuel_read unpack_u32_fuel unpack_u32_ok Hq0.
    fuel_read unpack_u32_fuel unpack_u32_ok Hq1.
    fuel_read unpack_u32_fuel unpack_u32_ok Hq2.
    fuel_read unpack_u32_fuel unpack_u32_ok Hq3.
    fuel_read unpack_u32_fuel unpack_u32_ok Hq4.
    discriminate. }
  destruct (rr_type r =? T_A).
  { destruct (negb (rr_class r =? C_IN)); [discriminate|].
    fuel_read unpack_data_fuel unpack_data_ok Hp. discriminate. }
  destruct (rr_type r =? T_AAAA).
  { destruct (negb (rr_class r =? C_IN)); [discriminate|].
    fuel_read unpack_data_fuel unpack_data_ok Hp. discriminate. }
  discriminate.
Qed.

(** Every decoding function returns or stops on a load outside the buffer:
    none runs without end, whatever the bytes of the buffer. *)
Lemma unpack_rr_fuel (p : unpack) (r : dns_rr) :
  cursor_ok p -> unpack_rr p r <> OutOfFuel.
Proof.
  intros Hp. unfold unpack_rr.
  pose proof (unpack_rr_head_fuel p r Hp) as Hh.
  destruct (unpack_rr_head p r) as [[[p1 r1] rdlen]| |] eqn:Hhead;
    cbn [bind]; [|discriminate|exfalso; auto].
  pose proof (unpack_rr_head_ok p p1 r r1 rdlen Hp Hhead) as (Hadv & _).
  assert (Hp1 : cursor_ok p1) by apply Hadv.
  destruct (up_err p1); [discriminate|].
  destruct (_ <? rdlen); [discriminate|].
  pose proof (unpack_rr_switch_fuel p1 r1 rdlen Hp1) as Hs.
  destruct (unpack_rr_switch p1 r1 rdlen) as [[p2 u]| |]; cbn [bind];
    [|discriminate|exfalso; auto].
  destruct (up_err p2); discriminate.
Qed.

(** ** Compression pointers *)

Lemma dname_turn_loads (data : list byte) (len : Z) (x : expand) (t : turn) :
  dname_turn data len x = Ret t ->
  0 <= x_offset x < Z.of_nat (length data).
Proof.
  intros H. unfold dname_turn in H. inv_bind H.
  apply load_Ret in E. tauto.
Qed.

Lemma pointer_range (data : list byte) (x : expand) (ptr : Z) :
  pointer_at data x ptr -> 0 <= ptr < 16384.
Proof.
  intros (n & b & Hn & _ & Hb & ->).
  apply load_Ret in Hn as (_ & bn & ->). apply load_Ret in Hb as (_ & bb & ->).
  pose proof (land_low6 bn). pose proof (u8_range bb). lia.
Qed.

(** The turn the loop takes on a pointer. *)
Lemma dname_turn_pointer (data : list byte) (len : Z) (x : expand) (ptr : Z) :
  len = Z.of_nat (length data) -> len + 255 <= SIZE_MAX ->
  pointer_at data x ptr ->
  dname_turn data len x =
  if x_start x <=? ptr then Ret (Minus1 x)
  else Ret (Next (mk_expand ptr ptr
                    (if x_end x <? x_offset x + 2
                     then x_offset x + 2 else x_end x)
                    (x_res x) (x_dst x) (x_max x))).
Proof.
  intros Hlen Hfit Hptr. pose proof (pointer_range _ _ _ Hptr) as Hr.
  destruct Hptr as (n & b & Hn & Hland & Hb & ->).
  unfold dname_turn. rewrite Hn. cbn [bind].
  destruct (Z.eqb_spec n 0) as [->|_]; [discriminate Hland|].
  rewrite Hland, Z.eqb_refl, Hb. cbn [bind].
  pose proof (load_Ret _ _ _ Hn) as (Hi & _).
  pose proof (load_Ret _ _ _ Hb) as (Hi2 & _).
  rewrite (size_t_small (x_offset x + 1)) in Hi2 by lia.
  rewrite (size_t_small (x_offset x + 2)) by lia.
  rewrite (size_t_small (256 * _ + b)) by (unfold SIZE_MAX; lia).
  destruct (Z.ltb_spec len (x_offset x + 2)); [lia|]. reflexivity.
Qed.

(** After some turns the loop is the loop started where they lead. *)
Lemma turns_loop (data : list byte) (len : Z) (x y : expand) :
  turns data len x y ->
  forall fuel, dname_loop fuel data len x <> OutOfFuel ->
  exists fuel', dname_loop fuel' data len y = dname_loop fuel data len x.
Proof.
  induction 1 as [x|x y z Hturn _ IH]; intros fuel Hf.
  - exists fuel. reflexivity.
  - destruct fuel as [|fuel]; [exfalso; apply Hf; reflexivity|].
    cbn [dname_loop] in *. rewrite Hturn in *. cbn [bind] in *.
    apply IH, Hf.
Qed.

Lemma turns_loads (data : list byte) (len : Z) (x y : expand) (ptr : Z) :
  turns data len x y -> pointer_at data y ptr ->
  0 <= x_offset x < Z.of_nat (length data).
Proof.
  intros [x0|x0 y0 z0 Hturn _] Hptr.
  - destruct Hptr as (n & _ & Hn & _). apply load_Ret in Hn. tauto.
  - eapply dname_turn_loads, Hturn.
Qed.

Lemma dname_loop_init_fuel (data : list byte) (len offset : Z)
    (dst : option (list byte)) (max : Z) :
  len = Z.of_nat (length data) -> len + 255 <= SIZE_MAX ->
  0 <= offset < len ->
  dname_loop (dname_fuel len offset) data len (expand_init offset dst max)
  <> OutOfFuel.
Proof.
  intros Hlen Hfit Hoff.
  apply dname_loop_fuel; try assumption.
  - unfold expand_ok, expand_init; simpl; lia.
  - unfold expand_measure, dname_fuel, expand_init; cbn [x_start x_offset].
    rewrite Nat2Z.inj_succ, Z2Nat.id by (apply Z.mul_nonneg_nonneg; lia). lia.
Qed.

(** C4. A length byte with both high bits set is, with the byte after it, a
    pointer of 14 bits. When the expansion [unpack_dname] starts comes to
    such a byte, a target at or after the start of the name being expanded
    makes [unpack_dname] return -1 with the error "bad domain name"; a
    target before that start lets the loop go on at the target; and the
    decode succeeds only if the target is before the start. *)
Theorem pointer_before_start (p : unpack) (dst : list byte) (max : Z)
    (x : expand) (ptr : Z) :
  cursor_ok p -> up_err p = None ->
  turns (up_buf p) (up_len p) (expand_init (up_offset p) (Some []) max) x ->
  pointer_at (up_buf p) x ptr ->
  0 <= ptr < 16384
  /\ (x_start x <= ptr ->
      exists d, unpack_dname p dst max
                = Ret (-1, set_err p "bad domain name", d))
  /\ (ptr < x_start x ->
      exists e, dname_turn (up_buf p) (up_len p) x
                = Ret (Next (mk_expand ptr ptr e (x_res x) (x_dst x) (x_max x))))
  /\ (forall p' d, unpack_dname p dst max = Ret (0, p', d) -> ptr < x_start x).
Proof.
  intros (Hlen & Hoff & Hfit) Herr Hturns Hptr.
  pose proof (dname_turn_pointer _ _ _ _ Hlen Hfit Hptr) as Hturn.
  assert (Hbad : x_start x <= ptr ->
                 exists d, unpack_dname p dst max
                           = Ret (-1, set_err p "bad domain name", d)).
  { intros Hge.
    pose proof (turns_loads _ _ _ _ _ Hturns Hptr) as Hin.
    cbn [x_offset expand_init] in Hin. rewrite <- Hlen in Hin.
    pose proof (dname_loop_init_fuel (up_buf p) (up_len p) (up_offset p)
                  (Some []) max Hlen Hfit Hin) as Hfuel.
    destruct (turns_loop _ _ _ _ Hturns _ Hfuel) as (fuel' & Hloop).
    destruct fuel' as [|fuel'].
    { exfalso. apply Hfuel. rewrite <- Hloop. reflexivity. }
    cbn [dname_loop] in Hloop. rewrite Hturn in Hloop.
    destruct (Z.leb_spec (x_start x) ptr); [|lia]. cbn [bind] in Hloop.
    unfold unpack_dname. rewrite Herr. unfold dname_expand.
    destruct (Z.leb_spec (up_len p) (up_offset p)); [lia|].
    unfold expand_init in Hloop. rewrite <- Hloop. cbn.
    eexists. reflexivity. }
  split; [eapply pointer_range; exact Hptr|].
  split; [exact Hbad|]. split.
  - intros Hlt. rewrite Hturn.
    destruct (Z.leb_spec (x_start x) ptr); [lia|]. eexists. reflexivity.
  - intros p' d H.
    destruct (Z.lt_ge_cases ptr (x_start x)) as [Hlt|Hge]; [exact Hlt|].
    destruct (Hbad Hge) as (d' & Hd). rewrite Hd in H. discriminate.
Qed.

(** ** Length of the expanded name *)

Lemma dname_turn_dst (data : list byte) (len max0 : Z) (x x' : expand) :
  max0 <= SIZE_MAX -> dst_ok max0 x ->
  dname_turn data len x = Ret (Next x') ->
  dst_ok max0 x'.
Proof.
  intros Hmax (Hres & Hm & w & Hw & Hsum & Hlen) H. unfold dname_turn in H.
  inv_bind H. apply load_Ret in E as (Hi & b & ->).
  pose proof (u8_range b) as Hb.
  destruct (u8 b =? 0); [discriminate|].
  destruct (Z.land (u8 b) 192 =? 192).
  - destruct (len <? size_t (x_offset x + 2)); [discriminate|].
    inv_bind H.
    destruct (x_start x <=? _); [discriminate|].
    inversion H; subst x'; clear H. unfold dst_ok; cbn [x_res x_max x_dst].
    repeat split; try assumption. exists w. tauto.
  - destruct (len <? size_t (x_offset x + u8 b + 1)); [discriminate|].
    inv_bind H. destruct a as [dst max].
    inversion H; subst x'; clear H. unfold dst_ok; cbn [x_res x_max x_dst].
    rewrite Hw in E.
    destruct (Z.eqb_spec (x_max x) 0) as [Hz|Hnz].
    + inversion E; subst; clear E.
      split; [lia|]. split; [lia|]. exists w. repeat split; lia.
    + rewrite (size_t_small (u8 b + 1)) in E by (unfold SIZE_MAX; lia).
      inv_bind E. inversion E; subst; clear E.
      set (count := if x_max x <? u8 b + 1 then x_max x else u8 b + 1) in *.
      assert (Hc : 0 <= count <= x_max x /\ count <= u8 b + 1
                   /\ (count = x_max x \/ count = u8 b + 1)).
      { unfold count. destruct (Z.ltb_spec (x_max x) (u8 b + 1)); lia. }
      apply load_bytes_length in E0; [|lia].
      rewrite (size_t_small (x_max x - count)) by lia.
      split; [lia|]. split; [lia|]. exists (w ++ a).
      rewrite length_app, Nat2Z.inj_add. repeat split; lia.
Qed.

Lemma dname_loop_dst (data : list byte) (len max0 : Z) (fuel : nat)
    (x x' : expand) (ok : bool) :
  max0 <= SIZE_MAX -> dst_ok max0 x ->
  dname_loop fuel data len x = Ret (ok, x') ->
  dst_ok max0 x'.
Proof.
  intros Hmax. revert x. induction fuel as [|fuel IH]; intros x Hx H;
    [discriminate|].
  cbn [dname_loop] in H. inv_bind H. destruct a as [x1|x1|x1].
  - eapply IH; [|exact H]. eapply dname_turn_dst; eassumption.
  - unfold dname_turn in E. inv_bind E.
    destruct (a =? 0).
    + inversion E; inversion H; subst. exact Hx.
    + destruct (Z.land a 192 =? 192).
      * destruct (len <? size_t (x_offset x + 2)); [discriminate|].
        inv_bind E. destruct (x_start x <=? _); discriminate.
      * destruct (len <? size_t (x_offset x + a + 1)); [discriminate|].
        inv_bind E. destruct a0. discriminate.
  - unfold dname_turn in E. inv_bind E.
    destruct (a =? 0); [discriminate|].
    destruct (Z.land a 192 =? 192).
    + destruct (len <? size_t (x_offset x + 2)).
      { inversion E; inversion H; subst. exact Hx. }
      inv_bind E. destruct (x_start x <=? _); [|discriminate].
      inversion E; inversion H; subst. exact Hx.
    + destruct (len <? size_t (x_offset x + a + 1)).
      { inversion E; inversion H; subst. exact Hx. }
      inv_bind E. destruct a0. discriminate.
Qed.

(** The value [dname_expand] returns is the length of the expanded name,
    of which [dst] received the first [max] bytes. *)
Lemma dname_expand_length (data : list byte) (len offset max e : Z)
    (no no' : option Z) (d : option (list byte)) :
  0 <= max <= SIZE_MAX ->
  dname_expand data len offset no (Some []) max = Ret (e, no', d) ->
  e <> -1 ->
  1 <= e /\ exists name, d = Some name /\ Z.of_nat (length name) = Z.min e max.
Proof.
  intros Hmax H He. unfold dname_expand in H.
  destruct (len <=? offset); [inversion H; subst; contradiction|].
  inv_bind H. destruct a as [ok x].
  apply (dname_loop_dst data len max) in E; [|lia|].
  2:{ unfold dst_ok; simpl. split; [lia|]. split; [lia|].
      exists []. simpl. repeat split; lia. }
  destruct E as (Hres & Hm & w & Hw & Hsum & Hlen).
  destruct ok; cbn [negb] in H; [|inversion H; subst; contradiction].
  inversion H; subst; clear H. split; [lia|]. rewrite Hw.
  destruct (Z.eqb_spec (x_max x) 0).
  - exists w. split; [reflexivity | lia].
  - exists (w ++ [x00]). split; [reflexivity|].
    rewrite length_app, Nat2Z.inj_add. simpl. lia.
Qed.

(** C5. [MAXDNAME] is 255. When the expansion of a name yields its on-wire
    length [e] (the length-prefixed labels and the closing zero byte, of
    which [dst] received the first [max] bytes), [unpack_dname] fails, with
    the error "domain name too long", exactly when [e] exceeds 255. *)
Theorem dname_too_long_iff (p : unpack) (dst : list byte) (max e : Z)
    (no : option Z) (d : option (list byte)) :
  up_err p = None -> 0 <= max <= SIZE_MAX ->
  dname_expand (up_buf p) (up_len p) (up_offset p) (Some (up_offset p))
               (Some []) max = Ret (e, no, d) ->
  e <> -1 ->
  MAXDNAME = 255
  /\ (exists name, d = Some name /\ Z.of_nat (length name) = Z.min e max)
  /\ exists p' d',
       unpack_dname p dst max = Ret (if 255 <? e then -1 else 0, p', d')
       /\ up_err p' = if 255 <? e then Some "domain name too long"%string
                      else None.
Proof.
  intros Herr Hmax H He.
  destruct (dname_expand_length _ _ _ _ _ _ _ _ Hmax H He) as (H1 & Hname).
  split; [reflexivity|]. split; [exact Hname|].
  unfold unpack_dname. rewrite Herr, H. cbn [bind].
  destruct (Z.eqb_spec e (-1)); [contradiction|].
  destruct (Z.ltb_spec e 0); [lia|]. cbn [orb]. unfold MAXDNAME.
  destruct (255 <? e); eexists; eexists; (split; [reflexivity|]).
  - reflexivity.
  - cbn. exact Herr.
Qed.

(** ** The address-literal recognizer *)

(** [domainname_is_addr] either returns 0 and its arguments as they were,
    or returns 1. *)
Lemma domainname_is_addr_cases
    (getaddrinfo : list byte -> ai_hints -> Z * option addrinfo)
    (s : list byte) (sa : option (list byte)) (sl : option Z) :
  domainname_is_addr getaddrinfo s sa sl = (0, sa, sl)
  \/ fst (fst (domainname_is_addr getaddrinfo s sa sl)) = 1.
Proof.
  unfold domainname_is_addr.
  destruct s as [|c s]; [left; reflexivity|].
  destruct (negb (u8 c =? 91)); [left; reflexivity|].
  match goal with |- context [if ?b then (0, sa, sl) else _] => destruct b end;
    [left; reflexivity|].
  destruct (getaddrinfo _ _) as [error [res|]]; [|left; reflexivity].
  right. destruct sa, sl; reflexivity.
Qed.

(** C9. Whenever [domainname_is_addr] returns 0, the socket-address buffer
    and the length it was given are returned as they were; they are written
    only on the path that returns 1. *)
Theorem domainname_is_addr_frame
    (getaddrinfo : list byte -> ai_hints -> Z * option addrinfo)
    (s : list byte) (sa : option (list byte)) (sl : option Z) :
  fst (fst (domainname_is_addr getaddrinfo s sa sl)) = 0 ->
  domainname_is_addr getaddrinfo s sa sl = (0, sa, sl).
Proof.
  intros H0.
  destruct (domainname_is_addr_cases getaddrinfo s sa sl) as [H|H];
    [exact H | rewrite H in H0; discriminate].
Qed.

(** ** Completion of a host lookup *)

Lemma found_count_app (l1 l2 : list message) :
  found_count (l1 ++ l2) = found_count l1 + found_count l2.
Proof.
  unfold found_count. rewrite filter_app, length_app. lia.
Qed.

Lemma host_addresses_spec (ai : list addrinfo) (lookup : dns_lookup) :
  forall (s : dns_session) (w : world),
    0 <= s_mxfound s ->
    s_mxfound s + Z.of_nat (length ai) <= SIZE_MAX ->
    host_addresses ai lookup s w =
    (mk_session (s_p s) (s_reqid s) (s_type s) (s_name s)
                (s_mxfound s + Z.of_nat (length ai)) (s_error s)
                (s_refcount s),
     mk_world (w_session w) (w_events w)
              (w_sent w
               ++ map (fun a => host_msg s (ai_addr a) (l_preference lookup))
                      ai)).
Proof.
  induction ai as [|a ai IH]; intros s w H0 Hmax.
  - cbn [host_addresses length map]. rewrite Z.add_0_r, app_nil_r.
    destruct s, w; reflexivity.
  - cbn [host_addresses]. cbn [length] in Hmax.
    rewrite (size_t_small (s_mxfound s + 1)) by lia.
    rewrite IH; cbn [s_mxfound s_p s_reqid s_type s_name s_error s_refcount];
      try lia.
    unfold send, host_msg;
      cbn [w_session w_events w_sent s_p s_reqid map length].
    rewrite <- app_assoc. cbn [app].
    f_equal. f_equal. lia.
Qed.

Lemma found_count_host_msgs (s : dns_session) (pref : Z) (ai : list addrinfo) :
  found_count (map (fun a => host_msg s (ai_addr a) pref) ai)
  = Z.of_nat (length ai).
Proof.
  unfold found_count. induction ai as [|a ai IH]; [reflexivity|].
  cbn [map filter is_host_msg host_msg msg_type length]. lia.
Qed.

Lemma found_count_host_end (s : dns_session) (e : dns_error) :
  found_count [host_end s e] = 0.
Proof. reflexivity. Qed.

(** C7. When the completion of a host lookup brings the refcount of its
    session to zero, the terminator is sent after the address messages of
    that completion and the session is freed; its status is [DNS_OK] if and
    only if the number of address messages sent for the request is greater
    than zero, whatever error the completion carries ([ar_gai_errno]) and
    whatever error the session has recorded ([s_error]). *)
Theorem terminator_ok_iff_found (ar : asr_result) (lookup : dns_lookup)
    (w : world) (s : dns_session) :
  w_session w = Some s ->
  s_refcount s - 1 = 0 ->
  s_mxfound s = found_count (w_sent w) ->
  found_count (w_sent w) + Z.of_nat (length (ar_addrinfo ar)) <= SIZE_MAX ->
  exists w' status,
    dns_dispatch_host ar lookup w = Ret w'
    /\ w_session w' = None
    /\ w_sent w'
       = (w_sent w
          ++ map (fun a => host_msg s (ai_addr a) (l_preference lookup))
                 (ar_addrinfo ar))
         ++ [host_end s status]
    /\ (status = DNS_OK <-> 0 < found_count (w_sent w')).
Proof.
  intros Hs Href Hfound Hmax.
  assert (H0 : 0 <= s_mxfound s)
    by (rewrite Hfound; unfold found_count; lia).
  unfold dns_dispatch_host, the_session. rewrite Hs. cbn [bind].
  rewrite host_addresses_spec by lia.
  set (n := Z.of_nat (length (ar_addrinfo ar))) in *.
  destruct (negb (ar_gai_errno ar =? 0));
    cbn [s_p s_reqid s_type s_name s_mxfound s_error s_refcount];
    rewrite Href; cbn [Z.eqb negb];
    (eexists; eexists; split; [reflexivity|];
     split; [reflexivity|]; split; [reflexivity|];
     cbn [free_session send set_session w_sent];
     rewrite !found_count_app, found_count_host_msgs, found_count_host_end;
     fold n; rewrite <- Hfound;
     destruct (Z.eqb_spec (s_mxfound s + n) 0); cbn [negb];
     split; intros; try discriminate; try reflexivity; lia).
Qed.

(** ** Fan-out of an MX answer *)

Lemma dns_lookup_host_spec (w : world) (s : dns_session) (host : list byte)
    (preference : Z) :
  w_session w = Some s ->
  dns_lookup_host w host preference =
  Ret (mk_world
         (Some (mk_session (s_p s) (s_reqid s) (s_type s) (s_name s)
                           (s_mxfound s) (s_error s) (s_refcount s + 1)))
         (w_events w
          ++ [(getaddrinfo_async (bare_host host) (mk_hints false PF_UNSPEC),
               dispatch_host (mk_lookup preference))])
         (w_sent w)).
Proof.
  intros Hs. unfold dns_lookup_host, the_session. rewrite Hs. reflexivity.
Qed.

Lemma mx_records_cons (r : dns_rr) (rrs : list dns_rr) :
  mx_records (r :: rrs)
  = if rr_type r =? T_MX then r :: mx_records rrs else mx_records rrs.
Proof. reflexivity. Qed.

Lemma mx_walk_spec (ancount : nat) :
  forall (pack : unpack) (r : dns_rr) (w : world) (found : Z)
         (rrs : list dns_rr) (s : dns_session),
    w_session w = Some s ->
    0 <= found -> found + Z.of_nat ancount <= SIZE_MAX ->
    answer_section ancount pack r = Ret rrs ->
    Forall (fun m => exists host, exchange_host m = Ret host)
           (mx_records rrs) ->
    exists w' new,
      mx_walk ancount pack r w found
      = Ret (w', found + Z.of_nat (length new))
      /\ w_events w' = w_events w ++ new
      /\ w_sent w' = w_sent w
      /\ Forall2 spawned_for (mx_records rrs) new
      /\ exists s',
           w_session w' = Some s'
           /\ s_name s' = s_name s
           /\ s_refcount s' = s_refcount s + Z.of_nat (length new).
Proof.
  assert (Hnone : forall (w : world) (s : dns_session) (found : Z),
             w_session w = Some s ->
             exists w' new,
               @Ret (world * Z) (w, found)
               = Ret (w', found + Z.of_nat (length new))
               /\ w_events w' = w_events w ++ new
               /\ w_sent w' = w_sent w
               /\ Forall2 spawned_for [] new
               /\ exists s',
                    w_session w' = Some s'
                    /\ s_name s' = s_name s
                    /\ s_refcount s' = s_refcount s + Z.of_nat (length new)).
  { intros w s found Hs. exists w, []. cbn [length Z.of_nat].
    rewrite Z.add_0_r, app_nil_r.
    repeat split; try constructor. exists s. repeat split; [exact Hs | lia]. }
  induction ancount as [|n IH]; intros pack r w found rrs s
                                       Hs H0 Hmax Hans Hprint.
  - cbn [answer_section] in Hans. inversion Hans; subst rrs.
    cbn [mx_walk mx_records filter]. apply Hnone, Hs.
  - cbn [answer_section mx_walk] in *.
    destruct (unpack_rr pack r) as [[[c pack1] r1]| |]; cbn [bind] in *;
      try discriminate.
    destruct (c =? -1).
    { inversion Hans; subst rrs. cbn [mx_records filter]. apply Hnone, Hs. }
    inv_bind Hans. inversion Hans; subst rrs; clear Hans.
    rewrite mx_records_cons in Hprint |- *.
    destruct (rr_type r1 =? T_MX); cbn [negb].
    + inversion Hprint as [|m ms (host & Hhost) Hrest]; subst.
      pose proof Hhost as Hh. unfold exchange_host in Hh. inv_bind Hh.
      rewrite E0. cbn [bind]. rewrite Hh. cbn [bind].
      rewrite (dns_lookup_host_spec _ _ _ _ Hs). cbn [bind].
      rewrite (size_t_small (found + 1)) by lia.
      match goal with
      | |- context [mx_walk n pack1 r1 ?w1 ?f1] =>
          destruct (IH pack1 r1 w1 f1 a _ eq_refl ltac:(lia) ltac:(lia)
                       E Hrest)
            as (w' & new & Hwalk & Hev & Hsent & Hsp
                & s' & Hs' & Hname & Href)
      end.
      cbn [w_events w_sent s_refcount s_name] in *.
      exists w',
        ((getaddrinfo_async (bare_host host) (mk_hints false PF_UNSPEC),
          dispatch_host (mk_lookup (mx_preference (rr r1)))) :: new).
      rewrite Hwalk, Hev, <- app_assoc. cbn [app length].
      rewrite Nat2Z.inj_succ.
      split; [do 2 f_equal; lia|]. split; [reflexivity|].
      split; [exact Hsent|]. split.
      * constructor; [|exact Hsp]. exists host. split; [exact Hhost|reflexivity].
      * exists s'. repeat split; [exact Hs'|exact Hname|lia].
    + eapply IH; [exact Hs|lia|lia|exact E|exact Hprint].
Qed.

Lemma be_value_short (raw : list byte) :
  (length raw <= 2)%nat -> 0 <= be_value raw <= 65535.
Proof.
  destruct raw as [|a [|b [|c raw]]]; unfold be_value; cbn [fold_left length];
    intros H; try lia.
  - pose proof (u8_range a). lia.
  - pose proof (u8_range a). pose proof (u8_range b). lia.
Qed.

Lemma unpack_header_ancount (p p' : unpack) (h h' : dns_header) :
  unpack_header p h = Ret (0, p', h') -> 0 <= h_ancount h' <= 65535.
Proof.
  intros H. unfold unpack_header in H. inv_bind H. destruct a as [[c q] raw].
  destruct (c =? -1); [discriminate|]. inversion H; subst; clear H.
  cbn [h_ancount]. apply be_value_short. unfold slice.
  rewrite length_firstn. lia.
Qed.

(** X21. For an MX answer that the resolver delivers without error (or with
    [NO_DATA]) and whose header and question decode, let the answer section
    decode to the records [rrs], N of them of type MX, and let the exchange
    of every one of these print and keep a character to cut. Then
    [dns_dispatch_mx] returns; it sends nothing and adds to the
    queries in flight, when N is not zero, exactly N host lookups, one for
    each of those records in order, each on the host of its record's
    exchange and with its record's preference, and, when N is zero,
    exactly one host lookup of the name of the session with preference 0;
    the refcount of the session rises by the number of lookups added. *)
Theorem mx_fanout (ar : asr_result) (w : world) (s : dns_session)
    (p1 p2 : unpack) (h : dns_header) (q : dns_query) (rrs : list dns_rr) :
  w_session w = Some s ->
  ar_h_errno ar = 0 \/ ar_h_errno ar = NO_DATA ->
  unpack_header (unpack_init (ar_data ar) (ar_datalen ar)) no_header
  = Ret (0, p1, h) ->
  unpack_query p1 no_query = Ret (0, p2, q) ->
  answer_section (Z.to_nat (h_ancount h)) p2 no_rr = Ret rrs ->
  Forall (fun m => exists host, exchange_host m = Ret host) (mx_records rrs) ->
  exists w' new,
    dns_dispatch_mx ar w = Ret w'
    /\ w_events w' = w_events w ++ new
    /\ w_sent w' = w_sent w
    /\ (mx_records rrs <> [] -> Forall2 spawned_for (mx_records rrs) new)
    /\ (mx_records rrs = [] ->
        new = [(getaddrinfo_async (bare_host (s_name s))
                                  (mk_hints false PF_UNSPEC),
                dispatch_host (mk_lookup 0))])
    /\ exists s',
         w_session w' = Some s'
         /\ s_refcount s' = s_refcount s + Z.of_nat (length new).
Proof.
  intros Hs Herrno Hh Hq Hans Hprint.
  pose proof (unpack_header_ancount _ _ _ _ Hh) as Han.
  unfold dns_dispatch_mx, the_session. rewrite Hs. cbn [bind].
  assert (Hno : negb (ar_h_errno ar =? 0) && negb (ar_h_errno ar =? NO_DATA)
                = false).
  { destruct Herrno as [-> | ->]; reflexivity. }
  rewrite Hno, Hh. cbn [bind Z.eqb]. rewrite Hq. cbn [bind Z.eqb].
  destruct (mx_walk_spec (Z.to_nat (h_ancount h)) p2 no_rr w 0 rrs s)
    as (w1 & new & Hwalk & Hev & Hsent & Hsp & s' & Hs' & Hname & Href);
    [exact Hs|lia|unfold SIZE_MAX; lia|exact Hans|exact Hprint|].
  rewrite Hwalk. cbn [bind]. rewrite Z.add_0_l.
  destruct new as [|e new].
  - cbn [length Z.of_nat Z.eqb].
    rewrite (dns_lookup_host_spec _ _ _ _ Hs').
    eexists. eexists. split; [reflexivity|].
    cbn [w_events w_sent w_session s_refcount].
    rewrite app_nil_r in Hev. rewrite Hev, Hsent.
    split; [reflexivity|]. split; [reflexivity|]. split; [|split].
    + intros Hne. inversion Hsp as [Hnil|]. symmetry in Hnil. contradiction.
    + intros _. reflexivity.
    + eexists. split; [reflexivity|]. cbn in *. lia.
  - assert (Hnz : (Z.of_nat (length (e :: new)) =? 0) = false)
      by (apply Z.eqb_neq; cbn [length]; lia).
    rewrite Hnz. exists w1, (e :: new).
    split; [reflexivity|]. split; [exact Hev|]. split; [exact Hsent|].
    split; [intros _; exact Hsp|]. split.
    + intros Hnil. rewrite Hnil in Hsp. inversion Hsp.
    + exists s'. split; [exact Hs' | exact Href].
Qed.

(** ** Requests that cannot be submitted *)

(** C2, as amended. When [res_query_async] returns no query, a request for
    the MX of a domain that is not an address literal frees its session at
    once and sends the single terminator with status [DNS_EINVAL], and a
    request for an MX preference frees its session at once and sends its
    single reply with status [DNS_ENOTFOUND]. *)
Theorem null_submit_reply
    (getaddrinfo : list byte -> ai_hints -> Z * option addrinfo)
    (ss : list byte) (p reqid : Z) (domain mx : list byte) :
  (fst (fst (domainname_is_addr getaddrinfo domain (Some ss)
               (Some (Z.of_nat (length ss))))) = 0 ->
   dns_imsg getaddrinfo ss p (mk_imsg IMSG_MTA_DNS_MX reqid (D_string domain))
            false
   = Ret (mk_world None []
            [mk_message p IMSG_MTA_DNS_HOST_END
                        [m_id reqid; m_status DNS_EINVAL]]))
  /\ dns_imsg getaddrinfo ss p
              (mk_imsg IMSG_MTA_DNS_MX_PREFERENCE reqid (D_string2 domain mx))
              false
     = Ret (mk_world None []
              [mk_message p IMSG_MTA_DNS_MX_PREFERENCE
                          [m_id reqid; m_status DNS_ENOTFOUND]]).
Proof.
  split; [|reflexivity].
  intros H0.
  destruct (domainname_is_addr_cases getaddrinfo domain (Some ss)
              (Some (Z.of_nat (length ss)))) as [H|H];
    [|rewrite H in H0; discriminate].
  unfold dns_imsg; cbn [hdr_type im_data im_reqid]. rewrite H. reflexivity.
Qed.

Lemma null_submit_reply_witness :
  dns_imsg getaddrinfo_none [] 1
           (mk_imsg IMSG_MTA_DNS_MX 7 (D_string (lit "example.com"))) false
  = Ret (mk_world None []
           [mk_message 1 IMSG_MTA_DNS_HOST_END [m_id 7; m_status DNS_EINVAL]]).
Proof.
  apply (proj1 (null_submit_reply getaddrinfo_none [] 1 7
                  (lit "example.com") [])).
  reflexivity.
Defined.

(** C2, as stated, fails: the reply to a request for an MX preference whose
    query cannot be submitted does not carry [DNS_EINVAL]. *)
Lemma null_submit_preference_not_invalid :
  ~ (forall w,
        dns_imsg getaddrinfo_none [] 1
                 (mk_imsg IMSG_MTA_DNS_MX_PREFERENCE 7
                          (D_string2 (lit "example.com") (lit "mx.example.com")))
                 false = Ret w ->
        w_session w = None
        /\ exists m, w_sent w = [m] /\ reply_status m = Some DNS_EINVAL).
Proof.
  intros H. destruct (H _ eq_refl) as (_ & m & Hm & Hst).
  cbn in Hm. inversion Hm; subst m. cbn in Hst. discriminate.
Qed.

(** ** Runs that break a property *)

Lemma run_idle (evs : list (nat * asr_result)) (w : world) :
  w_events w = [] -> run evs w = Ret w.
Proof.
  intros Hw. induction evs as [|[k ar] evs IH]; [reflexivity|].
  cbn [run]. unfold event_asr_dispatch. rewrite Hw.
  destruct k; cbn [nth_error bind]; exact IH.
Qed.

(** C1 fails on this run. A request for the MX of "example.com" is
    answered, without resolver error, by a payload that stops after its
    header: [dns_dispatch_mx] returns from its first decoding test with the
    session still allocated, no message sent and no query in flight, and no
    later completion changes that. *)
Theorem mx_session_leak
    (getaddrinfo : list byte -> ai_hints -> Z * option addrinfo)
    (ss : list byte) :
  exists w s,
    (w0 <- dns_imsg getaddrinfo ss 1
             (mk_imsg IMSG_MTA_DNS_MX 7 (D_string (lit "example.com"))) true ;;
     event_asr_dispatch 0 (mk_result 0 0 0 sample_header [] []) w0) = Ret w
    /\ w_session w = Some s
    /\ w_events w = []
    /\ filter is_terminal (w_sent w) = []
    /\ forall evs, run evs w = Ret w.
Proof.
  eexists. eexists. split; [reflexivity|].
  split; [reflexivity|]. split; [reflexivity|]. split; [reflexivity|].
  intros evs. apply run_idle. reflexivity.
Qed.

(** C3 fails on this payload. The question name of [sample_cut_name] is one
    label that ends with the payload; [dname_expand] accepts the label,
    because its test is [offset + n + 1 > len], and then loads the next
    length byte at the index 14 of a buffer of 14 bytes. *)
Theorem dname_expand_reads_past_end :
  Z.of_nat (length sample_cut_name) = 14
  /\ ('(_, p, _) <- unpack_header (unpack_init sample_cut_name 14) no_header ;;
      unpack_query p no_query) = Crash (OutOfBoundsRead 14)
  /\ dns_dispatch_mx (mk_result 0 0 0 sample_cut_name [] [])
                     (mk_world (Some sample_session) [] [])
     = Crash (OutOfBoundsRead 14).
Proof. repeat split; vm_compute; reflexivity. Qed.

(** C10 fails on this payload. The owner of the record, the label "a",
    ends with the payload of 21 bytes; [dname_expand] accepts it, because
    its test is [offset + n + 1 > len], loads the byte that follows the
    buffer, a zero byte here, and leaves the cursor at 22, after the end. From there [p->len - p->offset] wraps
    around, so that neither the test of [unpack_data] nor the test of the
    remaining length against [rdlength] refuses anything: the type, the
    class, the TTL and the length are read from the memory that follows the
    buffer, and [unpack_rr] returns 0 with, in the arm [other], a view of 2
    bytes at the offset 32 of a buffer of 21 bytes. *)
Theorem unpack_rr_other_outside_buffer :
  Z.of_nat (length sample_cut_owner) = 21
  /\ ('(_, p, _) <- unpack_header
                      (unpack_init (sample_cut_owner ++ sample_after) 21)
                      no_header ;;
      '(_, p, _) <- unpack_query p no_query ;;
      unpack_rr p no_rr)
     = Ret (0,
            mk_unpack (sample_cut_owner ++ sample_after) 21 34 None,
            mk_rr (bytes [1; 97; 0]) 99 1 60 (rr_other 2 32))
  /\ other_arm 99 1 = true.
Proof. repeat split; vm_compute; reflexivity. Qed.


(** ** Runs of the theorems *)

Lemma cursor_ok_init (data : list byte) :
  Z.of_nat (length data) + 255 <= SIZE_MAX ->
  cursor_ok (unpack_init data (Z.of_nat (length data))).
Proof. intros H. unfold cursor_ok, unpack_init; simpl. lia. Qed.

Lemma pointer_before_start_witness :
  exists d,
    unpack_dname (unpack_init sample_loop 4) [] 255
    = Ret (-1, set_err (unpack_init sample_loop 4) "bad domain name", d).
Proof.
  refine (proj1 (proj2 (pointer_before_start (unpack_init sample_loop 4) [] 255
                          (mk_expand 2 0 2 2 (Some (bytes [1; 97])) 253) 2
                          _ _ _ _)) _).
  - apply (cursor_ok_init sample_loop). vm_compute. discriminate.
  - reflexivity.
  - eapply turns_next; [|apply turns_here]. reflexivity.
  - exists 192, 2. repeat split; reflexivity.
  - simpl. lia.
Defined.

Lemma dname_too_long_iff_witness :
  exists p' d',
    unpack_dname (unpack_init sample_www 5) [] 255 = Ret (0, p', d')
    /\ up_err p' = None.
Proof.
  refine (proj2 (proj2 (dname_too_long_iff (unpack_init sample_www 5) [] 255 5
                          (Some 5) (Some sample_www) _ _ _ _))).
  - reflexivity.
  - unfold SIZE_MAX. lia.
  - reflexivity.
  - lia.
Defined.

Lemma unpack_rr_consumes_rdlen_witness :
  exists p1 r1 p2 u,
    unpack_rr_head (unpack_init sample_bad_dlen 15) no_rr = Ret (p1, r1, 4)
    /\ unpack_rr_switch p1 r1 4 = Ret (p2, u)
    /\ unpack_rr (unpack_init sample_bad_dlen 15) no_rr
       = Ret (-1, set_err p2 "bad dlen", set_rr r1 u).
Proof.
  eexists. eexists. eexists. eexists.
  split; [reflexivity|]. split; [reflexivity|].
  refine (proj2 (unpack_rr_consumes_rdlen (unpack_init sample_bad_dlen 15) _
                   no_rr _ 4 _ _) _ _ _ _ _ _ _).
  - apply (cursor_ok_init sample_bad_dlen). vm_compute. discriminate.
  - reflexivity.
  - reflexivity.
  - simpl. lia.
  - reflexivity.
  - reflexivity.
  - simpl. lia.
Defined.

Lemma domainname_is_addr_frame_witness :
  domainname_is_addr getaddrinfo_none (lit "[example]")
                     (Some (bytes [1; 2])) (Some 2)
  = (0, Some (bytes [1; 2]), Some 2).
Proof.
  apply (domainname_is_addr_frame getaddrinfo_none (lit "[example]")
           (Some (bytes [1; 2])) (Some 2)).
  reflexivity.
Defined.

Lemma terminator_ok_iff_found_witness :
  exists w' status,
    dns_dispatch_host (mk_result 0 0 8 [] [mk_addrinfo (bytes [2; 0]) 2] [])
                      (mk_lookup 10)
                      (mk_world
                         (Some (mk_session 1 7 IMSG_MTA_DNS_MX (lit "a") 0 0 1))
                         [] [])
    = Ret w'
    /\ w_session w' = None
    /\ w_sent w'
       = [host_msg sample_session (bytes [2; 0]) 10;
          host_end sample_session status]
    /\ (status = DNS_OK <-> 0 < found_count (w_sent w')).
Proof.
  refine (terminator_ok_iff_found
            (mk_result 0 0 8 [] [mk_addrinfo (bytes [2; 0]) 2] [])
            (mk_lookup 10)
            (mk_world (Some (mk_session 1 7 IMSG_MTA_DNS_MX (lit "a") 0 0 1))
                      [] [])
            (mk_session 1 7 IMSG_MTA_DNS_MX (lit "a") 0 0 1) _ _ _ _).
  - reflexivity.
  - reflexivity.
  - reflexivity.
  - vm_compute. discriminate.
Defined.

Lemma mx_fanout_witness :
  exists w' new,
    dns_dispatch_mx (mk_result 0 0 0 sample_answer [] [])
                    (mk_world (Some sample_session) [] []) = Ret w'
    /\ w_events w' = new
    /\ map lookup_preference new = [Some 10; Some 20].
Proof.
  set (ar := mk_result 0 0 0 sample_answer [] []).
  set (w := mk_world (Some sample_session) [] []).
  destruct (unpack_header (unpack_init (ar_data ar) (ar_datalen ar)) no_header)
    as [[[c1 p1] h]| |] eqn:Hh;
    pose proof Hh as Hh'; vm_compute in Hh'; [|discriminate..].
  injection Hh' as <- <- <-.
  match type of Hh with _ = Ret (_, ?p1, _) =>
    destruct (unpack_query p1 no_query) as [[[c2 p2] q]| |] eqn:Hq;
    pose proof Hq as Hq'; vm_compute in Hq'; [|discriminate..]
  end.
  injection Hq' as <- <- <-.
  match type of Hh with _ = Ret (_, _, ?h) =>
  match type of Hq with _ = Ret (_, ?p2, _) =>
    destruct (answer_section (Z.to_nat (h_ancount h)) p2 no_rr)
      as [rrs| |] eqn:Hans;
    pose proof Hans as Hans'; vm_compute in Hans'; [|discriminate..]
  end end.
  injection Hans' as <-.
  match type of Hans with _ = Ret ?rrs =>
    assert (Hprint : Forall (fun m => exists host, exchange_host m = Ret host)
                            (mx_records rrs))
      by (repeat constructor; eexists; vm_compute; reflexivity);
    assert (Hmx : mx_records rrs <> []) by (vm_compute; discriminate)
  end.
  destruct (mx_fanout ar w sample_session _ _ _ _ _
              eq_refl (or_introl eq_refl) Hh Hq Hans Hprint)
    as (w' & new & Hw & Hev & _ & Hsp & _).
  exists w', new. split; [exact Hw|]. split; [exact Hev|].
  specialize (Hsp Hmx).
  match type of Hsp with
  | Forall2 _ ?l _ =>
      let v := eval vm_compute in l in
      replace l with v in Hsp by (vm_compute; reflexivity)
  end.
  inversion Hsp as [|m1 e1 ms1 new1 (host1 & _ & ->) Hsp1]; subst.
  inversion Hsp1 as [|m2 e2 ms2 new2 (host2 & _ & ->) Hsp2]; subst.
  inversion Hsp2; subst. reflexivity.
Defined.

(* ------------------------------------------------------------------ *)
(** * Further properties of the decoder *)

(** ** A latched error *)

(** X1. Once the cursor holds an error, every decoding function returns -1
    and leaves the cursor, and what it would have stored into, as they
    were. *)
Theorem latched_error_is_sticky (p : unpack) (e : string) :
  up_err p = Some e ->
  (forall data n, unpack_data p data n = Ret (-1, p, data))
  /\ (forall u16, unpack_u16 p u16 = Ret (-1, p, u16))
  /\ (forall u32, unpack_u32 p u32 = Ret (-1, p, u32))
  /\ (forall dst max, unpack_dname p dst max = Ret (-1, p, dst))
  /\ (forall h, unpack_header p h = Ret (-1, p, h))
  /\ (forall q, unpack_query p q = Ret (-1, p, q))
  /\ (forall r, unpack_rr p r = Ret (-1, p, r)).
Proof.
  intros He.
  assert (Hd : forall data n, unpack_data p data n = Ret (-1, p, data))
    by (intros; unfold unpack_data; rewrite He; reflexivity).
  assert (H16 : forall u16, unpack_u16 p u16 = Ret (-1, p, u16))
    by (intros; unfold unpack_u16; rewrite Hd; reflexivity).
  assert (H32 : forall u32, unpack_u32 p u32 = Ret (-1, p, u32))
    by (intros; unfold unpack_u32; rewrite Hd; reflexivity).
  assert (Hn : forall dst max, unpack_dname p dst max = Ret (-1, p, dst))
    by (intros; unfold unpack_dname; rewrite He; reflexivity).
  repeat split; try assumption.
  - intros h. unfold unpack_header. rewrite Hd. reflexivity.
  - intros [d t c]. unfold unpack_query. rewrite Hn. cbn [bind].
    do 2 (rewrite H16; cbn [bind]). unfold failed. rewrite He. reflexivity.
  - intros [d t c l u]. unfold unpack_rr, unpack_rr_head. rewrite Hn.
    cbn [bind]. do 2 (rewrite H16; cbn [bind]). rewrite H32. cbn [bind].
    rewrite H16. cbn [bind]. rewrite He. reflexivity.
Qed.

Lemma latched_error_is_sticky_witness :
  unpack_rr (set_err (unpack_init sample_mx_rr 14) "too short") no_rr
  = Ret (-1, set_err (unpack_init sample_mx_rr 14) "too short", no_rr).
Proof.
  apply (latched_error_is_sticky
           (set_err (unpack_init sample_mx_rr 14) "too short") "too short").
  reflexivity.
Defined.

(** ** The reads of a message, when nothing follows the buffer *)

Lemma unpack_header_ok (p : unpack) (h : dns_header) :
  cursor_ok p -> read_ok p (unpack_header p h).
Proof.
  intros Hp c p' v H. unfold unpack_header in H.
  inv_bind H. destruct a as [[r q] raw].
  apply (unpack_data_ok p [] HFIXEDSZ Hp ltac:(unfold HFIXEDSZ; lia))
    in E as (Ha & Hc & He).
  destruct (r =? -1) eqn:Er; inversion H; subst; clear H.
  - apply Z.eqb_eq in Er. repeat split; try apply Ha; tauto || congruence.
  - destruct (up_err p') eqn:Ee; unfold failed in *; rewrite Ee in *;
      [discriminate|]. repeat split; try apply Ha; tauto.
Qed.

Lemma unpack_query_ok (p : unpack) (q : dns_query) :
  cursor_ok p -> read_ok p (unpack_query p q).
Proof.
  intros Hp c p' v H. unfold unpack_query in H.
  read_step H (unpack_dname_ok p (q_dname q) MAXDNAME) Hp.
  assert (Hq : cursor_ok q0) by apply Ha.
  read_step H (unpack_u16_ok q0 (q_type q)) Hq.
  assert (Hq1 : cursor_ok q1) by apply Ha0.
  read_step H (unpack_u16_ok q1 (q_class q)) Hq1.
  inversion H; subst; clear H. split; [adv|]. split; [reflexivity|tauto].
Qed.

Lemma unpack_rr_ok (p : unpack) (r : dns_rr) :
  cursor_ok p -> read_ok p (unpack_rr p r).
Proof.
  intros Hp c p' v H.
  destruct (unpack_rr_head p r) as [[[p1 r1] rdlen]| |] eqn:Hhead;
    [|unfold unpack_rr in H; rewrite Hhead in H; discriminate..].
  pose proof (unpack_rr_head_ok p p1 r r1 rdlen Hp Hhead) as (Hadv & Hrd & _).
  assert (Hp1 : cursor_ok p1) by apply Hadv.
  rewrite (unpack_rr_unfold p p1 r r1 rdlen Hhead) in H.
  destruct (up_err p1) eqn:E1.
  { inversion H; subst. split; [exact Hadv|].
    split; [unfold failed; rewrite E1; reflexivity | congruence]. }
  destruct (Hrd eq_refl) as (Hep & Hr).
  assert (Hsub : size_t (up_len p1 - up_offset p1) = up_len p1 - up_offset p1).
  { destruct Hp1 as (Hl & Ho & Hf). apply size_t_small. lia. }
  rewrite Hsub in H.
  destruct (Z.ltb_spec (up_len p1 - up_offset p1) rdlen).
  { inversion H; subst. split; [|split; [reflexivity|discriminate]].
    eapply advances_trans; [exact Hadv|]. apply advances_set_err, Hp1. }
  inv_bind H. destruct a as [p2 u].
  apply unpack_rr_switch_ok in E as (Hadv2 & _); [|exact Hp1|lia|lia].
  destruct (up_err p2) eqn:E2.
  { inversion H; subst. split; [adv|].
    split; [unfold failed; rewrite E2; reflexivity | congruence]. }
  destruct (negb (size_t (up_offset p2 - up_offset p1) =? rdlen));
    inversion H; subst; clear H.
  - split; [|split; [reflexivity|discriminate]].
    eapply advances_trans; [exact Hadv|].
    eapply advances_trans; [exact Hadv2|]. apply advances_set_err, Hadv2.
  - split; [adv|]. split; [reflexivity|]. intros _. exact Hep.
Qed.

(** ** The first load outside the buffer *)


Lemma load_bytes_inside (data : list byte) (i n : Z) :
  0 <= i -> i + n <= Z.of_nat (length data) ->
  load_bytes data i n = Ret (firstn (Z.to_nat n) (skipn (Z.to_nat i) data)).
Proof.
  intros Hi Hn. unfold load_bytes.
  destruct (Z.ltb_spec i 0); [lia|].
  destruct (Z.ltb_spec (Z.of_nat (length data)) (i + n)); [lia|]. reflexivity.
Qed.

Section Reads.

Variable data : list byte.
Variable len : Z.
Hypothesis len_data : len = Z.of_nat (length data).
Hypothesis len_fits : len + 255 <= SIZE_MAX.



End Reads.

















(** ** The errors of the decoder *)

Lemma unpack_data_errors (p : unpack) (data : list byte) (n : Z) :
  keeps_errors p (unpack_data p data n).
Proof.
  intros c p' v H Hk. unfold unpack_data in H.
  destruct (up_err p) eqn:Ee; [inversion H; subst; rewrite Ee; exact Hk|].
  destruct (_ <? n).
  - inversion H; subst. right; left; reflexivity.
  - inv_bind H. inversion H; subst. cbn. rewrite Ee. left; reflexivity.
Qed.

Lemma unpack_u16_errors (p : unpack) (u16 : Z) :
  keeps_errors p (unpack_u16 p u16).
Proof.
  intros c p' v H Hk. unfold unpack_u16 in H. inv_bind H.
  destruct a as [[r q] raw].
  pose proof (unpack_data_errors _ _ _ _ _ _ E Hk) as Hq.
  destruct (r =? -1); inversion H; subst; exact Hq.
Qed.

Lemma unpack_u32_errors (p : unpack) (u32 : Z) :
  keeps_errors p (unpack_u32 p u32).
Proof.
  intros c p' v H Hk. unfold unpack_u32 in H. inv_bind H.
  destruct a as [[r q] raw].
  pose proof (unpack_data_errors _ _ _ _ _ _ E Hk) as Hq.
  destruct (r =? -1); inversion H; subst; exact Hq.
Qed.

Lemma unpack_dname_errors (p : unpack) (dst : list byte) (max : Z) :
  keeps_errors p (unpack_dname p dst max).
Proof.
  intros c p' v H Hk. unfold unpack_dname in H.
  destruct (up_err p) eqn:Ee; [inversion H; subst; rewrite Ee; exact Hk|].
  inv_bind H. destruct a as [[e no] w].
  destruct (e =? -1).
  { inversion H; subst. right; right; left; reflexivity. }
  destruct ((e <? 0) || (MAXDNAME <? e)).
  { inversion H; subst. right; right; right; left; reflexivity. }
  inversion H; subst. cbn. rewrite Ee. left; reflexivity.
Qed.

(** Runs one read of a chain and keeps what is known of the error. *)
Ltac error_step H L Hk :=
  let a := fresh "a" in
  let E := fresh "E" in
  let c := fresh "c" in
  let q := fresh "q" in
  let v := fresh "v" in
  let Hk' := fresh "Hk" in
  apply bind_Ret in H as (a & E & H);
  destruct a as [[c q] v];
  pose proof (L _ _ _ E Hk) as Hk'.

Lemma unpack_rr_head_errors (p p1 : unpack) (r r1 : dns_rr) (rdlen : Z) :
  unpack_rr_head p r = Ret (p1, r1, rdlen) ->
  decoder_error (up_err p) -> decoder_error (up_err p1).
Proof.
  intros H Hk. unfold unpack_rr_head in H.
  error_step H (unpack_dname_errors p (rr_dname r) MAXDNAME) Hk.
  error_step H (unpack_u16_errors q (rr_type r)) Hk0.
  error_step H (unpack_u16_errors q0 (rr_class r)) Hk1.
  error_step H (unpack_u32_errors q1 (rr_ttl r)) Hk2.
  error_step H (unpack_u16_errors q2 0) Hk3.
  inversion H; subst. exact Hk4.
Qed.

Lemma unpack_rr_switch_errors (p p2 : unpack) (r : dns_rr) (rdlen : Z)
    (u : rr_union) :
  unpack_rr_switch p r rdlen = Ret (p2, u) ->
  decoder_error (up_err p) -> decoder_error (up_err p2).
Proof.
  intros H Hk. unfold unpack_rr_switch, unpack_inaddr, unpack_in6addr in H.
  destruct (rr_type r =? T_CNAME).
  { error_step H (unpack_dname_errors p (rr_name1 (rr r)) MAXDNAME) Hk.
    inversion H; subst; assumption. }
  destruct (rr_type r =? T_MX).
  { error_step H (unpack_u16_errors p (mx_preference (rr r))) Hk.
    error_step H (unpack_dname_errors q (mx_exchange (rr r)) MAXDNAME) Hk0.
    inversion H; subst; assumption. }
  destruct (rr_type r =? T_NS).
  { error_step H (unpack_dname_errors p (rr_name1 (rr r)) MAXDNAME) Hk.
    inversion H; subst; assumption. }
  destruct (rr_type r =? T_PTR).
  { error_step H (unpack_dname_errors p (rr_name1 (rr r)) MAXDNAME) Hk.
    inversion H; subst; assumption. }
  destruct (rr_type r =? T_SOA).
  { error_step H (unpack_dname_errors p (rr_name1 (rr r)) MAXDNAME) Hk.
    error_step H (unpack_dname_errors q (soa_rname (rr r)) MAXDNAME) Hk0.
    error_step H (unpack_u32_errors q0 (soa_word 0 (rr r))) Hk1.
    error_step H (unpack_u32_errors q1 (soa_word 1 (rr r))) Hk2.
    error_step H (unpack_u32_errors q2 (soa_word 2 (rr r))) Hk3.
    error_step H (unpack_u32_errors q3 (soa_word 3 (rr r))) Hk4.
    error_step H (unpack_u32_errors q4 (soa_word 4 (rr r))) Hk5.
    inversion H; subst; assumption. }
  destruct (rr_type r =? T_A).
  { destruct (negb (rr_class r =? C_IN)); [inversion H; subst; exact Hk|].
    error_step H (unpack_data_errors p (in_addr_bytes (rr r)) 4) Hk.
    inversion H; subst; assumption. }
  destruct (rr_type r =? T_AAAA).
  { destruct (negb (rr_class r =? C_IN)); [inversion H; subst; exact Hk|].
    error_step H (unpack_data_errors p (in_addr_bytes (rr r)) 16) Hk.
    inversion H; subst; assumption. }
  inversion H; subst; exact Hk.
Qed.

(** X3. Starting without error, [unpack_header], [unpack_query] and
    [unpack_rr] leave in the cursor no error or one of "too short", "bad
    domain name", "domain name too long" and "bad dlen", and on a cursor
    inside its buffer they return 0 exactly when they leave no error. *)
Theorem decoder_errors_are_known (p p' : unpack) :
  cursor_ok p -> up_err p = None ->
  (forall h c h', unpack_header p h = Ret (c, p', h') ->
     decoder_error (up_err p') /\ (c = 0 <-> up_err p' = None))
  /\ (forall q c q', unpack_query p q = Ret (c, p', q') ->
        decoder_error (up_err p') /\ (c = 0 <-> up_err p' = None))
  /\ (forall r c r', unpack_rr p r = Ret (c, p', r') ->
        decoder_error (up_err p') /\ (c = 0 <-> up_err p' = None)).
Proof.
  intros Hp He.
  assert (Hk : decoder_error (up_err p)) by (left; exact He).
  assert (Hc : forall c, c = failed p' -> (c = 0 <-> up_err p' = None)).
  { intros c ->. unfold failed. destruct (up_err p'); split;
      intros; (reflexivity || discriminate). }
  repeat split.
  - unfold unpack_header in H. inv_bind H. destruct a as [[c0 q] raw].
    pose proof (unpack_data_errors _ _ _ _ _ _ E Hk) as Hq.
    destruct (c0 =? -1); inversion H; subst; exact Hq.
  - apply Hc. eapply (unpack_header_ok p h Hp). exact H.
  - apply Hc. eapply (unpack_header_ok p h Hp). exact H.
  - unfold unpack_query in H.
    error_step H (unpack_dname_errors p (q_dname q) MAXDNAME) Hk.
    error_step H (unpack_u16_errors q0 (q_type q)) Hk0.
    error_step H (unpack_u16_errors q1 (q_class q)) Hk1.
    inversion H; subst; assumption.
  - apply Hc. eapply (unpack_query_ok p q Hp). exact H.
  - apply Hc. eapply (unpack_query_ok p q Hp). exact H.
  - unfold unpack_rr in H. inv_bind H. destruct a as [[p1 r1] rdlen].
    apply (unpack_rr_head_errors _ _ _ _ _) in E; [|exact Hk].
    destruct (up_err p1) eqn:E1; [inversion H; subst; rewrite E1; exact E|].
    destruct (_ <? rdlen).
    { inversion H; subst. right; left; reflexivity. }
    inv_bind H. destruct a as [p2 u].
    apply unpack_rr_switch_errors in E0; [|left; exact E1].
    destruct (up_err p2) eqn:E2; [inversion H; subst; rewrite E2; exact E0|].
    destruct (negb _); inversion H; subst.
    + right; right; right; right; reflexivity.
    + rewrite E2. left; reflexivity.
  - apply Hc. eapply (unpack_rr_ok p r Hp). exact H.
  - apply Hc. eapply (unpack_rr_ok p r Hp). exact H.
Qed.

Lemma decoder_errors_are_known_witness :
  exists c p' r',
    unpack_rr (unpack_init sample_bad_dlen 15) no_rr = Ret (c, p', r')
    /\ up_err p' = Some "bad dlen"%string
    /\ decoder_error (up_err p') /\ (c = 0 <-> up_err p' = None).
Proof.
  eexists. eexists. eexists. split; [reflexivity|]. split; [reflexivity|].
  refine (proj2 (proj2 (decoder_errors_are_known
                          (unpack_init sample_bad_dlen 15) _ _ _))
            no_rr _ _ _).
  - apply (cursor_ok_init sample_bad_dlen). vm_compute. discriminate.
  - reflexivity.
  - reflexivity.
Defined.

(** ** The buffer followed by readable memory *)

(** *** The loop of [dname_expand] *)

Section Memory.

Variable data : list byte.
Variable len : Z.
Hypothesis len_pos : 0 <= len.
Hypothesis len_room : len + 65536 <= SIZE_MAX.

Lemma dname_turn_Next_mem (x x' : expand) :
  expand_ok len x ->
  dname_turn data len x = Ret (Next x') ->
  expand_ok len x'
  /\ 0 <= expand_measure len x' < expand_measure len x
  /\ x_end x <= x_end x'
  /\ x_offset x < x_end x'.
Proof.
  intros (Hs & Ho & He) H. unfold dname_turn in H.
  inv_bind H. apply load_Ret in E as (Hi & b & ->).
  pose proof (u8_range b) as Hb. pose proof (land_low6 b) as Hp.
  destruct (u8 b =? 0); [discriminate|].
  destruct (Z.land (u8 b) 192 =? 192).
  - rewrite (size_t_small (x_offset x + 2)) in H by lia.
    rewrite (size_t_small (x_offset x + 1)) in H by lia.
    destruct (Z.ltb_spec len (x_offset x + 2)); [discriminate|].
    inv_bind H. apply load_Ret in E as (Hi2 & b2 & ->).
    pose proof (u8_range b2) as Hb2.
    rewrite (size_t_small (256 * _ + _)) in H by (unfold SIZE_MAX; lia).
    destruct (Z.leb_spec (x_start x) (256 * Z.land (u8 b) (Z.lnot 192) + u8 b2));
      [discriminate|].
    set (ptr := 256 * Z.land (u8 b) (Z.lnot 192) + u8 b2) in *.
    inversion H; subst x'; clear H.
    unfold expand_ok, expand_measure; cbn [x_offset x_start x_end].
    assert (Hmul : 1 * (len + 1) <= (x_start x - ptr) * (len + 1))
      by (apply Z.mul_le_mono_nonneg_r; lia).
    assert (Hpos : 0 <= ptr * (len + 1)) by (apply Z.mul_nonneg_nonneg; lia).
    destruct (Z.ltb_spec (x_end x) (x_offset x + 2)); repeat split; lia.
  - rewrite (size_t_small (x_offset x + u8 b + 1)) in * by lia.
    destruct (Z.ltb_spec len (x_offset x + u8 b + 1)); [discriminate|].
    inv_bind H. destruct a as [dst max].
    inversion H; subst x'; clear H.
    unfold expand_ok, expand_measure; cbn [x_offset x_start x_end].
    assert (Hpos : 0 <= x_start x * (len + 1)) by (apply Z.mul_nonneg_nonneg; lia).
    destruct (Z.ltb_spec (x_end x) (x_offset x + u8 b + 1)); repeat split; lia.
Qed.

(** The loop is left at a zero byte that could be loaded. *)
Lemma dname_turn_Leave_mem (x x' : expand) :
  dname_turn data len x = Ret (Leave x') ->
  x' = x /\ 0 <= x_offset x < Z.of_nat (length data).
Proof.
  intros H. unfold dname_turn in H.
  inv_bind H. apply load_Ret in E as (Hi & b & ->).
  destruct (u8 b =? 0).
  - inversion H; subst. split; [reflexivity | exact Hi].
  - destruct (Z.land (u8 b) 192 =? 192).
    + destruct (len <? size_t (x_offset x + 2)); [discriminate|].
      inv_bind H. destruct (x_start x <=? _); discriminate.
    + destruct (len <? size_t (x_offset x + u8 b + 1)); [discriminate|].
      inv_bind H. destruct a. discriminate.
Qed.

Lemma dname_loop_fuel_mem (fuel : nat) (x : expand) :
  expand_ok len x ->
  expand_measure len x < Z.of_nat fuel ->
  dname_loop fuel data len x <> OutOfFuel.
Proof.
  revert x. induction fuel as [|fuel IH]; intros x Hok Hm.
  - exfalso. destruct Hok as (Hs & Ho & He). unfold expand_measure in Hm.
    assert (0 <= x_start x * (len + 1)) by (apply Z.mul_nonneg_nonneg; lia).
    lia.
  - cbn [dname_loop].
    destruct (dname_turn data len x) as [t| |] eqn:E; cbn [bind];
      try discriminate; [|apply dname_turn_fuel in E; contradiction].
    destruct t as [x'|x'|x']; try discriminate.
    apply dname_turn_Next_mem in E as (Hok' & Hm' & _); [|exact Hok].
    apply IH; [exact Hok' | lia].
Qed.

Lemma dname_loop_Ret_mem (fuel : nat) :
  forall (x x' : expand) (ok : bool),
    expand_ok len x ->
    dname_loop fuel data len x = Ret (ok, x') ->
    expand_ok len x' /\ x_end x <= x_end x'
    /\ (ok = true -> x_offset x' < Z.of_nat (length data))
    /\ (x' = x \/ x_offset x < x_end x').
Proof.
  induction fuel as [|fuel IH]; intros x x' ok Hok H; [discriminate|].
  cbn [dname_loop] in H. inv_bind H. destruct a as [x1|x1|x1].
  - apply dname_turn_Next_mem in E as (Hok' & _ & Hend & Hlt); [|exact Hok].
    destruct (IH _ _ _ Hok' H) as (H1 & H2 & H3 & _).
    split; [exact H1|]. split; [lia|]. split; [exact H3|]. right. lia.
  - apply dname_turn_Leave_mem in E as (-> & Hlt). inversion H; subst.
    split; [exact Hok|]. split; [lia|]. split; [intros _; lia|].
    left. reflexivity.
  - apply dname_turn_Minus1 in E as ->. inversion H; subst.
    split; [exact Hok|]. split; [lia|]. split; [discriminate|].
    left. reflexivity.
Qed.

Lemma dname_expand_fuel_mem (offset : Z) (no : option Z)
    (dst : option (list byte)) (max : Z) :
  0 <= offset ->
  dname_expand data len offset no dst max <> OutOfFuel.
Proof.
  intros Hoff. unfold dname_expand.
  destruct (Z.leb_spec len offset); [discriminate|].
  assert (Hok : expand_ok len (mk_expand offset offset offset 0 dst max))
    by (unfold expand_ok; cbn [x_start x_offset x_end]; lia).
  pose proof (dname_loop_fuel_mem (dname_fuel len offset) _ Hok) as Hf.
  destruct (dname_loop _ data len _) as [[ok x]| |]; cbn [bind].
  - destruct ok; discriminate.
  - discriminate.
  - exfalso. apply Hf; [|reflexivity].
    unfold expand_measure, dname_fuel; cbn [x_start x_offset].
    rewrite Nat2Z.inj_succ, Z2Nat.id by (apply Z.mul_nonneg_nonneg; lia). lia.
Qed.

(** A name that expands takes one byte at least, and ends no further than
    one byte after the buffer, at a byte that could be loaded. *)
Lemma dname_expand_Ret_mem (offset o : Z) (dst : option (list byte))
    (max e : Z) (no : option Z) (d : option (list byte)) :
  0 <= offset ->
  dname_expand data len offset (Some o) dst max = Ret (e, no, d) ->
  (e = -1 /\ no = Some o)
  \/ (exists o',
        no = Some o'
        /\ offset + 1 <= o' <= Z.max (len + 1) (Z.of_nat (length data))).
Proof.
  intros Hoff H. unfold dname_expand in H.
  destruct (Z.leb_spec len offset).
  { inversion H; subst. left; split; reflexivity. }
  inv_bind H. destruct a as [ok x].
  assert (Hok : expand_ok len (mk_expand offset offset offset 0 dst max))
    by (unfold expand_ok; cbn [x_start x_offset x_end]; lia).
  apply dname_loop_Ret_mem in E as (Hok' & Hend & Hlt & Hmv); [|exact Hok].
  destruct Hok' as (Hs & Ho & He). cbn [x_end x_offset] in Hend, Hmv.
  destruct ok; cbn [negb] in H; inversion H; subst; clear H.
  - right. specialize (Hlt eq_refl).
    rewrite (size_t_small (x_offset x + 1)) by lia.
    eexists; split; [reflexivity|].
    destruct (Z.ltb_spec (x_end x) (x_offset x + 1));
      destruct Hmv as [->|Hmv]; cbn [x_offset x_end] in *; lia.
  - left; split; reflexivity.
Qed.

End Memory.

(** *** The reads of the cursor *)

Lemma in_memory_set_err (p : unpack) (e : string) :
  in_memory p -> in_memory (set_err p e).
Proof. intros H. exact H. Qed.

Lemma unpack_data_moved (p : unpack) (data : list byte) (n : Z) :
  in_memory p -> 0 <= n -> moved n p (unpack_data p data n).
Proof.
  intros Hp Hn c p' v H. pose proof Hp as (Hl & Ho & Hf & Hd).
  unfold unpack_data in H.
  destruct (up_err p) as [e|] eqn:Ee.
  { inversion H; subst. unfold failed. rewrite Ee.
    split; [exact Hp|]. split; [reflexivity|]. split; [reflexivity|].
    split; [lia|]. split; [reflexivity|]. intros Hx. discriminate Hx. }
  destruct (size_t (up_len p - up_offset p) <? n).
  { inversion H; subst.
    split; [exact Hp|]. split; [reflexivity|]. split; [reflexivity|].
    split; [cbn [set_err up_offset]; lia|]. split; [reflexivity|].
    intros Hx. discriminate Hx. }
  inv_bind H. inversion H; subst; clear H.
  apply load_bytes_Ret in E as (Hi & Hle & _).
  rewrite (size_t_small (up_offset p + n)) by lia.
  unfold in_memory, failed, set_offset; cbn [up_buf up_len up_offset up_err].
  rewrite Ee. repeat split; lia.
Qed.

Lemma unpack_u16_moved (p : unpack) (u16 : Z) :
  in_memory p -> moved 2 p (unpack_u16 p u16).
Proof.
  intros Hp c p' v H. unfold unpack_u16 in H.
  inv_bind H. destruct a as [[r q] raw].
  apply (unpack_data_moved p [] 2 Hp ltac:(lia)) in E
    as (Hq & Hb & Hl & Ho & Hc & He).
  destruct (Z.eqb_spec r (-1)); inversion H; subst; clear H.
  - split; [exact Hq|]. split; [exact Hb|]. split; [exact Hl|].
    split; [exact Ho|]. split; [congruence|]. exact He.
  - split; [exact Hq|]. split; [exact Hb|]. split; [exact Hl|].
    split; [exact Ho|]. split; [|exact He].
    unfold failed in *. destruct (up_err p'); congruence.
Qed.

Lemma unpack_u32_moved (p : unpack) (u32 : Z) :
  in_memory p -> moved 4 p (unpack_u32 p u32).
Proof.
  intros Hp c p' v H. unfold unpack_u32 in H.
  inv_bind H. destruct a as [[r q] raw].
  apply (unpack_data_moved p [] 4 Hp ltac:(lia)) in E
    as (Hq & Hb & Hl & Ho & Hc & He).
  destruct (Z.eqb_spec r (-1)); inversion H; subst; clear H.
  - split; [exact Hq|]. split; [exact Hb|]. split; [exact Hl|].
    split; [exact Ho|]. split; [congruence|]. exact He.
  - split; [exact Hq|]. split; [exact Hb|]. split; [exact Hl|].
    split; [exact Ho|]. split; [|exact He].
    unfold failed in *. destruct (up_err p'); congruence.
Qed.

(** The value of a 16-bit read. *)
Lemma unpack_u16_range (p p' : unpack) (u16 c v : Z) :
  unpack_u16 p u16 = Ret (c, p', v) ->
  up_err p' = None -> 0 <= v <= 65535.
Proof.
  intros H He. unfold unpack_u16 in H.
  inv_bind H. destruct a as [[r q] raw].
  unfold unpack_data in E.
  destruct (up_err p) eqn:Ee.
  { inversion E; subst. cbn [Z.eqb] in H. inversion H; subst. congruence. }
  destruct (size_t (up_len p - up_offset p) <? 2).
  { inversion E; subst. cbn [Z.eqb] in H. inversion H; subst.
    discriminate He. }
  inv_bind E. inversion E; subst; clear E. cbn [Z.eqb] in H.
  inversion H; subst; clear H.
  apply be_value_u16. apply load_bytes_length in E0; [|lia].
  apply Nat2Z.inj. exact E0.
Qed.

Lemma unpack_dname_moved (p : unpack) (dst : list byte) (max : Z) :
  in_memory p -> moved 1 p (unpack_dname p dst max).
Proof.
  intros Hp c p' v H. pose proof Hp as (Hl & Ho & Hf & Hd).
  unfold unpack_dname in H.
  destruct (up_err p) as [e|] eqn:Ee.
  { inversion H; subst. unfold failed. rewrite Ee.
    split; [exact Hp|]. split; [reflexivity|]. split; [reflexivity|].
    split; [lia|]. split; [reflexivity|]. intros Hx. discriminate Hx. }
  inv_bind H. destruct a as [[e no] written].
  apply (dname_expand_Ret_mem (up_buf p) (up_len p) Hl Hf) in E;
    [|exact Ho].
  assert (Hno : up_offset p
                <= match no with Some o => o | None => up_offset p end).
  { destruct E as [(_ & ->)|(o' & -> & Hr)]; lia. }
  destruct (e =? -1) eqn:Em.
  { inversion H; subst; clear H.
    unfold in_memory, failed, set_err, set_offset;
      cbn [up_buf up_len up_offset up_err].
    split; [lia|]. split; [reflexivity|]. split; [reflexivity|].
    split; [lia|]. split; [reflexivity|]. intros Hx. discriminate Hx. }
  destruct ((e <? 0) || (MAXDNAME <? e)).
  { inversion H; subst; clear H.
    unfold in_memory, failed, set_err, set_offset;
      cbn [up_buf up_len up_offset up_err].
    split; [lia|]. split; [reflexivity|]. split; [reflexivity|].
    split; [lia|]. split; [reflexivity|]. intros Hx. discriminate Hx. }
  inversion H; subst; clear H.
  destruct E as [(-> & _)|(o' & -> & Hr)]; [discriminate Em|].
  unfold in_memory, failed, set_offset; cbn [up_buf up_len up_offset up_err].
  rewrite Ee. repeat split; lia.
Qed.

Lemma unpack_header_moved (p : unpack) (h : dns_header) :
  in_memory p -> moved 12 p (unpack_header p h).
Proof.
  intros Hp c p' v H. unfold unpack_header in H.
  inv_bind H. destruct a as [[r q] raw].
  apply (unpack_data_moved p [] HFIXEDSZ Hp ltac:(unfold HFIXEDSZ; lia)) in E
    as (Hq & Hb & Hl & Ho & Hc & He).
  unfold HFIXEDSZ in He.
  destruct (Z.eqb_spec r (-1)); inversion H; subst; clear H.
  - split; [exact Hq|]. split; [exact Hb|]. split; [exact Hl|].
    split; [exact Ho|]. split; [congruence|]. exact He.
  - split; [exact Hq|]. split; [exact Hb|]. split; [exact Hl|].
    split; [exact Ho|]. split; [|exact He].
    unfold failed in *. destruct (up_err p'); congruence.
Qed.

(** Peels the first read off a chain of reads. *)
Ltac move_step H L Hp :=
  let a := fresh "a" in
  let E := fresh "E" in
  let c := fresh "c" in
  let q := fresh "q" in
  let v := fresh "v" in
  let Hq := fresh "Hq" in
  let Hb := fresh "Hb" in
  let Hl := fresh "Hl" in
  let Ho := fresh "Ho" in
  let Hc := fresh "Hc" in
  let He := fresh "He" in
  apply bind_Ret in H as (a & E & H);
  destruct a as [[c q] v];
  pose proof (L Hp _ _ _ E) as (Hq & Hb & Hl & Ho & Hc & He).

Lemma unpack_query_moved (p : unpack) (q : dns_query) :
  in_memory p -> moved 5 p (unpack_query p q).
Proof.
  intros Hp c p' v H. unfold unpack_query in H.
  move_step H (unpack_dname_moved p (q_dname q) MAXDNAME) Hp.
  move_step H (unpack_u16_moved q0 (q_type q)) Hq.
  move_step H (unpack_u16_moved q1 (q_class q)) Hq0.
  inversion H; subst; clear H.
  split; [exact Hq1|]. split; [congruence|]. split; [congruence|].
  split; [lia|]. split; [reflexivity|].
  intros Hn. destruct (He1 Hn) as (Hn1 & M2 & B2).
  destruct (He0 Hn1) as (Hn0 & M1 & B1).
  destruct (He Hn0) as (Hn' & M0 & B0).
  rewrite Hb0, Hl0, Hb, Hl in B2.
  split; [exact Hn'|]. split; lia.
Qed.

(** The five reads that open a record take 11 bytes at least. *)
Lemma unpack_rr_head_moved (p p1 : unpack) (r r1 : dns_rr) (rdlen : Z) :
  in_memory p ->
  unpack_rr_head p r = Ret (p1, r1, rdlen) ->
  in_memory p1
  /\ up_buf p1 = up_buf p /\ up_len p1 = up_len p
  /\ up_offset p <= up_offset p1
  /\ (up_err p1 = None ->
      up_err p = None
      /\ up_offset p + 11 <= up_offset p1
      /\ up_offset p1
         <= Z.max (up_len p + 1) (Z.of_nat (length (up_buf p)))
      /\ 0 <= rdlen <= 65535).
Proof.
  intros Hp H. unfold unpack_rr_head in H.
  move_step H (unpack_dname_moved p (rr_dname r) MAXDNAME) Hp.
  move_step H (unpack_u16_moved q (rr_type r)) Hq.
  move_step H (unpack_u16_moved q0 (rr_class r)) Hq0.
  move_step H (unpack_u32_moved q1 (rr_ttl r)) Hq1.
  move_step H (unpack_u16_moved q2 0) Hq2.
  inversion H; subst; clear H.
  split; [exact Hq3|]. split; [congruence|]. split; [congruence|].
  split; [lia|].
  intros Hn. destruct (He3 Hn) as (Hn3 & M4 & B4).
  destruct (He2 Hn3) as (Hn2 & M3 & B3).
  destruct (He1 Hn2) as (Hn1 & M2 & B2).
  destruct (He0 Hn1) as (Hn0 & M1 & B1).
  destruct (He Hn0) as (Hn' & M0 & B0).
  rewrite Hb2, Hl2, Hb1, Hl1, Hb0, Hl0, Hb, Hl in B4.
  split; [exact Hn'|]. split; [lia|]. split; [lia|].
  eapply unpack_u16_range; eassumption.
Qed.

Lemma unpack_rr_switch_moved (p p2 : unpack) (r : dns_rr) (rdlen : Z)
    (u : rr_union) :
  in_memory p -> 0 <= rdlen <= 65535 ->
  up_offset p <= Z.max (up_len p + 1) (Z.of_nat (length (up_buf p))) ->
  unpack_rr_switch p r rdlen = Ret (p2, u) ->
  in_memory p2
  /\ up_buf p2 = up_buf p /\ up_len p2 = up_len p
  /\ up_offset p <= up_offset p2.
Proof.
  intros Hp Hr Hbound H.
  unfold unpack_rr_switch, unpack_inaddr, unpack_in6addr in H.
  assert (Hother :
    in_memory (set_offset p (size_t (up_offset p + rdlen)))
    /\ up_buf (set_offset p (size_t (up_offset p + rdlen))) = up_buf p
    /\ up_len (set_offset p (size_t (up_offset p + rdlen))) = up_len p
    /\ up_offset p <= up_offset (set_offset p (size_t (up_offset p + rdlen)))).
  { destruct Hp as (Hl & Ho & Hf & Hd).
    rewrite size_t_small by lia.
    unfold in_memory, set_offset; cbn [up_buf up_len up_offset].
    repeat split; lia. }
  destruct (rr_type r =? T_CNAME).
  { move_step H (unpack_dname_moved p (rr_name1 (rr r)) MAXDNAME) Hp.
    inversion H; subst. split; [assumption|]. split; [assumption|].
    split; assumption. }
  destruct (rr_type r =? T_MX).
  { move_step H (unpack_u16_moved p (mx_preference (rr r))) Hp.
    move_step H (unpack_dname_moved q (mx_exchange (rr r)) MAXDNAME) Hq.
    inversion H; subst. split; [assumption|].
    split; [congruence|]. split; [congruence|lia]. }
  destruct (rr_type r =? T_NS).
  { move_step H (unpack_dname_moved p (rr_name1 (rr r)) MAXDNAME) Hp.
    inversion H; subst. split; [assumption|]. split; [assumption|].
    split; assumption. }
  destruct (rr_type r =? T_PTR).
  { move_step H (unpack_dname_moved p (rr_name1 (rr r)) MAXDNAME) Hp.
    inversion H; subst. split; [assumption|]. split; [assumption|].
    split; assumption. }
  destruct (rr_type r =? T_SOA).
  { move_step H (unpack_dname_moved p (rr_name1 (rr r)) MAXDNAME) Hp.
    move_step H (unpack_dname_moved q (soa_rname (rr r)) MAXDNAME) Hq.
    move_step H (unpack_u32_moved q0 (soa_word 0 (rr r))) Hq0.
    move_step H (unpack_u32_moved q1 (soa_word 1 (rr r))) Hq1.
    move_step H (unpack_u32_moved q2 (soa_word 2 (rr r))) Hq2.
    move_step H (unpack_u32_moved q3 (soa_word 3 (rr r))) Hq3.
    move_step H (unpack_u32_moved q4 (soa_word 4 (rr r))) Hq4.
    inversion H; subst. split; [assumption|].
    split; [congruence|]. split; [congruence|lia]. }
  destruct (rr_type r =? T_A).
  { destruct (rr_class r =? C_IN); cbn [negb] in H.
    - assert (H4 : 0 <= 4) by lia.
      move_step H (unpack_data_moved p (in_addr_bytes (rr r)) 4 Hp) H4.
      inversion H; subst. split; [assumption|]. split; [assumption|].
    split; assumption.
    - inversion H; subst. exact Hother. }
  destruct (rr_type r =? T_AAAA).
  { destruct (rr_class r =? C_IN); cbn [negb] in H.
    - assert (H16 : 0 <= 16) by lia.
      move_step H (unpack_data_moved p (in_addr_bytes (rr r)) 16 Hp) H16.
      inversion H; subst. split; [assumption|]. split; [assumption|].
    split; assumption.
    - inversion H; subst. exact Hother. }
  inversion H; subst. exact Hother.
Qed.

(** [unpack_rr], whatever follows the buffer in memory. *)
Lemma unpack_rr_moved (p p' : unpack) (r r' : dns_rr) (c : Z) :
  in_memory p ->
  unpack_rr p r = Ret (c, p', r') ->
  in_memory p'
  /\ up_buf p' = up_buf p /\ up_len p' = up_len p
  /\ up_offset p <= up_offset p'
  /\ (c = 0 -> up_offset p + 11 <= up_offset p').
Proof.
  intros Hp H.
  destruct (unpack_rr_head p r) as [[[p1 r1] rdlen]| |] eqn:Hhead;
    [|unfold unpack_rr in H; rewrite Hhead in H; discriminate..].
  pose proof (unpack_rr_head_moved p p1 r r1 rdlen Hp Hhead)
    as (Hp1 & Hb1 & Hl1 & Ho1 & He1).
  rewrite (unpack_rr_unfold p p1 r r1 rdlen Hhead) in H.
  destruct (up_err p1) eqn:Eerr.
  { inversion H; subst. split; [exact Hp1|]. split; [exact Hb1|].
    split; [exact Hl1|]. split; [exact Ho1|]. discriminate. }
  destruct (He1 eq_refl) as (_ & M1 & B1 & Hr).
  destruct (size_t (up_len p1 - up_offset p1) <? rdlen).
  { inversion H; subst. unfold set_err; cbn [up_buf up_len up_offset].
    split; [exact Hp1|]. split; [exact Hb1|]. split; [exact Hl1|].
    split; [exact Ho1|]. discriminate. }
  apply bind_Ret in H as ([p2 u] & Esw & H).
  apply unpack_rr_switch_moved in Esw as (Hp2 & Hb2 & Hl2 & Ho2);
    [|exact Hp1|exact Hr|rewrite Hb1, Hl1; exact B1].
  assert (Hsame : in_memory p' /\ up_buf p' = up_buf p2
                  /\ up_len p' = up_len p2 /\ up_offset p' = up_offset p2).
  { destruct (up_err p2);
      [inversion H; subst; split; [exact Hp2|]; repeat split|].
    destruct (negb _); inversion H; subst;
      (split; [exact Hp2|]; repeat split). }
  destruct Hsame as (Hp' & Hb' & Hl' & Ho').
  split; [exact Hp'|]. split; [congruence|]. split; [congruence|].
  split; lia.
Qed.

(** *** The decoder ends *)

Lemma unpack_dname_ends (p : unpack) (dst : list byte) (max : Z) :
  in_memory p -> unpack_dname p dst max <> OutOfFuel.
Proof.
  intros (Hl & Ho & Hf & Hd). unfold unpack_dname.
  destruct (up_err p); [discriminate|].
  pose proof (dname_expand_fuel_mem (up_buf p) (up_len p) Hl Hf (up_offset p)
                (Some (up_offset p)) (Some []) max Ho) as H.
  destruct (dname_expand _ _ _ _ _ _) as [[[e no] w]| |]; cbn [bind];
    [|discriminate|exfalso; apply H; reflexivity].
  destruct (e =? -1); [discriminate|].
  destruct ((e <? 0) || (MAXDNAME <? e)); discriminate.
Qed.

Lemma read_then_ends {A B : Type} (n : Z) (p : unpack)
    (r : result (Z * unpack * A)) (k : Z * unpack * A -> result B) :
  r <> OutOfFuel -> moved n p r ->
  (forall c q v, in_memory q -> k (c, q, v) <> OutOfFuel) ->
  bind r k <> OutOfFuel.
Proof.
  intros Hr Hok Hk. destruct r as [[[c q] v]| |]; cbn [bind].
  - destruct (Hok c q v eq_refl) as (Hq & _). apply Hk. exact Hq.
  - discriminate.
  - contradiction.
Qed.

Ltac ends_read Lends Lmoved Hp :=
  let c := fresh "c" in
  let q := fresh "q" in
  let v := fresh "v" in
  let Hq := fresh "Hq" in
  eapply read_then_ends;
  [ apply Lends; try exact Hp
  | apply Lmoved; try exact Hp; try lia
  | intros c q v Hq; cbn beta iota ].

Lemma unpack_query_ends (p : unpack) (q : dns_query) :
  in_memory p -> unpack_query p q <> OutOfFuel.
Proof.
  intros Hp. unfold unpack_query.
  ends_read unpack_dname_ends unpack_dname_moved Hp.
  ends_read unpack_u16_fuel unpack_u16_moved Hq.
  ends_read unpack_u16_fuel unpack_u16_moved Hq0.
  discriminate.
Qed.

Lemma unpack_rr_head_ends (p : unpack) (r : dns_rr) :
  in_memory p -> unpack_rr_head p r <> OutOfFuel.
Proof.
  intros Hp. unfold unpack_rr_head.
  ends_read unpack_dname_ends unpack_dname_moved Hp.
  ends_read unpack_u16_fuel unpack_u16_moved Hq.
  ends_read unpack_u16_fuel unpack_u16_moved Hq0.
  ends_read unpack_u32_fuel unpack_u32_moved Hq1.
  ends_read unpack_u16_fuel unpack_u16_moved Hq2.
  discriminate.
Qed.

Lemma unpack_rr_switch_ends (p : unpack) (r : dns_rr) (rdlen : Z) :
  in_memory p -> unpack_rr_switch p r rdlen <> OutOfFuel.
Proof.
  intros Hp. unfold unpack_rr_switch, unpack_inaddr, unpack_in6addr.
  destruct (rr_type r =? T_CNAME).
  { ends_read unpack_dname_ends unpack_dname_moved Hp. discriminate. }
  destruct (rr_type r =? T_MX).
  { ends_read unpack_u16_fuel unpack_u16_moved Hp.
    ends_read unpack_dname_ends unpack_dname_moved Hq. discriminate. }
  destruct (rr_type r =? T_NS).
  { ends_read unpack_dname_ends unpack_dname_moved Hp. discriminate. }
  destruct (rr_type r =? T_PTR).
  { ends_read unpack_dname_ends unpack_dname_moved Hp. discriminate. }
  destruct (rr_type r =? T_SOA).
  { ends_read unpack_dname_ends unpack_dname_moved Hp.
    ends_read unpack_dname_ends unpack_dname_moved Hq.
    ends_read unpack_u32_fuel unpack_u32_moved Hq0.
    ends_read unpack_u32_fuel unpack_u32_moved Hq1.
    ends_read unpack_u32_fuel unpack_u32_moved Hq2.
    ends_read unpack_u32_fuel unpack_u32_moved Hq3.
    ends_read unpack_u32_fuel unpack_u32_moved Hq4.
    discriminate. }
  destruct (rr_type r =? T_A).
  { destruct (negb (rr_class r =? C_IN)); [discriminate|].
    ends_read unpack_data_fuel unpack_data_moved Hp. discriminate. }
  destruct (rr_type r =? T_AAAA).
  { destruct (negb (rr_class r =? C_IN)); [discriminate|].
    ends_read unpack_data_fuel unpack_data_moved Hp. discriminate. }
  discriminate.
Qed.

Lemma unpack_rr_ends (p : unpack) (r : dns_rr) :
  in_memory p -> unpack_rr p r <> OutOfFuel.
Proof.
  intros Hp. unfold unpack_rr.
  pose proof (unpack_rr_head_ends p r Hp) as Hh.
  destruct (unpack_rr_head p r) as [[[p1 r1] rdlen]| |] eqn:Hhead;
    cbn [bind]; [|discriminate|exfalso; auto].
  pose proof (unpack_rr_head_moved p p1 r r1 rdlen Hp Hhead) as (Hp1 & _).
  destruct (up_err p1); [discriminate|].
  destruct (_ <? rdlen); [discriminate|].
  pose proof (unpack_rr_switch_ends p1 r1 rdlen Hp1) as Hs.
  destruct (unpack_rr_switch p1 r1 rdlen) as [[p2 u]| |]; cbn [bind];
    [|discriminate|exfalso; auto].
  destruct (up_err p2); discriminate.
Qed.

Lemma answer_section_ends (ancount : nat) :
  forall (p : unpack) (r : dns_rr),
    in_memory p -> answer_section ancount p r <> OutOfFuel.
Proof.
  induction ancount as [|n IH]; intros p r Hp; cbn [answer_section];
    [discriminate|].
  pose proof (unpack_rr_ends p r Hp) as Hrr.
  destruct (unpack_rr p r) as [[[c q] v]| |] eqn:E; cbn [bind];
    [|discriminate|exfalso; auto].
  apply unpack_rr_moved in E as (Hq & _); [|exact Hp].
  destruct (c =? -1); [discriminate|].
  specialize (IH q v Hq).
  destruct (answer_section n q v); cbn [bind];
    [discriminate|discriminate|exfalso; auto].
Qed.

(** X4. Whatever follows the buffer in memory, [unpack_rr] leaves the
    buffer and its length as they were and never moves the cursor
    backwards; when it succeeds the cursor has moved by at least the 11
    bytes of the shortest record (a name of one byte and ten bytes of fixed
    fields), so that a loop over the records always advances. Nothing is
    said of where the cursor ends: after the read of the byte that follows
    the buffer it is past the end of the buffer. *)
Theorem unpack_rr_progress (p p' : unpack) (r r' : dns_rr) (c : Z) :
  in_memory p ->
  unpack_rr p r = Ret (c, p', r') ->
  up_buf p' = up_buf p /\ up_len p' = up_len p
  /\ up_offset p <= up_offset p'
  /\ (c = 0 -> up_offset p + 11 <= up_offset p').
Proof.
  intros Hp H.
  destruct (unpack_rr_moved p p' r r' c Hp H) as (_ & Hb & Hl & Ho & Hc).
  split; [exact Hb|]. split; [exact Hl|]. split; [exact Ho | exact Hc].
Qed.

Lemma unpack_rr_progress_witness :
  exists p' r',
    unpack_rr (mk_unpack (bytes [1; 97] ++ sample_after) 2 0 None) no_rr
    = Ret (0, p', r')
    /\ 0 + 11 <= up_offset p'.
Proof.
  eexists. eexists. split; [reflexivity|].
  refine (proj2 (proj2 (proj2 (unpack_rr_progress
                                 (mk_unpack (bytes [1; 97] ++ sample_after)
                                            2 0 None) _ no_rr _ 0
                                 _ _))) eq_refl).
  - unfold in_memory; cbn [up_len up_offset up_buf].
    repeat split; try lia; vm_compute; discriminate.
  - reflexivity.
Defined.

(** X2. Decoding always ends: whatever the bytes of the buffer, whatever
    its length and whatever follows it in memory, decoding a header, a
    question and any number of records returns or stops on a fault; no
    chain of compression pointers makes [dname_expand] loop without end,
    since every turn of its loop lowers [start] or raises [offset]. *)
Theorem decoder_terminates (data : list byte) (len : Z) (h : dns_header)
    (q : dns_query) (r : dns_rr) (ancount : nat) :
  0 <= len -> len + 65536 <= SIZE_MAX ->
  Z.of_nat (length data) + 65536 <= SIZE_MAX ->
  ('(_, p, _) <- unpack_header (unpack_init data len) h ;;
   '(_, p, _) <- unpack_query p q ;;
   answer_section ancount p r) <> OutOfFuel.
Proof.
  intros Hlen Hroom Hdata.
  assert (Hp : in_memory (unpack_init data len))
    by (unfold in_memory, unpack_init; cbn [up_len up_offset up_buf]; lia).
  eapply read_then_ends;
    [apply unpack_header_fuel | apply unpack_header_moved; exact Hp |].
  intros c1 p1 h1 Hp1. cbn beta iota.
  eapply read_then_ends;
    [apply unpack_query_ends; exact Hp1
    | apply unpack_query_moved; exact Hp1 |].
  intros c2 p2 q2 Hp2. cbn beta iota.
  apply answer_section_ends. exact Hp2.
Qed.

Lemma decoder_terminates_witness :
  ('(_, p, _) <- unpack_header
                   (unpack_init (sample_cut_owner ++ sample_after) 21)
                   no_header ;;
   '(_, p, _) <- unpack_query p no_query ;;
   answer_section 1 p no_rr) <> OutOfFuel.
Proof.
  apply (decoder_terminates (sample_cut_owner ++ sample_after) 21
           no_header no_query no_rr 1).
  - lia.
  - unfold SIZE_MAX. lia.
  - vm_compute. discriminate.
Defined.

(** ** The header *)

(** X5. A payload of fewer than 12 bytes has no header: [unpack_header]
    returns -1, leaves the error "too short" and does not move. On a
    payload of 12 bytes or more it returns 0, moves to the offset 12 and
    yields the five counters in big-endian order and the two bytes of the
    id as they stand. *)
Theorem unpack_header_fields (payload : list byte) (h : dns_header) :
  Z.of_nat (length payload) + 255 <= SIZE_MAX ->
  let p := unpack_init payload (Z.of_nat (length payload)) in
  (Z.of_nat (length payload) < 12 ->
   unpack_header p h = Ret (-1, set_err p "too short", h))
  /\ (forall i0 i1 f0 f1 q0 q1 a0 a1 n0 n1 r0 r1 rest,
         payload = [i0; i1; f0; f1; q0; q1; a0; a1; n0; n1; r0; r1] ++ rest ->
         unpack_header p h
         = Ret (0, set_offset p 12,
                mk_header [i0; i1]
                          (256 * u8 f0 + u8 f1)
                          (256 * u8 q0 + u8 q1)
                          (256 * u8 a0 + u8 a1)
                          (256 * u8 n0 + u8 n1)
                          (256 * u8 r0 + u8 r1))).
Proof.
  intros Hfit p. split.
  - intros Hshort. unfold unpack_header, unpack_data, HFIXEDSZ.
    cbn [p unpack_init up_err up_len up_offset].
    rewrite size_t_small by lia.
    destruct (Z.ltb_spec (Z.of_nat (length payload) - 0) 12); [|lia].
    reflexivity.
  - intros i0 i1 f0 f1 q0 q1 a0 a1 n0 n1 r0 r1 rest Hpay.
    assert (Hlen : 12 <= Z.of_nat (length payload))
      by (rewrite Hpay, length_app; cbn [length]; lia).
    unfold unpack_header, unpack_data, HFIXEDSZ.
    cbn [p unpack_init up_err up_len up_offset up_buf].
    rewrite size_t_small by lia.
    destruct (Z.ltb_spec (Z.of_nat (length payload) - 0) 12); [lia|].
    rewrite load_bytes_inside by lia. cbn [bind Z.eqb].
    rewrite (size_t_small (0 + 12)) by (unfold SIZE_MAX; lia).
    change (Z.to_nat 12) with 12%nat. change (Z.to_nat 0) with 0%nat.
    assert (Hraw : firstn 12 (skipn 0 payload)
                   = [i0; i1; f0; f1; q0; q1; a0; a1; n0; n1; r0; r1])
      by (rewrite Hpay; reflexivity).
    rewrite Hraw. unfold slice, be_value. cbn [skipn firstn fold_left].
    unfold set_offset; cbn [up_buf up_len up_err up_offset unpack_init].
    f_equal. f_equal. f_equal; lia.
Qed.

Lemma unpack_header_fields_witness :
  unpack_header
    (unpack_init sample_header (Z.of_nat (length sample_header))) no_header
  = Ret (0,
         set_offset
           (unpack_init sample_header (Z.of_nat (length sample_header))) 12,
         mk_header [B 0; B 1]
                   (256 * u8 (B 129) + u8 (B 128))
                   (256 * u8 (B 0) + u8 (B 1))
                   (256 * u8 (B 0) + u8 (B 0))
                   (256 * u8 (B 0) + u8 (B 0))
                   (256 * u8 (B 0) + u8 (B 0))).
Proof.
  assert (Hfit : Z.of_nat (length sample_header) + 255 <= SIZE_MAX)
    by (vm_compute; discriminate).
  apply (proj2 (unpack_header_fields sample_header no_header Hfit)
           (B 0) (B 1) (B 129) (B 128) (B 0) (B 1) (B 0) (B 0)
           (B 0) (B 0) (B 0) (B 0) []).
  reflexivity.
Defined.

(** ** Names without pointers *)

Lemma u8_B (n : Z) : 0 <= n <= 255 -> u8 (B n) = n.
Proof.
  intros Hn. unfold u8, B.
  destruct (Byte.of_N (Z.to_N n)) as [b|] eqn:E.
  - apply Byte.to_of_N in E. rewrite E. lia.
  - apply Byte.of_N_None_iff in E. lia.
Qed.

Lemma land_label (b : byte) : u8 b <= 63 -> Z.land (u8 b) 192 = 0.
Proof.
  destruct b; vm_compute; intros H; try reflexivity; exfalso; apply H;
    reflexivity.
Qed.

Lemma load_app (pre rest : list byte) (b : byte) :
  load (pre ++ b :: rest) (Z.of_nat (length pre)) = Ret (u8 b).
Proof.
  unfold load. destruct (Z.ltb_spec (Z.of_nat (length pre)) 0); [lia|].
  rewrite Nat2Z.id, nth_error_app2, Nat.sub_diag by lia. reflexivity.
Qed.

Lemma load_bytes_app (pre mid rest : list byte) :
  load_bytes (pre ++ mid ++ rest) (Z.of_nat (length pre))
             (Z.of_nat (length mid)) = Ret mid.
Proof.
  rewrite load_bytes_inside; [|lia|rewrite !length_app; lia].
  rewrite !Nat2Z.id, skipn_app, skipn_all, Nat.sub_diag. cbn [skipn app].
  rewrite firstn_app, firstn_all, Nat.sub_diag. cbn [firstn].
  rewrite app_nil_r. reflexivity.
Qed.

Lemma wire_labels_cons (l : list byte) (labels : list (list byte)) :
  wire_labels (l :: labels)
  = (B (Z.of_nat (length l)) :: l) ++ wire_labels labels.
Proof. reflexivity. Qed.

Section Labels.

Variable data : list byte.
Variable len : Z.
Variable post : list byte.
Hypothesis len_data : len = Z.of_nat (length data).
Hypothesis len_fits : len + 255 <= SIZE_MAX.

(** The loop of [dname_expand] over labels: it copies them and leaves at
    their zero byte. *)
Lemma dname_loop_labels (labels : list (list byte)) :
  forall (fuel : nat) (pre written : list byte) (x : expand),
    (length labels < fuel)%nat ->
    Forall label_ok labels ->
    data = pre ++ wire_name labels ++ post ->
    x_offset x = Z.of_nat (length pre) ->
    x_end x = x_offset x ->
    x_dst x = Some written ->
    Z.of_nat (length (wire_labels labels)) < x_max x <= SIZE_MAX ->
    exists x',
      dname_loop fuel data len x = Ret (true, x')
      /\ x_offset x' = x_offset x + Z.of_nat (length (wire_labels labels))
      /\ x_end x' = x_offset x'
      /\ x_res x' = x_res x + Z.of_nat (length (wire_labels labels))
      /\ x_dst x' = Some (written ++ wire_labels labels)
      /\ x_max x' = x_max x - Z.of_nat (length (wire_labels labels)).
Proof.
  induction labels as [|l labels IH];
    intros fuel pre written x Hfuel Hok Hdata Hoff Hend Hdst Hmax.
  - destruct fuel as [|fuel]; [inversion Hfuel|].
    assert (Hload : load data (Z.of_nat (length pre)) = Ret 0).
    { rewrite Hdata. unfold wire_name. cbn [wire_labels flat_map app].
      rewrite load_app. reflexivity. }
    cbn [dname_loop]. unfold dname_turn. rewrite Hoff, Hload. cbn [bind].
    change (0 =? 0) with true. cbn iota.
    exists x. change (wire_labels []) with (@nil byte).
    cbn [length Z.of_nat]. rewrite app_nil_r.
    repeat split; try lia; assumption.
  - destruct fuel as [|fuel]; [inversion Hfuel|].
    inversion Hok as [|l0 ls0 Hl Hrest]; subst l0 ls0.
    unfold label_ok in Hl.
    set (n := Z.of_nat (length l)) in *.
    assert (Hn : u8 (B n) = n) by (apply u8_B; unfold n; lia).
    rewrite wire_labels_cons, length_app in Hmax. cbn [length] in Hmax.
    assert (Hwire : data = pre ++ (B n :: l) ++ (wire_name labels ++ post)).
    { rewrite Hdata. unfold wire_name. rewrite wire_labels_cons.
      fold n. rewrite <- !app_assoc. reflexivity. }
    assert (Hlen : Z.of_nat (length pre) + n + 1
                   + Z.of_nat (length (wire_name labels)) <= len).
    { rewrite len_data, Hwire, !length_app. cbn [length]. unfold n. lia. }
    assert (Hload : load data (Z.of_nat (length pre)) = Ret n).
    { rewrite Hwire. cbn [app]. rewrite load_app, Hn. reflexivity. }
    assert (Hland : Z.land n 192 = 0).
    { rewrite <- Hn. apply land_label. rewrite Hn. unfold n. lia. }
    cbn [dname_loop]. unfold dname_turn. rewrite Hoff, Hload. cbn [bind].
    destruct (Z.eqb_spec n 0); [unfold n in *; lia|].
    rewrite Hland. change (0 =? 192) with false. cbn iota.
    rewrite (size_t_small (Z.of_nat (length pre) + n + 1)) by lia.
    destruct (Z.ltb_spec len (Z.of_nat (length pre) + n + 1)); [lia|].
    rewrite Hdst.
    destruct (Z.eqb_spec (x_max x) 0); [lia|].
    rewrite (size_t_small (n + 1)) by (unfold n, SIZE_MAX; lia).
    destruct (Z.ltb_spec (x_max x) (n + 1)); [lia|].
    assert (Hchunk : load_bytes data (Z.of_nat (length pre)) (n + 1)
                     = Ret (B n :: l)).
    { rewrite Hwire.
      replace (n + 1) with (Z.of_nat (length (B n :: l)))
        by (cbn [length]; unfold n; lia).
      apply load_bytes_app. }
    rewrite Hchunk. cbn [bind].
    rewrite (size_t_small (x_max x - (n + 1))) by lia.
    match goal with
    | |- context [dname_loop fuel data len ?x1] =>
        pose proof (IH fuel (pre ++ B n :: l) (written ++ B n :: l) x1) as Hind
    end.
    cbn [x_offset x_end x_res x_dst x_max] in Hind.
    destruct Hind as (x' & Hloop & Ho' & He' & Hr' & Hd' & Hm').
    + cbn [length] in Hfuel. lia.
    + exact Hrest.
    + rewrite Hwire, <- app_assoc. reflexivity.
    + rewrite length_app. cbn [length]. unfold n. lia.
    + rewrite Hend, Hoff.
      destruct (Z.ltb_spec (Z.of_nat (length pre))
                  (Z.of_nat (length pre) + n + 1)); [reflexivity|lia].
    + reflexivity.
    + lia.
    + exists x'. split; [exact Hloop|].
      rewrite wire_labels_cons, length_app. cbn [length]. fold n.
      rewrite Hd', <- app_assoc. cbn [app].
      repeat split; try lia; reflexivity.
Qed.

End Labels.

Lemma wire_labels_length (labels : list (list byte)) :
  (length labels <= length (wire_labels labels))%nat.
Proof.
  induction labels as [|l labels IH]; [apply Nat.le_refl|].
  rewrite wire_labels_cons, length_app. cbn [length]. lia.
Qed.

(** [unpack_dname] over a name in wire form without pointers. *)
Lemma unpack_dname_labels (p : unpack) (pre post : list byte)
    (labels : list (list byte)) (dst : list byte) (max : Z) :
  up_buf p = pre ++ wire_name labels ++ post ->
  up_len p = Z.of_nat (length (up_buf p)) ->
  up_offset p = Z.of_nat (length pre) ->
  up_err p = None ->
  Forall label_ok labels ->
  up_len p + 255 <= SIZE_MAX ->
  Z.of_nat (length (wire_name labels)) <= MAXDNAME ->
  Z.of_nat (length (wire_name labels)) <= max <= SIZE_MAX ->
  unpack_dname p dst max
  = Ret (0,
         set_offset p (up_offset p + Z.of_nat (length (wire_name labels))),
         wire_name labels).
Proof.
  destruct p as [buf len off err]. cbn [up_buf up_len up_offset up_err].
  intros -> -> -> -> Hok Hfit Hlen Hmax.
  set (data := pre ++ wire_name labels ++ post) in *.
  set (p := mk_unpack data (Z.of_nat (length data))
                      (Z.of_nat (length pre)) None).
  assert (Hwl : Z.of_nat (length (wire_name labels))
                = Z.of_nat (length (wire_labels labels)) + 1)
    by (unfold wire_name; rewrite length_app; cbn [length]; lia).
  assert (Hdl : Z.of_nat (length data)
                = Z.of_nat (length pre)
                  + Z.of_nat (length (wire_name labels))
                  + Z.of_nat (length post))
    by (unfold data; rewrite !length_app; lia).
  pose proof (wire_labels_length labels) as Hll.
  unfold unpack_dname, dname_expand. cbn [p up_err up_buf up_len up_offset].
  destruct (Z.leb_spec (Z.of_nat (length data)) (Z.of_nat (length pre)));
    [lia|].
  destruct (dname_loop_labels data (Z.of_nat (length data)) post eq_refl Hfit
              labels
              (dname_fuel (Z.of_nat (length data)) (Z.of_nat (length pre)))
              pre []
              (mk_expand (Z.of_nat (length pre)) (Z.of_nat (length pre))
                         (Z.of_nat (length pre)) 0 (Some []) max))
    as (x' & Hloop & Ho' & He' & Hr' & Hd' & Hm');
    try reflexivity; try assumption.
  { unfold dname_fuel.
    assert (Hmul : 1 * (Z.of_nat (length data) + 1)
                   <= (Z.of_nat (length pre) + 1)
                      * (Z.of_nat (length data) + 1))
      by (apply Z.mul_le_mono_nonneg_r; lia).
    lia. }
  { cbn [x_max]. lia. }
  cbn [x_offset x_end x_res x_dst x_max] in *.
  rewrite Hloop. cbn [bind negb].
  rewrite (size_t_small (x_offset x' + 1)) by lia.
  rewrite He', Hd', Hm', Hr', Ho'.
  destruct (Z.ltb_spec (Z.of_nat (length pre)
                        + Z.of_nat (length (wire_labels labels)))
              (Z.of_nat (length pre)
               + Z.of_nat (length (wire_labels labels)) + 1)); [|lia].
  destruct (Z.eqb_spec (max - Z.of_nat (length (wire_labels labels))) 0);
    [lia|].
  cbn [bind app].
  destruct (Z.eqb_spec (0 + Z.of_nat (length (wire_labels labels)) + 1) (-1));
    [lia|].
  destruct (Z.ltb_spec (0 + Z.of_nat (length (wire_labels labels)) + 1) 0);
    [lia|].
  destruct (Z.ltb_spec MAXDNAME
              (0 + Z.of_nat (length (wire_labels labels)) + 1)); [lia|].
  cbn [orb]. unfold set_offset, wire_name.
  cbn [up_buf up_len up_err up_offset].
  replace (Z.of_nat (length (wire_labels labels ++ [x00])))
    with (Z.of_nat (length (wire_labels labels)) + 1)
    by (rewrite length_app; cbn [length]; lia).
  rewrite Z.add_assoc. reflexivity.
Qed.


(** X6. A name written in wire form without pointers, each label of 1 to
    63 bytes after its length byte and the zero byte last, is decoded by
    [unpack_dname] to the same bytes, wherever it stands in the buffer and
    whatever follows it, provided it has at most [MAXDNAME] bytes and fits
    the destination; the cursor then stands just after its zero byte. *)
Theorem unpack_dname_wire_name (pre post : list byte)
    (labels : list (list byte)) (dst : list byte) (max : Z) :
  let data := pre ++ wire_name labels ++ post in
  let p := mk_unpack data (Z.of_nat (length data))
                     (Z.of_nat (length pre)) None in
  Forall label_ok labels ->
  Z.of_nat (length data) + 255 <= SIZE_MAX ->
  Z.of_nat (length (wire_name labels)) <= MAXDNAME ->
  Z.of_nat (length (wire_name labels)) <= max <= SIZE_MAX ->
  unpack_dname p dst max
  = Ret (0,
         set_offset p (Z.of_nat (length pre)
                       + Z.of_nat (length (wire_name labels))),
         wire_name labels).
Proof.
  intros data p Hok Hfit Hlen Hmax.
  apply (unpack_dname_labels p pre post labels dst max);
    try reflexivity; assumption.
Qed.

Lemma unpack_dname_wire_name_witness :
  unpack_dname
    (mk_unpack (sample_header ++ wire_name [lit "www"; lit "example"] ++ [])
               (Z.of_nat (length (sample_header
                                  ++ wire_name [lit "www"; lit "example"]
                                  ++ [])))
               (Z.of_nat (length sample_header)) None)
    [] 255
  = Ret (0,
         set_offset
           (mk_unpack (sample_header ++ wire_name [lit "www"; lit "example"]
                       ++ [])
                      (Z.of_nat (length (sample_header
                                         ++ wire_name [lit "www";
                                                       lit "example"]
                                         ++ [])))
                      (Z.of_nat (length sample_header)) None)
           (Z.of_nat (length sample_header)
            + Z.of_nat (length (wire_name [lit "www"; lit "example"]))),
         wire_name [lit "www"; lit "example"]).
Proof.
  apply (unpack_dname_wire_name sample_header []
           [lit "www"; lit "example"] [] 255).
  - repeat constructor; vm_compute; intros H; discriminate H.
  - vm_compute. discriminate.
  - vm_compute. discriminate.
  - split; vm_compute; discriminate.
Defined.

(** ** Printing a name *)

Lemma dotted_cons (l : list byte) (labels : list (list byte)) :
  dotted (l :: labels) = (l ++ lit ".") ++ dotted labels.
Proof. reflexivity. Qed.

Lemma dotted_length (labels : list (list byte)) :
  length (dotted labels) = length (wire_labels labels).
Proof.
  induction labels as [|l labels IH]; [reflexivity|].
  rewrite dotted_cons, wire_labels_cons, !length_app, IH.
  change (length (lit ".")) with 1%nat. cbn [length]. lia.
Qed.

(** The loop of [print_dname] over labels: it prints each with its dot. *)
Lemma print_dname_loop_labels (dname post : list byte)
    (labels : list (list byte)) :
  forall (fuel : nat) (pre buf : list byte) (left : Z),
    (length labels < fuel)%nat ->
    Forall label_ok labels ->
    dname = pre ++ wire_name labels ++ post ->
    Z.of_nat (length (dotted labels)) <= left <= SIZE_MAX ->
    print_dname_loop fuel dname (Z.of_nat (length pre)) buf left
    = Ret (buf ++ dotted labels).
Proof.
  induction labels as [|l labels IH];
    intros fuel pre buf left Hfuel Hok Hd Hleft.
  - destruct fuel as [|fuel]; [inversion Hfuel|].
    cbn [print_dname_loop]. rewrite Hd. unfold wire_name.
    cbn [wire_labels flat_map app]. rewrite load_app. cbn [bind].
    change (u8 x00 =? 0) with true. cbn [orb dotted flat_map].
    rewrite app_nil_r. reflexivity.
  - destruct fuel as [|fuel]; [inversion Hfuel|].
    inversion Hok as [|l0 ls0 Hl Hrest]; subst l0 ls0.
    unfold label_ok in Hl. set (n := Z.of_nat (length l)) in *.
    assert (Hn : u8 (B n) = n) by (apply u8_B; unfold n; lia).
    rewrite dotted_cons, !length_app in Hleft.
    change (length (lit ".")) with 1%nat in Hleft.
    assert (Hwire : dname = pre ++ (B n :: l) ++ (wire_name labels ++ post)).
    { rewrite Hd. unfold wire_name. rewrite wire_labels_cons. fold n.
      rewrite <- !app_assoc. reflexivity. }
    assert (Hload : load dname (Z.of_nat (length pre)) = Ret n).
    { rewrite Hwire. cbn [app]. rewrite load_app, Hn. reflexivity. }
    assert (Hchunk : load_bytes dname (Z.of_nat (length pre) + 1) n = Ret l).
    { rewrite Hwire. cbn [app].
      replace (pre ++ B n :: l ++ wire_name labels ++ post)
        with ((pre ++ [B n]) ++ l ++ (wire_name labels ++ post))
        by (rewrite <- app_assoc; reflexivity).
      replace (Z.of_nat (length pre) + 1)
        with (Z.of_nat (length (pre ++ [B n])))
        by (rewrite length_app; cbn [length]; lia).
      apply load_bytes_app. }
    cbn [print_dname_loop]. rewrite Hload. cbn [bind].
    destruct (Z.eqb_spec n 0); [unfold n in *; lia|].
    destruct (Z.eqb_spec left 0); [unfold n in *; lia|]. cbn [orb].
    rewrite (size_t_small (left - 1)) by (unfold n in *; lia).
    assert (Hcount : (if n <? left - 1 then n else left - 1) = n)
      by (destruct (Z.ltb_spec n (left - 1)); unfold n in *; lia).
    rewrite Hcount, Hchunk. cbn [bind].
    rewrite (size_t_small (left - n)) by (unfold n in *; lia).
    destruct (Z.eqb_spec (left - n) 0); [unfold n in *; lia|]. cbn [negb].
    rewrite (size_t_small (left - n - 1)) by (unfold n in *; lia).
    replace (Z.of_nat (length pre) + (n + 1))
      with (Z.of_nat (length (pre ++ B n :: l)))
      by (rewrite length_app; cbn [length]; unfold n; lia).
    rewrite (IH fuel (pre ++ B n :: l)).
    + rewrite dotted_cons, <- !app_assoc. reflexivity.
    + cbn [length] in Hfuel. lia.
    + exact Hrest.
    + rewrite Hwire, <- app_assoc. reflexivity.
    + unfold n in *. lia.
Qed.

Lemma cstr_nonzero (l : list byte) :
  Forall (fun b => u8 b <> 0) l -> cstr l = l.
Proof.
  induction 1 as [|b l Hb _ IH]; [reflexivity|].
  cbn [cstr]. destruct (Z.eqb_spec (u8 b) 0); [contradiction|].
  rewrite IH. reflexivity.
Qed.

Lemma dotted_nonzero (labels : list (list byte)) :
  Forall (Forall (fun b => u8 b <> 0)) labels ->
  Forall (fun b => u8 b <> 0) (dotted labels).
Proof.
  induction 1 as [|l labels Hl _ IH]; [constructor|].
  rewrite dotted_cons. apply Forall_app. split; [|exact IH].
  apply Forall_app. split; [exact Hl|].
  repeat constructor. vm_compute. discriminate.
Qed.

(** [print_dname] on a name in wire form without pointers, in the buffer
    of 512 bytes of its callers. *)
Lemma print_dname_labels (labels : list (list byte)) :
  Forall label_ok labels ->
  Z.of_nat (length (wire_name labels)) <= MAXDNAME ->
  print_dname (wire_name labels) 512
  = Ret (match labels with [] => lit "." | _ => dotted labels end).
Proof.
  intros Hok Hlen.
  assert (Hwl : Z.of_nat (length (wire_name labels))
                = Z.of_nat (length (dotted labels)) + 1).
  { unfold wire_name. rewrite length_app, dotted_length. cbn [length]. lia. }
  unfold MAXDNAME in Hlen.
  destruct labels as [|l labels]; [reflexivity|].
  inversion Hok as [|l0 ls0 Hl Hrest]; subst l0 ls0. unfold label_ok in Hl.
  unfold print_dname.
  assert (H0 : load (wire_name (l :: labels)) 0
               = Ret (Z.of_nat (length l))).
  { unfold wire_name. rewrite wire_labels_cons. cbn [app].
    assert (Hb : 0 <= Z.of_nat (length l) <= 255) by lia.
    match goal with
    | |- load (?b :: ?t) 0 = _ =>
        exact (eq_trans (load_app [] t b) (f_equal Ret (u8_B _ Hb)))
    end. }
  rewrite H0. cbn [bind].
  destruct (Z.eqb_spec (Z.of_nat (length l)) 0); [lia|].
  pose proof (wire_labels_length (l :: labels)) as Hll.
  rewrite <- dotted_length in Hll.
  rewrite (print_dname_loop_labels (wire_name (l :: labels)) []
             (l :: labels) _ [] []); try assumption.
  - reflexivity.
  - change (Z.to_nat 512) with 512%nat. lia.
  - rewrite app_nil_r. reflexivity.
  - change (size_t (512 - 1)) with 511. unfold SIZE_MAX. lia.
Qed.

(** The host [dns_dispatch_mx] derives from an exchange in wire form. *)
Lemma exchange_host_labels (m : dns_rr) (labels : list (list byte)) :
  mx_exchange (rr m) = wire_name labels ->
  Forall label_ok labels ->
  Forall (Forall (fun b => u8 b <> 0)) labels ->
  Z.of_nat (length (wire_name labels)) <= MAXDNAME ->
  exchange_host m = Ret (removelast (dotted labels)).
Proof.
  intros Hm Hok Hnz Hlen.
  pose proof (print_dname_labels labels Hok Hlen) as Hprint.
  assert (Hwl : Z.of_nat (length (wire_name labels))
                = Z.of_nat (length (dotted labels)) + 1).
  { unfold wire_name. rewrite length_app, dotted_length. cbn [length]. lia. }
  unfold MAXDNAME in Hlen.
  unfold exchange_host. rewrite Hm, Hprint. cbn [bind].
  destruct labels as [|l labels]; [reflexivity|].
  unfold chop. cbv zeta.
  rewrite (cstr_nonzero _ (dotted_nonzero _ Hnz)).
  assert (Hpos : (1 <= length (dotted (l :: labels)))%nat).
  { rewrite dotted_cons, !length_app.
    change (length (lit ".")) with 1%nat. lia. }
  rewrite size_t_small by (unfold SIZE_MAX; lia).
  destruct (Z.ltb_spec (Z.of_nat (length (dotted (l :: labels))) - 1) 512);
    [|lia].
  rewrite removelast_firstn_len. do 2 f_equal. lia.
Qed.

(** X7. A name in wire form without pointers prints as its labels, each
    followed by a dot, and the root alone as "."; cutting the last
    character, as the callers of [print_dname] do, gives the host name
    with its labels separated by dots, when no label holds a zero byte.
    Together with the decoding of such a name by [unpack_dname] this is the
    round trip from the wire to the host name of an MX record. *)
Theorem exchange_host_wire_name (m : dns_rr) (labels : list (list byte)) :
  mx_exchange (rr m) = wire_name labels ->
  Forall label_ok labels ->
  Forall (Forall (fun b => u8 b <> 0)) labels ->
  Z.of_nat (length (wire_name labels)) <= MAXDNAME ->
  print_dname (wire_name labels) 512
  = Ret (match labels with [] => lit "." | _ => dotted labels end)
  /\ exchange_host m = Ret (removelast (dotted labels)).
Proof.
  intros Hm Hok Hnz Hlen. split.
  - apply print_dname_labels; assumption.
  - apply exchange_host_labels; assumption.
Qed.

Lemma exchange_host_wire_name_witness :
  exchange_host (mk_rr [] T_MX C_IN 60
                       (rr_mx 10 (wire_name [lit "mx"; lit "example"])))
  = Ret (lit "mx.example").
Proof.
  apply (proj2 (exchange_host_wire_name
                  (mk_rr [] T_MX C_IN 60
                         (rr_mx 10 (wire_name [lit "mx"; lit "example"])))
                  [lit "mx"; lit "example"] eq_refl
                  ltac:(repeat constructor; vm_compute; intros H;
                        discriminate H)
                  ltac:(repeat constructor; vm_compute; intros H;
                        discriminate H)
                  ltac:(vm_compute; discriminate))).
Defined.

(** X9. An MX record whose exchange has a first label that starts with a
    zero byte makes both walks over the answer section write outside their
    buffer: the exchange prints as a string of length 0, and
    [buf[strlen(buf) - 1] = 0] stores at the index [SIZE_MAX], the byte
    before the buffer. *)
Theorem mx_zero_label_writes_before_buffer
    (n : nat) (pack pack' : unpack) (r r' : dns_rr) (w : world) (found : Z)
    (name l : list byte) (labels : list (list byte)) :
  unpack_rr pack r = Ret (0, pack', r') ->
  rr_type r' = T_MX ->
  mx_exchange (rr r') = wire_name ((x00 :: l) :: labels) ->
  Forall label_ok ((x00 :: l) :: labels) ->
  Z.of_nat (length (wire_name ((x00 :: l) :: labels))) <= MAXDNAME ->
  mx_walk (S n) pack r w found = Crash (OutOfBoundsWrite SIZE_MAX)
  /\ preference_walk (S n) pack r name = Crash (OutOfBoundsWrite SIZE_MAX).
Proof.
  intros Hrr Hty Hex Hok Hlen.
  pose proof (print_dname_labels _ Hok Hlen) as Hprint.
  split.
  - cbn [mx_walk]. rewrite Hrr. cbn [bind]. rewrite Hty, Hex, Hprint.
    reflexivity.
  - cbn [preference_walk]. rewrite Hrr. cbn [bind]. rewrite Hty, Hex, Hprint.
    reflexivity.
Qed.

Lemma mx_zero_label_writes_before_buffer_witness :
  mx_walk 1 (unpack_init sample_zero_label
                         (Z.of_nat (length sample_zero_label)))
          no_rr (mk_world (Some sample_session) [] []) 0
  = Crash (OutOfBoundsWrite SIZE_MAX).
Proof.
  destruct (unpack_rr (unpack_init sample_zero_label
                         (Z.of_nat (length sample_zero_label))) no_rr)
    as [[[c p'] r']| |] eqn:Hrr;
    pose proof Hrr as Hv; vm_compute in Hv; try discriminate Hv.
  injection Hv as <- <- <-.
  apply (proj1 (mx_zero_label_writes_before_buffer
                  0 _ _ no_rr _ (mk_world (Some sample_session) [] []) 0
                  [] [B 97] [] Hrr eq_refl eq_refl
                  ltac:(repeat constructor)
                  ltac:(vm_compute; discriminate))).
Defined.

Lemma fits_in_bind {A : Type} (max : Z) (r : result A)
    (k : A -> result (list byte)) :
  (forall f, r = Crash f -> exists i, f = OutOfBoundsRead i) ->
  r <> OutOfFuel ->
  (forall a, r = Ret a -> fits_in max (k a)) ->
  fits_in max (bind r k).
Proof.
  intros Hc Hf Hk. destruct r as [a|f|]; cbn [bind fits_in].
  - apply Hk. reflexivity.
  - apply Hc. reflexivity.
  - apply Hf. reflexivity.
Qed.

Lemma load_faults (data : list byte) (i : Z) (f : fault) :
  load data i = Crash f -> exists j, f = OutOfBoundsRead j.
Proof.
  unfold load. destruct (i <? 0); [intros H; inversion H; eauto|].
  destruct (nth_error data (Z.to_nat i)); [discriminate|].
  intros H; inversion H; eauto.
Qed.

Lemma load_bytes_faults (data : list byte) (i n : Z) (f : fault) :
  load_bytes data i n = Crash f -> exists j, f = OutOfBoundsRead j.
Proof.
  unfold load_bytes. destruct (i <? 0); [intros H; inversion H; eauto|].
  destruct (Z.of_nat (length data) <? i + n); [|discriminate].
  intros H; inversion H; eauto.
Qed.

Lemma load_fuel (data : list byte) (i : Z) : load data i <> OutOfFuel.
Proof.
  unfold load. destruct (i <? 0); [discriminate|].
  destruct (nth_error data (Z.to_nat i)); discriminate.
Qed.

(** The loop of [print_dname] keeps the bytes written and the room left
    within the buffer, and the room falls at every turn. *)
Lemma print_dname_loop_fits (dname : list byte) (max : Z) :
  forall (fuel : nat) (i : Z) (buf : list byte) (left : Z),
    0 <= left <= SIZE_MAX ->
    (Z.to_nat left < fuel)%nat ->
    Z.of_nat (length buf) + left < max ->
    fits_in max (print_dname_loop fuel dname i buf left).
Proof.
  induction fuel as [|fuel IH]; intros i buf left Hleft Hfuel Hroom;
    [inversion Hfuel|].
  cbn [print_dname_loop].
  apply fits_in_bind; [apply load_faults | apply load_fuel |].
  intros d Hd. apply load_Ret in Hd as (_ & b & ->).
  pose proof (u8_range b) as Hb.
  destruct (Z.eqb_spec (u8 b) 0) as [|Hnz]; cbn [orb];
    [cbn [fits_in]; lia|].
  destruct (Z.eqb_spec left 0) as [|Hl0]; [cbn [fits_in]; lia|].
  rewrite (size_t_small (left - 1)) by lia.
  set (count := if u8 b <? left - 1 then u8 b else left - 1).
  assert (Hcount : 0 <= count <= left - 1)
    by (unfold count; destruct (Z.ltb_spec (u8 b) (left - 1)); lia).
  apply fits_in_bind; [apply load_bytes_faults | apply load_bytes_fuel |].
  intros chunk Hchunk. apply load_bytes_length in Hchunk; [|lia].
  rewrite (size_t_small (left - count)) by lia.
  destruct (Z.eqb_spec (left - count) 0); [lia|]. cbn [negb].
  rewrite (size_t_small (left - count - 1)) by lia.
  apply IH; [lia | lia |].
  rewrite !length_app. change (length (lit ".")) with 1%nat. lia.
Qed.

(** X8. [print_dname] never writes outside a buffer of [max] bytes, for
    [max] of 1 or more: whatever bytes the name holds, the string it leaves
    is shorter than [max], so its closing NUL is inside the buffer, and the
    loop ends; a name without its zero byte makes it read past the name. *)
Theorem print_dname_fits (dname : list byte) (max : Z) :
  1 <= max <= SIZE_MAX ->
  fits_in max (print_dname dname max).
Proof.
  intros Hmax. unfold print_dname.
  apply fits_in_bind; [apply load_faults | apply load_fuel |].
  intros d _. destruct (d =? 0).
  - cbn [fits_in]. unfold strlcpy. rewrite length_firstn. lia.
  - rewrite size_t_small by lia.
    apply print_dname_loop_fits; cbn [length]; lia.
Qed.

Lemma print_dname_fits_witness :
  fits_in 8 (print_dname (wire_name [lit "mx"; lit "example"]) 8).
Proof.
  apply (print_dname_fits (wire_name [lit "mx"; lit "example"]) 8).
  unfold SIZE_MAX. lia.
Defined.

(** ** Runs of a fan-out *)

Lemma host_addresses_frame (ai : list addrinfo) (lookup : dns_lookup) :
  forall (s : dns_session) (w : world),
    exists s' msgs,
      host_addresses ai lookup s w
      = (s', mk_world (w_session w) (w_events w) (w_sent w ++ msgs))
      /\ s_refcount s' = s_refcount s
      /\ filter is_terminal msgs = [].
Proof.
  induction ai as [|a ai IH]; intros s w.
  - exists s, []. cbn [host_addresses]. rewrite app_nil_r.
    destruct w; repeat split; reflexivity.
  - cbn [host_addresses].
    match goal with
    | |- context [host_addresses ai lookup ?s1 ?w1] =>
        destruct (IH s1 w1) as (s' & msgs & -> & Href & Hmsgs)
    end.
    eexists s', (_ :: msgs). split; [|split].
    + unfold send. cbn [w_session w_events w_sent].
      rewrite <- app_assoc. reflexivity.
    + exact Href.
    + cbn [filter is_terminal host_msg msg_type]. exact Hmsgs.
Qed.

Lemma forallb_remove_nth {A : Type} (f : A -> bool) (l : list A) :
  forall k : nat,
    forallb f l = true -> forallb f (remove_nth k l) = true.
Proof.
  unfold remove_nth.
  induction l as [|a l IH]; intros k H; [destruct k; reflexivity|].
  cbn [forallb] in H. apply andb_prop in H as (Ha & Hl).
  destruct k as [|k].
  - exact Hl.
  - cbn [firstn skipn app forallb]. rewrite Ha. apply (IH k Hl).
Qed.

Lemma remove_nth_length {A : Type} (k : nat) (l : list A) :
  (k < length l)%nat -> length l = S (length (remove_nth k l)).
Proof.
  intros Hk. unfold remove_nth.
  rewrite length_app, length_firstn, length_skipn. lia.
Qed.

(** One completion keeps the state of a fan-out. *)
Lemma fanout_step
    (k : nat) (ar : asr_result) (w : world) :
  fanout_ok w ->
  exists w',
    event_asr_dispatch k ar w = Ret w'
    /\ fanout_ok w'
    /\ (length (w_events w') <= length (w_events w))%nat
    /\ exists more, w_sent w' = w_sent w ++ more.
Proof.
  intros (Hall & Hs). unfold event_asr_dispatch.
  destruct (nth_error (w_events w) k) as [[q cb]|] eqn:Hk.
  2:{ exists w. repeat split; try assumption; [lia|].
      exists []. rewrite app_nil_r. reflexivity. }
  assert (Hlt : (k < length (w_events w))%nat)
    by (apply nth_error_Some; rewrite Hk; discriminate).
  assert (Hcb : is_host_lookup (q, cb) = true).
  { rewrite forallb_forall in Hall. apply Hall.
    eapply nth_error_In; eassumption. }
  destruct q; try discriminate Hcb. destruct cb; try discriminate Hcb.
  destruct (w_session w) as [s|] eqn:Hw.
  2:{ destruct Hs as (He & _). rewrite He in Hlt. inversion Hlt. }
  destruct Hs as (Href & Hne & Hterm).
  pose proof (remove_nth_length k (w_events w) Hlt) as Hlen.
  unfold dns_dispatch_host, the_session. cbn [w_session bind].
  match goal with
  | |- context [host_addresses ?ai ?lk ?s1 ?w1] =>
      destruct (host_addresses_frame ai lk s1 w1)
        as (s' & msgs & -> & Href' & Hmsgs)
  end.
  cbn [w_session w_events w_sent s_refcount s_mxfound s_p s_reqid].
  set (s1 := if negb (ar_gai_errno ar =? 0) then _ else s').
  assert (Href1 : s_refcount s1 = s_refcount s)
    by (unfold s1; destruct (negb (ar_gai_errno ar =? 0)); exact Href').
  rewrite Href1.
  destruct (Z.eqb_spec (s_refcount s - 1) 0) as [H0|H0]; cbn [negb].
  - eexists. split; [reflexivity|].
    assert (Hnil : remove_nth k (w_events w) = []).
    { apply length_zero_iff_nil. lia. }
    unfold free_session, send, set_session, fanout_ok.
    cbn [w_session w_events w_sent]. rewrite Hnil.
    split; [split; [reflexivity|split; [reflexivity|]]|split; [cbn; lia|]].
    + eexists (w_sent w ++ msgs), _, _. split; [reflexivity|].
      rewrite filter_app, Hterm, Hmsgs. reflexivity.
    + eexists. rewrite <- app_assoc. reflexivity.
  - eexists. split; [reflexivity|].
    unfold set_session, fanout_ok. cbn [w_session w_events w_sent s_refcount].
    split; [split; [|split; [|split]]|split; [lia|]].
    + apply forallb_remove_nth. exact Hall.
    + lia.
    + intros Hnil. rewrite Hnil in Hlen. cbn [length] in Hlen. lia.
    + rewrite filter_app, Hterm, Hmsgs. reflexivity.
    + eexists. reflexivity.
Qed.

(** X10. While the host lookups of a request complete, in any order and
    with any results, and whatever stray completions arrive, no callback
    touches a freed session: the run returns, the session counts the
    lookups still in flight and no terminator is sent as long as one is in
    flight, and when the last one completes the single terminator is sent
    as the last message and the session is freed. Messages already sent
    stay as they were. *)
Theorem fanout_run (evs : list (nat * asr_result)) :
  forall w : world,
    fanout_ok w ->
    exists w',
      run evs w = Ret w'
      /\ fanout_ok w'
      /\ (length (w_events w') <= length (w_events w))%nat
      /\ exists more, w_sent w' = w_sent w ++ more.
Proof.
  induction evs as [|[k ar] evs IH]; intros w Hw.
  - exists w. repeat split; try apply Hw; [lia|].
    exists []. rewrite app_nil_r. reflexivity.
  - destruct (fanout_step k ar w Hw)
      as (w1 & Hstep & Hw1 & Hlen1 & more1 & Hsent1).
    destruct (IH w1 Hw1) as (w' & Hrun & Hw' & Hlen & more & Hsent).
    exists w'. cbn [run]. rewrite Hstep. cbn [bind].
    split; [exact Hrun|]. split; [exact Hw'|]. split; [lia|].
    exists (more1 ++ more). rewrite Hsent, Hsent1, app_assoc. reflexivity.
Qed.

Lemma fanout_run_witness :
  exists w',
    run [(1%nat, mk_result 0 0 0 [] [mk_addrinfo (bytes [2; 0]) 16] []);
         (5%nat, mk_result 0 0 0 [] [] []);
         (0%nat, mk_result 0 0 1 [] [] [])] sample_fanout = Ret w'
    /\ fanout_ok w'
    /\ (length (w_events w') <= length (w_events sample_fanout))%nat
    /\ exists more, w_sent w' = w_sent sample_fanout ++ more.
Proof.
  apply (fanout_run _ sample_fanout).
  split; [reflexivity|]. cbn. repeat split; discriminate.
Defined.

(** ** Requests *)

(** X11. A request [dns_imsg] accepts is either answered at once or waits
    for one query, never both and never neither: either the session is
    freed, no query is in flight and the messages sent, all to the
    requester and under the request id, end with the only terminal one; or
    the session lives, nothing was sent and exactly one query is in flight,
    counted by the session exactly when it is a host lookup. *)
Theorem dns_imsg_settled
    (getaddrinfo : list byte -> ai_hints -> Z * option addrinfo)
    (ss : list byte) (p : Z) (im : imsg) (submitted : bool) (w : world) :
  dns_imsg getaddrinfo ss p im submitted = Ret w ->
  (w_session w = None /\ w_events w = []
   /\ Forall (fun m => msg_p m = p /\ msg_reqid m = Some (im_reqid im))
             (w_sent w)
   /\ exists before m,
        w_sent w = before ++ [m]
        /\ is_terminal m = true /\ filter is_terminal before = [])
  \/ (exists s e,
        w_session w = Some s /\ w_events w = [e] /\ w_sent w = []
        /\ s_p s = p /\ s_reqid s = im_reqid im /\ s_type s = hdr_type im
        /\ s_refcount s = (if is_host_lookup e then 1 else 0)).
Proof.
  unfold dns_imsg.
  destruct (hdr_type im) eqn:Hty; destruct (im_data im) eqn:Hdata;
    try discriminate.
  - (* HOST *)
    intros H. cbn in H. injection H as <-. right.
    eexists _, _. cbn. repeat split; reflexivity.
  - (* PTR, from the MTA *)
    intros H. injection H as <-. right.
    eexists _, _. cbn. repeat split; reflexivity.
  - (* PTR, from the SMTP server *)
    intros H. injection H as <-. right.
    eexists _, _. cbn. repeat split; reflexivity.
  - (* MX *)
    destruct (domainname_is_addr getaddrinfo s (Some ss)
                (Some (Z.of_nat (length ss)))) as [[lit_addr sa] sl].
    destruct (negb (lit_addr =? 0)); [|destruct submitted; cbn [negb]].
    + intros H. injection H as <-. left.
      cbn. split; [reflexivity|]. split; [reflexivity|].
      split; [repeat constructor|].
      eexists [_], _. repeat split; reflexivity.
    + intros H. injection H as <-. right.
      eexists _, _. cbn. repeat split; reflexivity.
    + intros H. injection H as <-. left.
      cbn. split; [reflexivity|]. split; [reflexivity|].
      split; [repeat constructor|].
      eexists [], _. repeat split; reflexivity.
  - (* MX_PREFERENCE *)
    destruct submitted; cbn [negb].
    + intros H. injection H as <-. right.
      eexists _, _. cbn. repeat split; reflexivity.
    + intros H. injection H as <-. left.
      cbn. split; [reflexivity|]. split; [reflexivity|].
      split; [repeat constructor|].
      eexists [], _. repeat split; reflexivity.
Qed.

Lemma dns_imsg_settled_witness :
  (w_session (mk_world None []
                [mk_message 1 IMSG_MTA_DNS_MX_PREFERENCE
                            [m_id 7; m_status DNS_ENOTFOUND]]) = None
   /\ w_events (mk_world None []
                  [mk_message 1 IMSG_MTA_DNS_MX_PREFERENCE
                              [m_id 7; m_status DNS_ENOTFOUND]]) = []
   /\ Forall (fun m => msg_p m = 1 /\ msg_reqid m = Some 7)
             (w_sent (mk_world None []
                        [mk_message 1 IMSG_MTA_DNS_MX_PREFERENCE
                                    [m_id 7; m_status DNS_ENOTFOUND]]))
   /\ exists before m,
        w_sent (mk_world None []
                  [mk_message 1 IMSG_MTA_DNS_MX_PREFERENCE
                              [m_id 7; m_status DNS_ENOTFOUND]])
        = before ++ [m]
        /\ is_terminal m = true /\ filter is_terminal before = [])
  \/ (exists s e,
        w_session (mk_world None []
                     [mk_message 1 IMSG_MTA_DNS_MX_PREFERENCE
                                 [m_id 7; m_status DNS_ENOTFOUND]]) = Some s
        /\ w_events (mk_world None []
                       [mk_message 1 IMSG_MTA_DNS_MX_PREFERENCE
                                   [m_id 7; m_status DNS_ENOTFOUND]]) = [e]
        /\ w_sent (mk_world None []
                     [mk_message 1 IMSG_MTA_DNS_MX_PREFERENCE
                                 [m_id 7; m_status DNS_ENOTFOUND]]) = []
        /\ s_p s = 1 /\ s_reqid s = 7
        /\ s_type s = IMSG_MTA_DNS_MX_PREFERENCE
        /\ s_refcount s = (if is_host_lookup e then 1 else 0)).
Proof.
  apply (dns_imsg_settled getaddrinfo_none [] 1
           (mk_imsg IMSG_MTA_DNS_MX_PREFERENCE 7
                    (D_string2 (lit "a") (lit "mx.a"))) false).
  reflexivity.
Defined.

(** X12. A reverse lookup, asked by the MTA or by the SMTP server, is
    answered by one message of the type of the request, under its request
    id: [DNS_OK] and the name the resolver stored when [ar_gai_errno] is 0,
    [DNS_ENOTFOUND] and no name otherwise. The session is freed then, and
    nothing that completes later changes or adds anything. *)
Theorem ptr_request_reply
    (getaddrinfo : list byte -> ai_hints -> Z * option addrinfo)
    (ss : list byte) (p reqid : Z) (ty : imsg_type) (sa : list byte)
    (submitted : bool) (ar : asr_result) (evs : list (nat * asr_result)) :
  ty = IMSG_MTA_DNS_PTR \/ ty = IMSG_SMTP_DNS_PTR ->
  (w0 <- dns_imsg getaddrinfo ss p (mk_imsg ty reqid (D_sockaddr sa))
                  submitted ;;
   w1 <- event_asr_dispatch 0 ar w0 ;;
   run evs w1)
  = Ret (mk_world None []
           [mk_message p ty
              (if ar_gai_errno ar =? 0
               then [m_id reqid; m_status DNS_OK;
                     m_string (strlcpy (cstr (ar_host ar))
                                       (HOST_NAME_MAX + 1))]
               else [m_id reqid; m_status DNS_ENOTFOUND])]).
Proof.
  intros [-> | ->];
    cbn [dns_imsg hdr_type im_data im_reqid bind];
    unfold event_asr_dispatch, event_asr_run;
    cbn [w_events w_session w_sent app nth_error bind the_session
         remove_nth firstn skipn set_session s_p s_reqid s_type s_name];
    unfold dns_dispatch_ptr, the_session;
    cbn [w_events w_session w_sent app bind set_session free_session send
         s_p s_reqid s_type s_name];
    rewrite run_idle by reflexivity;
    destruct (ar_gai_errno ar =? 0); reflexivity.
Qed.

Lemma ptr_request_reply_witness :
  (w0 <- dns_imsg getaddrinfo_none [] 1
           (mk_imsg IMSG_SMTP_DNS_PTR 7 (D_sockaddr (bytes [2; 0]))) true ;;
   w1 <- event_asr_dispatch 0 (mk_result 0 0 0 [] [] (lit "mx.a")) w0 ;;
   run [(0%nat, mk_result 0 0 0 [] [] [])] w1)
  = Ret (mk_world None []
           [mk_message 1 IMSG_SMTP_DNS_PTR
              (if ar_gai_errno (mk_result 0 0 0 [] [] (lit "mx.a")) =? 0
               then [m_id 7; m_status DNS_OK;
                     m_string (strlcpy (cstr (ar_host
                                 (mk_result 0 0 0 [] [] (lit "mx.a"))))
                                       (HOST_NAME_MAX + 1))]
               else [m_id 7; m_status DNS_ENOTFOUND])]).
Proof.
  apply (ptr_request_reply getaddrinfo_none [] 1 7 IMSG_SMTP_DNS_PTR).
  right. reflexivity.
Defined.

(** ** The preference of an exchange *)

Lemma exchange_host_Ret (m : dns_rr) (host : list byte) :
  exchange_host m = Ret host ->
  exists buf,
    print_dname (mx_exchange (rr m)) 512 = Ret buf /\ chop buf 512 = Ret host.
Proof. unfold exchange_host. apply bind_Ret. Qed.

(** The loop of [dns_dispatch_mx_preference] stops at the first MX record
    whose host is [name], and does not decode what follows it. *)
Lemma preference_walk_found (name : list byte) (m : dns_rr)
    (host : list byte) :
  forall (before : list dns_rr) (more : nat) (pack : unpack) (r : dns_rr),
    answer_section (S (length before)) pack r = Ret (before ++ [m]) ->
    Forall (passed_over name) before ->
    rr_type m = T_MX ->
    exchange_host m = Ret host ->
    strcasecmp0 name host = true ->
    preference_walk (S (length before) + more) pack r name = Ret (DNS_OK, m).
Proof.
  intros before more.
  induction before as [|b before IH]; intros pack r Hsec Hbefore Hty Hhost Hcmp.
  - cbn [length answer_section app] in Hsec.
    apply bind_Ret in Hsec as ([[c pack1] r1] & Hrr & Hsec).
    destruct (c =? -1) eqn:Hc; [discriminate Hsec|].
    cbn [bind] in Hsec. injection Hsec as ->.
    destruct (exchange_host_Ret m host Hhost) as (buf & Hbuf & Hchop).
    cbn [length Nat.add preference_walk]. rewrite Hrr. cbn [bind].
    rewrite Hc, Hty, Z.eqb_refl. cbn [negb].
    rewrite Hbuf. cbn [bind]. rewrite Hchop. cbn [bind].
    rewrite Hcmp. reflexivity.
  - cbn [length answer_section app] in Hsec.
    apply bind_Ret in Hsec as ([[c pack1] r1] & Hrr & Hsec).
    destruct (c =? -1) eqn:Hc; [discriminate Hsec|].
    apply bind_Ret in Hsec as (rest & Hrest & Hsec).
    injection Hsec as -> ->.
    inversion Hbefore as [|b0 bs0 Hb Hothers]; subst b0 bs0.
    cbn [length Nat.add preference_walk]. rewrite Hrr. cbn [bind].
    rewrite Hc.
    destruct (rr_type b =? T_MX) eqn:Hbty; cbn [negb].
    + apply Z.eqb_eq in Hbty.
      destruct (Hb Hbty) as (bhost & Hbhost & Hbcmp).
      destruct (exchange_host_Ret b bhost Hbhost) as (buf & Hbuf & Hchop).
      rewrite Hbuf. cbn [bind]. rewrite Hchop. cbn [bind]. rewrite Hbcmp.
      apply (IH pack1 b Hrest Hothers Hty Hhost Hcmp).
    + apply (IH pack1 b Hrest Hothers Hty Hhost Hcmp).
Qed.

(** The loop comes to the end of the answer section when no record stops
    it. *)
Lemma preference_walk_none (name : list byte) (ancount : nat) :
  forall (pack : unpack) (r : dns_rr) (rrs : list dns_rr),
    answer_section ancount pack r = Ret rrs ->
    Forall (passed_over name) rrs ->
    exists r', preference_walk ancount pack r name = Ret (DNS_ENOTFOUND, r').
Proof.
  induction ancount as [|n IH]; intros pack r rrs Hsec Hrrs.
  - exists r. reflexivity.
  - cbn [answer_section] in Hsec.
    apply bind_Ret in Hsec as ([[c pack1] r1] & Hrr & Hsec).
    cbn [preference_walk]. rewrite Hrr. cbn [bind].
    destruct (c =? -1); [exists r1; reflexivity|].
    apply bind_Ret in Hsec as (rest & Hrest & Hsec).
    injection Hsec as <-.
    inversion Hrrs as [|b0 bs0 Hb Hothers]; subst b0 bs0.
    destruct (rr_type r1 =? T_MX) eqn:Hty; cbn [negb].
    + apply Z.eqb_eq in Hty.
      destruct (Hb Hty) as (host & Hhost & Hcmp).
      destruct (exchange_host_Ret r1 host Hhost) as (buf & Hbuf & Hchop).
      rewrite Hbuf. cbn [bind]. rewrite Hchop. cbn [bind]. rewrite Hcmp.
      apply (IH pack1 r1 rest Hrest Hothers).
    + apply (IH pack1 r1 rest Hrest Hothers).
Qed.

(** X13. The answer to a request for the preference of an exchange, when
    the resolver reports no error and the header and the question of the
    payload decode. If the first records of the answer section decode up to
    an MX record whose exchange, printed and cut, is the name asked for,
    compared without regard to case, and every MX record before it prints
    as another host, the reply carries [DNS_OK] and the preference of that
    record, whatever follows the record in the payload. If the records of
    the section decode, up to their count or to the first that does not,
    and every MX record among them prints as another host, the reply
    carries [DNS_ENOTFOUND] and no preference. In both cases the reply is
    the only message sent and the session is freed. *)
Theorem mx_preference_first_match (ar : asr_result) (w : world)
    (s : dns_session) (p1 p2 : unpack) (h : dns_header) (q : dns_query) :
  w_session w = Some s ->
  ar_h_errno ar = 0 ->
  unpack_header (unpack_init (ar_data ar) (ar_datalen ar)) no_header
  = Ret (0, p1, h) ->
  unpack_query p1 no_query = Ret (0, p2, q) ->
  (forall (before : list dns_rr) (m : dns_rr) (host : list byte),
      (length before < Z.to_nat (h_ancount h))%nat ->
      answer_section (S (length before)) p2 no_rr = Ret (before ++ [m]) ->
      Forall (passed_over (s_name s)) before ->
      rr_type m = T_MX ->
      exchange_host m = Ret host ->
      strcasecmp0 (s_name s) host = true ->
      dns_dispatch_mx_preference ar w
      = Ret (mk_world None (w_events w)
               (w_sent w
                ++ [preference_reply s DNS_OK
                      [m_int (mx_preference (rr m))]])))
  /\ (forall rrs : list dns_rr,
         answer_section (Z.to_nat (h_ancount h)) p2 no_rr = Ret rrs ->
         Forall (passed_over (s_name s)) rrs ->
         dns_dispatch_mx_preference ar w
         = Ret (mk_world None (w_events w)
                  (w_sent w ++ [preference_reply s DNS_ENOTFOUND []]))).
Proof.
  intros Hw Herr Hh Hq.
  assert (Hrun : forall walk,
    preference_walk (Z.to_nat (h_ancount h)) p2 no_rr (s_name s) = Ret walk ->
    dns_dispatch_mx_preference ar w
    = Ret (free_session
             (send w (preference_reply s (fst walk)
                        (match fst walk with
                         | DNS_OK => [m_int (mx_preference (rr (snd walk)))]
                         | _ => []
                         end))))).
  { intros [e r'] Hwalk.
    unfold dns_dispatch_mx_preference, the_session. rewrite Hw. cbn [bind].
    rewrite Herr. cbn [Z.eqb negb]. rewrite Hh. cbn [bind Z.eqb].
    rewrite Hq. cbn [bind Z.eqb]. rewrite Hwalk. reflexivity. }
  split.
  - intros before m host Hlt Hsec Hbefore Hty Hhost Hcmp.
    pose proof (preference_walk_found (s_name s) m host before
                  (Z.to_nat (h_ancount h) - S (length before)) p2 no_rr
                  Hsec Hbefore Hty Hhost Hcmp) as Hwalk.
    replace (S (length before)
             + (Z.to_nat (h_ancount h) - S (length before)))%nat
      with (Z.to_nat (h_ancount h)) in Hwalk by lia.
    rewrite (Hrun _ Hwalk). reflexivity.
  - intros rrs Hsec Hrrs.
    destruct (preference_walk_none (s_name s) _ p2 no_rr rrs Hsec Hrrs)
      as (r' & Hwalk).
    rewrite (Hrun _ Hwalk). reflexivity.
Qed.

Lemma mx_preference_first_match_witness :
  dns_dispatch_mx_preference
    (mk_result 0 0 0 sample_match_then_zero [] [])
    (mk_world (Some (mk_session 1 7 IMSG_MTA_DNS_MX_PREFERENCE (lit "A")
                                0 0 0)) [] [])
  = Ret (mk_world None []
           ([] ++ [preference_reply
                     (mk_session 1 7 IMSG_MTA_DNS_MX_PREFERENCE (lit "A")
                                 0 0 0)
                     DNS_OK [m_int 20]])).
Proof.
  set (ar := mk_result 0 0 0 sample_match_then_zero [] []).
  set (s := mk_session 1 7 IMSG_MTA_DNS_MX_PREFERENCE (lit "A") 0 0 0).
  set (w := mk_world (Some s) [] []).
  destruct (unpack_header (unpack_init (ar_data ar) (ar_datalen ar)) no_header)
    as [[[c1 p1] h]| |] eqn:Hh;
    pose proof Hh as Hh'; vm_compute in Hh'; [|discriminate..].
  injection Hh' as <- <- <-.
  match type of Hh with _ = Ret (_, ?p1, _) =>
    destruct (unpack_query p1 no_query) as [[[c2 p2] q]| |] eqn:Hq;
    pose proof Hq as Hq'; vm_compute in Hq'; [|discriminate..]
  end.
  injection Hq' as <- <- <-.
  match type of Hq with _ = Ret (_, ?p2, _) =>
    destruct (answer_section 1 p2 no_rr) as [rrs| |] eqn:Hans;
    pose proof Hans as Hans'; vm_compute in Hans'; [|discriminate..]
  end.
  injection Hans' as <-.
  match type of Hans with _ = Ret [?m] =>
    apply (proj1 (mx_preference_first_match ar w s _ _ _ _
                    eq_refl eq_refl Hh Hq) [] m (lit "a"))
  end.
  - vm_compute. lia.
  - exact Hans.
  - constructor.
  - reflexivity.
  - vm_compute. reflexivity.
  - vm_compute. reflexivity.
Defined.

(** ** Address literals *)

Lemma u8_inj (a b : byte) : u8 a = u8 b -> a = b.
Proof.
  unfold u8. intros H. apply N2Z.inj in H.
  pose proof (Byte.of_to_N a) as Ha. rewrite H, Byte.of_to_N in Ha.
  injection Ha as ->. reflexivity.
Qed.

(** X14. [domainname_is_addr] returns 1 exactly for the strings that open
    with a bracket, or with "[IPv6:" in any case, close with a bracket as
    their last character, hold between the two a text, possibly empty,
    that with the closing bracket is shorter than the buffer of
    [SMTPD_MAXDOMAINPARTSIZE] bytes, and whose text [getaddrinfo] resolves
    as a numeric host, asked for the family [AF_INET6] after "[IPv6:" and
    for any family otherwise. *)
Theorem domainname_is_addr_accepts
    (getaddrinfo : list byte -> ai_hints -> Z * option addrinfo)
    (s : list byte) (sa : option (list byte)) (sl : option Z) :
  fst (fst (domainname_is_addr getaddrinfo s sa sl)) = 1
  <-> exists c rest inner res,
        s = c :: rest /\ u8 c = 91
        /\ skipn (if strncasecmp0 (lit "[IPv6:") s 6 then 6 else 1) s
           = inner ++ lit "]"
        /\ Z.of_nat (length inner) + 1 < SMTPD_MAXDOMAINPARTSIZE
        /\ snd (getaddrinfo inner
                  (mk_hints true
                     (if strncasecmp0 (lit "[IPv6:") s 6
                      then AF_INET6 else PF_UNSPEC)))
           = Some res.
Proof.
  unfold domainname_is_addr, SMTPD_MAXDOMAINPARTSIZE, strlcpy.
  destruct s as [|c rest]; [split; [discriminate|]|].
  { intros (c & rest & _ & _ & H & _). discriminate H. }
  remember (strncasecmp0 (lit "[IPv6:") (c :: rest) 6) as i6 eqn:Hi6.
  remember (skipn (if i6 then 6%nat else 1%nat) (c :: rest)) as s' eqn:Hs'.
  clear Hi6 Hs'.
  change (Z.to_nat (255 - 1)) with 254%nat.
  split.
  - destruct (Z.eqb_spec (u8 c) 91) as [Hc|Hc]; cbn [negb];
      [|discriminate].
    destruct (Z.leb_spec 255 (Z.of_nat (length s'))) as [|Hl]; cbn [orb];
      [discriminate|].
    destruct (Z.eqb_spec (Z.of_nat (length s')) 0) as [|Hl0]; cbn [orb];
      [discriminate|].
    rewrite firstn_all2 by lia.
    destruct (Z.eqb_spec (u8 (last s' x00)) 93) as [Hlast|]; cbn [negb];
      [|discriminate].
    destruct (getaddrinfo (removelast s') (mk_hints true _))
      as [error [res|]] eqn:Hgai; [|discriminate].
    intros _. exists c, rest, (removelast s'), res.
    assert (Hne : s' <> []) by (intros ->; cbn [length] in Hl0; lia).
    pose proof (app_removelast_last x00 Hne) as Hsplit.
    assert (Hb : last s' x00 = "]"%byte) by (apply u8_inj; exact Hlast).
    rewrite Hb in Hsplit.
    split; [reflexivity|]. split; [exact Hc|]. split; [exact Hsplit|].
    split.
    + rewrite Hsplit, length_app in Hl.
      change (length ["]"%byte]) with 1%nat in Hl. lia.
    + rewrite Hgai. reflexivity.
  - intros (c0 & rest0 & inner & res & Heq & Hc & Hs & Hlen & Hgai).
    injection Heq as <- <-. rewrite Hs.
    change (lit "]") with ["]"%byte].
    destruct (Z.eqb_spec (u8 c) 91); [|contradiction]. cbn [negb].
    assert (Hl : Z.of_nat (length (inner ++ ["]"%byte]))
                 = Z.of_nat (length inner) + 1)
      by (rewrite length_app; cbn [length]; lia).
    rewrite Hl.
    destruct (Z.leb_spec 255 (Z.of_nat (length inner) + 1)); [lia|].
    destruct (Z.eqb_spec (Z.of_nat (length inner) + 1) 0); [lia|].
    cbn [orb]. rewrite firstn_all2 by lia.
    rewrite last_last, removelast_last.
    change (u8 "]" =? 93) with true. cbn [negb].
    destruct (getaddrinfo inner (mk_hints true _)) as [error res0].
    cbn [snd] in Hgai. subst res0.
    destruct sa, sl; reflexivity.
Qed.

Lemma domainname_is_addr_accepts_witness :
  fst (fst (domainname_is_addr getaddrinfo_any (lit "[ipv6:::1]") None None))
  = 1.
Proof.
  apply (proj2 (domainname_is_addr_accepts getaddrinfo_any
                  (lit "[ipv6:::1]") None None)).
  exists "["%byte, (lit "ipv6:::1]"), (lit "::1"),
         (mk_addrinfo (bytes [10; 0; 0; 0]) 4).
  repeat split.
Defined.

Lemma cut_at_app (c : Z) (b : byte) (inner rest : list byte) :
  u8 b = c ->
  Forall (fun x => u8 x <> c) inner ->
  cut_at c (inner ++ b :: rest) = inner.
Proof.
  intros Hb. induction 1 as [|x inner Hx _ IH]; cbn [app cut_at].
  - rewrite Hb, Z.eqb_refl. reflexivity.
  - destruct (Z.eqb_spec (u8 x) c); [contradiction|]. rewrite IH.
    reflexivity.
Qed.

(** X15. A host written as an address literal is resolved as the text
    between its brackets: for a host that opens with a bracket, or with
    "[IPv6:" in any case, and holds after it a text without closing
    bracket, a closing bracket and anything else, [dns_lookup_host] counts
    one more lookup in the session and submits the text alone, provided it
    fits the copy of [HOST_NAME_MAX] + 1 bytes with its bracket. This is
    the text [domainname_is_addr] hands to [getaddrinfo] for the same
    host. *)
Theorem dns_lookup_host_literal (w : world) (s : dns_session)
    (host : list byte) (c : byte) (rest inner tail : list byte)
    (preference : Z) :
  w_session w = Some s ->
  host = c :: rest -> u8 c = 91 ->
  skipn (if strncasecmp0 (lit "[IPv6:") host 6 then 6 else 1) host
  = inner ++ lit "]" ++ tail ->
  Forall (fun x => u8 x <> 93) inner ->
  Z.of_nat (length inner) + 1 <= HOST_NAME_MAX ->
  dns_lookup_host w host preference
  = Ret (mk_world
           (Some (mk_session (s_p s) (s_reqid s) (s_type s) (s_name s)
                             (s_mxfound s) (s_error s) (s_refcount s + 1)))
           (w_events w
            ++ [(getaddrinfo_async inner (mk_hints false PF_UNSPEC),
                 dispatch_host (mk_lookup preference))])
           (w_sent w)).
Proof.
  intros Hw Hhost Hc Hskip Hinner Hlen.
  rewrite (dns_lookup_host_spec w s host preference Hw).
  assert (Hbare : bare_host host = inner); [|rewrite Hbare; reflexivity].
  unfold bare_host. rewrite Hhost, Hc. rewrite <- Hhost. cbn [Z.eqb Pos.eqb].
  assert (Hs : (if strncasecmp0 (lit "[IPv6:") host 6
                then skipn 6 host else skipn 1 host)
               = inner ++ lit "]" ++ tail)
    by (destruct (strncasecmp0 (lit "[IPv6:") host 6); exact Hskip).
  rewrite Hs. unfold strlcpy, HOST_NAME_MAX in *.
  change (Z.to_nat (255 + 1 - 1)) with 255%nat.
  change (lit "]" ++ tail) with ("]"%byte :: tail).
  rewrite firstn_app.
  rewrite (firstn_all2 (n := 255) inner) by lia.
  destruct (255 - length inner)%nat as [|k] eqn:Hk; [lia|].
  cbn [firstn]. apply cut_at_app; [reflexivity | exact Hinner].
Qed.

Lemma dns_lookup_host_literal_witness :
  dns_lookup_host (mk_world (Some sample_session) [] [])
                  (lit "[IPv6:::1]") (-1)
  = Ret (mk_world
           (Some (mk_session 1 7 IMSG_MTA_DNS_MX (lit "a") 0 0 1))
           [(getaddrinfo_async (lit "::1") (mk_hints false PF_UNSPEC),
             dispatch_host (mk_lookup (-1)))]
           []).
Proof.
  apply (dns_lookup_host_literal (mk_world (Some sample_session) [] [])
           sample_session (lit "[IPv6:::1]") "["%byte (lit "IPv6:::1]")
           (lit "::1") [] (-1) eq_refl eq_refl eq_refl eq_refl).
  - repeat constructor; vm_compute; intros H; discriminate H.
  - vm_compute. discriminate.
Defined.

(** ** Records on the wire *)

Lemma be_value_be16 (v : Z) : 0 <= v < 65536 -> be_value (be16 v) = v.
Proof.
  intros Hv. unfold be_value, be16. cbn [fold_left].
  rewrite !u8_B by (Z.div_mod_to_equations; lia).
  Z.div_mod_to_equations; lia.
Qed.

Lemma be_value_be32 (v : Z) : 0 <= v < 4294967296 -> be_value (be32 v) = v.
Proof.
  intros Hv. unfold be_value, be32. cbn [fold_left].
  rewrite !u8_B by (Z.div_mod_to_equations; lia).
  Z.div_mod_to_equations; lia.
Qed.

(** [unpack_data] over bytes that are in the buffer. *)
Lemma unpack_data_chunk (p : unpack) (pre chunk post d : list byte) :
  up_buf p = pre ++ chunk ++ post ->
  up_len p = Z.of_nat (length (up_buf p)) ->
  up_offset p = Z.of_nat (length pre) ->
  up_err p = None ->
  up_len p <= SIZE_MAX ->
  unpack_data p d (Z.of_nat (length chunk))
  = Ret (0, set_offset p (up_offset p + Z.of_nat (length chunk)), chunk).
Proof.
  intros Hbuf Hlen Hoff Herr Hfit. unfold unpack_data. rewrite Herr.
  assert (Hl : up_len p = Z.of_nat (length pre) + Z.of_nat (length chunk)
                          + Z.of_nat (length post))
    by (rewrite Hlen, Hbuf, !length_app; lia).
  rewrite size_t_small by lia.
  destruct (Z.ltb_spec (up_len p - up_offset p) (Z.of_nat (length chunk)));
    [lia|].
  rewrite Hbuf, Hoff, load_bytes_app. cbn [bind].
  rewrite size_t_small by lia. reflexivity.
Qed.

Lemma unpack_u16_be16 (p : unpack) (pre post : list byte) (v old : Z) :
  up_buf p = pre ++ be16 v ++ post ->
  up_len p = Z.of_nat (length (up_buf p)) ->
  up_offset p = Z.of_nat (length pre) ->
  up_err p = None ->
  up_len p <= SIZE_MAX ->
  0 <= v < 65536 ->
  unpack_u16 p old = Ret (0, set_offset p (up_offset p + 2), v).
Proof.
  intros Hbuf Hlen Hoff Herr Hfit Hv. unfold unpack_u16.
  rewrite (unpack_data_chunk p pre (be16 v) post [] Hbuf Hlen Hoff Herr Hfit
           : unpack_data p [] 2 = _).
  cbn [bind Z.eqb]. rewrite be_value_be16 by exact Hv. reflexivity.
Qed.

Lemma unpack_u32_be32 (p : unpack) (pre post : list byte) (v old : Z) :
  up_buf p = pre ++ be32 v ++ post ->
  up_len p = Z.of_nat (length (up_buf p)) ->
  up_offset p = Z.of_nat (length pre) ->
  up_err p = None ->
  up_len p <= SIZE_MAX ->
  0 <= v < 4294967296 ->
  unpack_u32 p old = Ret (0, set_offset p (up_offset p + 4), v).
Proof.
  intros Hbuf Hlen Hoff Herr Hfit Hv. unfold unpack_u32.
  rewrite (unpack_data_chunk p pre (be32 v) post [] Hbuf Hlen Hoff Herr Hfit
           : unpack_data p [] 4 = _).
  cbn [bind Z.eqb]. rewrite be_value_be32 by exact Hv. reflexivity.
Qed.

(** [unpack_rr] over an MX record on the wire. *)
Lemma unpack_rr_mx_record (pre post : list byte)
    (owner exch : list (list byte)) (class ttl pref : Z) (r : dns_rr) :
  let data := pre ++ wire_mx owner class ttl pref exch ++ post in
  let p := mk_unpack data (Z.of_nat (length data))
                     (Z.of_nat (length pre)) None in
  Forall label_ok owner -> Forall label_ok exch ->
  Z.of_nat (length (wire_name owner)) <= MAXDNAME ->
  Z.of_nat (length (wire_name exch)) <= MAXDNAME ->
  0 <= class < 65536 -> 0 <= ttl < 4294967296 -> 0 <= pref < 65536 ->
  Z.of_nat (length data) + 255 <= SIZE_MAX ->
  unpack_rr p r
  = Ret (0,
         set_offset p (Z.of_nat (length pre)
                       + Z.of_nat (length (wire_mx owner class ttl pref
                                                   exch))),
         mk_rr (wire_name owner) T_MX class ttl
               (rr_mx pref (wire_name exch))).
Proof.
  intros data p Hown Hexch Hlo Hle Hclass Httl Hpref Hfit.
  set (rdlen := 2 + Z.of_nat (length (wire_name exch))).
  assert (Hrdlen : 0 <= rdlen < 65536) by (unfold rdlen, MAXDNAME in *; lia).
  assert (Hmx : 0 <= T_MX < 65536) by (unfold T_MX; lia).
  assert (Hmax : MAXDNAME <= SIZE_MAX) by (unfold MAXDNAME, SIZE_MAX; lia).
  assert (Hdata : data
                  = pre ++ wire_name owner ++ be16 T_MX ++ be16 class
                    ++ be32 ttl ++ be16 rdlen ++ be16 pref ++ wire_name exch
                    ++ post).
  { unfold data, wire_mx. rewrite <- !app_assoc. reflexivity. }
  assert (Hlen : Z.of_nat (length (wire_mx owner class ttl pref exch))
                 = Z.of_nat (length (wire_name owner)) + 12
                   + Z.of_nat (length (wire_name exch))).
  { unfold wire_mx. rewrite !length_app. cbn [length be16 be32]. lia. }
  unfold unpack_rr, unpack_rr_head.
  (* the owner *)
  rewrite (unpack_dname_labels p pre
             (be16 T_MX ++ be16 class ++ be32 ttl ++ be16 rdlen
              ++ be16 pref ++ wire_name exch ++ post)
             owner (rr_dname r) MAXDNAME Hdata eq_refl eq_refl eq_refl
             Hown Hfit Hlo (conj Hlo Hmax)).
  cbn [bind].
  set (p1 := set_offset p _).
  (* the type *)
  rewrite (unpack_u16_be16 p1 (pre ++ wire_name owner)
             (be16 class ++ be32 ttl ++ be16 rdlen ++ be16 pref
              ++ wire_name exch ++ post) T_MX (rr_type r));
    [| cbn [p1 p set_offset up_buf]; rewrite Hdata, <- !app_assoc; reflexivity
     | reflexivity
     | cbn [p1 p set_offset up_offset]; rewrite length_app; lia
     | reflexivity
     | cbn [p1 p set_offset up_len]; lia
     | exact Hmx].
  cbn [bind].
  set (p2 := set_offset p1 _).
  (* the class *)
  rewrite (unpack_u16_be16 p2 (pre ++ wire_name owner ++ be16 T_MX)
             (be32 ttl ++ be16 rdlen ++ be16 pref ++ wire_name exch ++ post)
             class (rr_class r));
    [| cbn [p2 p1 p set_offset up_buf]; rewrite Hdata, <- !app_assoc;
       reflexivity
     | reflexivity
     | cbn [p2 p1 p set_offset up_offset]; rewrite !length_app;
       cbn [length be16]; lia
     | reflexivity
     | cbn [p2 p1 p set_offset up_len]; lia
     | exact Hclass].
  cbn [bind].
  set (p3 := set_offset p2 _).
  (* the TTL *)
  rewrite (unpack_u32_be32 p3
             (pre ++ wire_name owner ++ be16 T_MX ++ be16 class)
             (be16 rdlen ++ be16 pref ++ wire_name exch ++ post)
             ttl (rr_ttl r));
    [| cbn [p3 p2 p1 p set_offset up_buf]; rewrite Hdata, <- !app_assoc;
       reflexivity
     | reflexivity
     | cbn [p3 p2 p1 p set_offset up_offset]; rewrite !length_app;
       cbn [length be16]; lia
     | reflexivity
     | cbn [p3 p2 p1 p set_offset up_len]; lia
     | exact Httl].
  cbn [bind].
  set (p4 := set_offset p3 _).
  (* the length of the data *)
  rewrite (unpack_u16_be16 p4
             (pre ++ wire_name owner ++ be16 T_MX ++ be16 class ++ be32 ttl)
             (be16 pref ++ wire_name exch ++ post) rdlen 0);
    [| cbn [p4 p3 p2 p1 p set_offset up_buf]; rewrite Hdata, <- !app_assoc;
       reflexivity
     | reflexivity
     | cbn [p4 p3 p2 p1 p set_offset up_offset]; rewrite !length_app;
       cbn [length be16 be32]; lia
     | reflexivity
     | cbn [p4 p3 p2 p1 p set_offset up_len]; lia
     | exact Hrdlen].
  cbn [bind].
  set (p5 := set_offset p4 _).
  assert (Hdl : Z.of_nat (length data)
                = Z.of_nat (length pre) + Z.of_nat (length (wire_name owner))
                  + 12 + Z.of_nat (length (wire_name exch))
                  + Z.of_nat (length post)).
  { rewrite Hdata, !length_app. cbn [length be16 be32]. lia. }
  assert (Ho5 : up_offset p5
                = Z.of_nat (length pre)
                  + Z.of_nat (length (wire_name owner)) + 10)
    by (cbn [p5 p4 p3 p2 p1 p set_offset up_offset]; lia).
  change (up_err p5) with (@None string). cbv iota.
  change (up_len p5) with (Z.of_nat (length data)).
  rewrite size_t_small by (rewrite Ho5; unfold rdlen; lia).
  destruct (Z.ltb_spec (Z.of_nat (length data) - up_offset p5) rdlen);
    [rewrite Ho5 in *; unfold rdlen in *; lia|].
  unfold unpack_rr_switch. cbn [rr_type rr_class rr].
  change (T_MX =? T_CNAME) with false. change (T_MX =? T_MX) with true.
  cbv iota.
  (* the preference *)
  rewrite (unpack_u16_be16 p5
             (pre ++ wire_name owner ++ be16 T_MX ++ be16 class ++ be32 ttl
              ++ be16 rdlen)
             (wire_name exch ++ post) pref (mx_preference (rr r)));
    [| cbn [p5 p4 p3 p2 p1 p set_offset up_buf]; rewrite Hdata, <- !app_assoc;
       reflexivity
     | reflexivity
     | rewrite Ho5, !length_app; cbn [length be16 be32]; lia
     | reflexivity
     | cbn [p5 p4 p3 p2 p1 p set_offset up_len]; lia
     | exact Hpref].
  cbn [bind].
  set (p6 := set_offset p5 _).
  (* the exchange *)
  rewrite (unpack_dname_labels p6
             (pre ++ wire_name owner ++ be16 T_MX ++ be16 class ++ be32 ttl
              ++ be16 rdlen ++ be16 pref)
             post exch (mx_exchange (rr r)) MAXDNAME);
    [| cbn [p6 p5 p4 p3 p2 p1 p set_offset up_buf]; rewrite Hdata,
         <- !app_assoc; reflexivity
     | reflexivity
     | cbn [p6 set_offset up_offset]; rewrite Ho5, !length_app;
       cbn [length be16 be32]; lia
     | reflexivity
     | exact Hexch
     | exact Hfit
     | exact Hle
     | exact (conj Hle Hmax)].
  cbn [bind].
  set (p7 := set_offset p6 _).
  change (up_err p7) with (@None string). cbv iota.
  assert (Ho7 : up_offset p7 - up_offset p5 = rdlen)
    by (cbn [p7 p6 set_offset up_offset]; unfold rdlen; lia).
  rewrite Ho7, size_t_small by (unfold SIZE_MAX; lia).
  rewrite Z.eqb_refl. cbn [negb].
  unfold failed, set_rr.
  change (up_err p7) with (@None string).
  cbn [rr_dname rr_type rr_class rr_ttl].
  f_equal. f_equal. f_equal.
  unfold p7, p6, set_offset. cbn [up_buf up_len up_err up_offset].
  f_equal. rewrite Ho5, Hlen. lia.
Qed.

(** X16. An MX record written on the wire without pointers, with the
    length of its data as the preference and the exchange take it, is
    decoded by [unpack_rr] into its owner, type, class, TTL, preference
    and exchange, wherever it stands in the buffer and whatever follows;
    the cursor then stands just after the record. *)
Theorem unpack_rr_wire_mx (pre post : list byte)
    (owner exch : list (list byte)) (class ttl pref : Z) (r : dns_rr) :
  let data := pre ++ wire_mx owner class ttl pref exch ++ post in
  let p := mk_unpack data (Z.of_nat (length data))
                     (Z.of_nat (length pre)) None in
  Forall label_ok owner -> Forall label_ok exch ->
  Z.of_nat (length (wire_name owner)) <= MAXDNAME ->
  Z.of_nat (length (wire_name exch)) <= MAXDNAME ->
  0 <= class < 65536 -> 0 <= ttl < 4294967296 -> 0 <= pref < 65536 ->
  Z.of_nat (length data) + 255 <= SIZE_MAX ->
  unpack_rr p r
  = Ret (0,
         set_offset p (Z.of_nat (length pre)
                       + Z.of_nat (length (wire_mx owner class ttl pref
                                                   exch))),
         mk_rr (wire_name owner) T_MX class ttl
               (rr_mx pref (wire_name exch))).
Proof.
  intros data p. apply unpack_rr_mx_record.
Qed.

Lemma unpack_rr_wire_mx_witness :
  unpack_rr
    (mk_unpack ([] ++ wire_mx [lit "a"] 1 60 10 [lit "mx"; lit "a"] ++ [])
               (Z.of_nat (length ([] ++ wire_mx [lit "a"] 1 60 10
                                               [lit "mx"; lit "a"] ++ [])))
               (Z.of_nat (length (@nil byte))) None)
    no_rr
  = Ret (0,
         set_offset
           (mk_unpack ([] ++ wire_mx [lit "a"] 1 60 10 [lit "mx"; lit "a"]
                       ++ [])
                      (Z.of_nat (length ([] ++ wire_mx [lit "a"] 1 60 10
                                                      [lit "mx"; lit "a"]
                                         ++ [])))
                      (Z.of_nat (length (@nil byte))) None)
           (Z.of_nat (length (@nil byte))
            + Z.of_nat (length (wire_mx [lit "a"] 1 60 10
                                        [lit "mx"; lit "a"]))),
         mk_rr (wire_name [lit "a"]) T_MX 1 60
               (rr_mx 10 (wire_name [lit "mx"; lit "a"]))).
Proof.
  apply (unpack_rr_wire_mx [] [] [lit "a"] [lit "mx"; lit "a"] 1 60 10 no_rr).
  - repeat constructor; vm_compute; intros H; discriminate H.
  - repeat constructor; vm_compute; intros H; discriminate H.
  - vm_compute. discriminate.
  - vm_compute. discriminate.
  - lia.
  - lia.
  - lia.
  - vm_compute. discriminate.
Defined.

(** ** Compressed names *)

Lemma land_pointer (hi : Z) :
  0 <= hi < 64 ->
  Z.land (192 + hi) 192 = 192 /\ Z.land (192 + hi) (Z.lnot 192) = hi.
Proof.
  intros Hhi.
  assert (Hk : exists k : nat, (k < 64)%nat /\ hi = Z.of_nat k)
    by (exists (Z.to_nat hi); lia).
  destruct Hk as (k & Hk & ->). clear Hhi.
  do 64 (destruct k as [|k]; [split; reflexivity|]). lia.
Qed.

Lemma wire_labels_app (a b : list (list byte)) :
  wire_labels (a ++ b) = wire_labels a ++ wire_labels b.
Proof. unfold wire_labels. apply flat_map_app. Qed.

Section Compressed.

Variable data : list byte.
Variable len : Z.
Hypothesis len_data : len = Z.of_nat (length data).
Hypothesis len_fits : len + 255 <= SIZE_MAX.

Lemma dname_loop_more_fuel (fuel : nat) :
  forall (x : expand) (r : bool * expand),
    dname_loop fuel data len x = Ret r ->
    forall fuel' : nat, (fuel <= fuel')%nat ->
      dname_loop fuel' data len x = Ret r.
Proof.
  induction fuel as [|fuel IH]; intros x r H fuel' Hle; [discriminate H|].
  destruct fuel' as [|fuel']; [lia|].
  cbn [dname_loop] in H |- *.
  destruct (dname_turn data len x) as [[x'|x'|x']| |]; cbn [bind] in H |- *;
    try discriminate H; try exact H.
  apply (IH x' r H). lia.
Qed.

(** The loop of [dname_expand] over labels, whatever follows them. *)
Lemma dname_loop_over_labels (labels : list (list byte)) :
  forall (fuel : nat) (pre rest written : list byte) (start e res max : Z),
    data = pre ++ wire_labels labels ++ rest ->
    Forall label_ok labels ->
    Z.of_nat (length (wire_labels labels)) < max <= SIZE_MAX ->
    Z.of_nat (length pre) <= e ->
    dname_loop (length labels + fuel) data len
      (mk_expand (Z.of_nat (length pre)) start e res (Some written) max)
    = dname_loop fuel data len
        (mk_expand (Z.of_nat (length pre)
                    + Z.of_nat (length (wire_labels labels)))
                   start
                   (Z.max e (Z.of_nat (length pre)
                             + Z.of_nat (length (wire_labels labels))))
                   (res + Z.of_nat (length (wire_labels labels)))
                   (Some (written ++ wire_labels labels))
                   (max - Z.of_nat (length (wire_labels labels)))).
Proof.
  induction labels as [|l labels IH];
    intros fuel pre rest written start e res max Hdata Hok Hmax He.
  - change (wire_labels []) with (@nil byte). cbn [length Nat.add Z.of_nat].
    rewrite app_nil_r, !Z.add_0_r, Z.sub_0_r, Z.max_l by lia. reflexivity.
  - inversion Hok as [|l0 ls0 Hl Hrest]; subst l0 ls0.
    unfold label_ok in Hl.
    set (n := Z.of_nat (length l)) in *.
    assert (Hn : u8 (B n) = n) by (apply u8_B; unfold n; lia).
    rewrite wire_labels_cons, length_app in Hmax. cbn [length] in Hmax.
    assert (Hwire : data = pre ++ (B n :: l) ++ (wire_labels labels ++ rest)).
    { rewrite Hdata, wire_labels_cons. fold n.
      rewrite <- !app_assoc. reflexivity. }
    assert (Hlen : Z.of_nat (length pre) + n + 1
                   + Z.of_nat (length (wire_labels labels)) <= len).
    { rewrite len_data, Hwire, !length_app. cbn [length]. unfold n. lia. }
    assert (Hload : load data (Z.of_nat (length pre)) = Ret n).
    { rewrite Hwire. cbn [app]. rewrite load_app, Hn. reflexivity. }
    assert (Hland : Z.land n 192 = 0).
    { rewrite <- Hn. apply land_label. rewrite Hn. unfold n. lia. }
    cbn [length Nat.add dname_loop]. unfold dname_turn.
    cbn [x_offset x_start x_end x_res x_dst x_max].
    rewrite Hload. cbn [bind].
    destruct (Z.eqb_spec n 0); [unfold n in *; lia|].
    rewrite Hland. change (0 =? 192) with false. cbn iota.
    rewrite (size_t_small (Z.of_nat (length pre) + n + 1)) by lia.
    destruct (Z.ltb_spec len (Z.of_nat (length pre) + n + 1)); [lia|].
    destruct (Z.eqb_spec max 0); [lia|].
    rewrite (size_t_small (n + 1)) by (unfold n, SIZE_MAX; lia).
    destruct (Z.ltb_spec max (n + 1)); [lia|].
    assert (Hchunk : load_bytes data (Z.of_nat (length pre)) (n + 1)
                     = Ret (B n :: l)).
    { rewrite Hwire.
      replace (n + 1) with (Z.of_nat (length (B n :: l)))
        by (cbn [length]; unfold n; lia).
      apply load_bytes_app. }
    rewrite Hchunk. cbn [bind].
    rewrite (size_t_small (max - (n + 1))) by lia.
    replace (if e <? Z.of_nat (length pre) + n + 1
             then Z.of_nat (length pre) + n + 1 else e)
      with (Z.max e (Z.of_nat (length pre) + n + 1))
      by (destruct (Z.ltb_spec e (Z.of_nat (length pre) + n + 1)); lia).
    replace (Z.of_nat (length pre) + n + 1)
      with (Z.of_nat (length (pre ++ B n :: l)))
      by (rewrite length_app; cbn [length]; unfold n; lia).
    rewrite (IH fuel (pre ++ B n :: l) rest (written ++ B n :: l)).
    + rewrite wire_labels_cons, !length_app. cbn [length]. fold n.
      f_equal. f_equal; try lia.
      rewrite <- !app_assoc. reflexivity.
    + rewrite Hwire, <- app_assoc. reflexivity.
    + exact Hrest.
    + lia.
    + lia.
Qed.

(** The turn of the loop at a compression pointer. *)
Lemma dname_turn_at_pointer (pre rest : list byte) (hi lo : Z)
    (start e res : Z) (dst : option (list byte)) (max : Z) :
  data = pre ++ [B (192 + hi); B lo] ++ rest ->
  0 <= hi < 64 -> 0 <= lo < 256 ->
  256 * hi + lo < start ->
  dname_turn data len
    (mk_expand (Z.of_nat (length pre)) start e res dst max)
  = Ret (Next (mk_expand (256 * hi + lo) (256 * hi + lo)
                         (Z.max e (Z.of_nat (length pre) + 2))
                         res dst max)).
Proof.
  intros Hdata Hhi Hlo Hptr.
  destruct (land_pointer hi Hhi) as (Hl1 & Hl2).
  assert (Hlen : Z.of_nat (length pre) + 2 <= len)
    by (rewrite len_data, Hdata, !length_app; cbn [length]; lia).
  assert (H0 : load data (Z.of_nat (length pre)) = Ret (192 + hi)).
  { rewrite Hdata. cbn [app]. rewrite load_app, u8_B by lia. reflexivity. }
  assert (H1 : load data (Z.of_nat (length pre) + 1) = Ret lo).
  { rewrite Hdata.
    replace (pre ++ [B (192 + hi); B lo] ++ rest)
      with ((pre ++ [B (192 + hi)]) ++ B lo :: rest)
      by (rewrite <- app_assoc; reflexivity).
    replace (Z.of_nat (length pre) + 1)
      with (Z.of_nat (length (pre ++ [B (192 + hi)])))
      by (rewrite length_app; cbn [length]; lia).
    rewrite load_app, u8_B by lia. reflexivity. }
  unfold dname_turn. cbn [x_offset x_start x_end x_res x_dst x_max].
  rewrite H0. cbn [bind].
  destruct (Z.eqb_spec (192 + hi) 0); [lia|].
  rewrite Hl1, Hl2, Z.eqb_refl.
  rewrite (size_t_small (Z.of_nat (length pre) + 2)) by lia.
  rewrite (size_t_small (Z.of_nat (length pre) + 1)) by lia.
  destruct (Z.ltb_spec len (Z.of_nat (length pre) + 2)); [lia|].
  rewrite H1. cbn [bind].
  rewrite (size_t_small (256 * hi + lo)) by (unfold SIZE_MAX; lia).
  destruct (Z.leb_spec start (256 * hi + lo)); [lia|].
  replace (if e <? Z.of_nat (length pre) + 2
           then Z.of_nat (length pre) + 2 else e)
    with (Z.max e (Z.of_nat (length pre) + 2))
    by (destruct (Z.ltb_spec e (Z.of_nat (length pre) + 2)); lia).
  reflexivity.
Qed.

End Compressed.

(** X17. A compressed name is decoded to the name it stands for: labels
    followed by a pointer to an earlier place of the buffer, where a name
    without pointers stands, decode to the labels followed by that name,
    and the cursor then stands just after the two bytes of the pointer, not
    after the place it points to. *)
Theorem unpack_dname_compressed (pre mid post : list byte)
    (target front : list (list byte)) (dst : list byte) (max : Z) :
  let ptr := Z.of_nat (length pre) in
  let data := pre ++ wire_name target ++ mid ++ wire_labels front
              ++ [B (192 + ptr / 256); B (ptr mod 256)] ++ post in
  let o := Z.of_nat (length (pre ++ wire_name target ++ mid)) in
  let p := mk_unpack data (Z.of_nat (length data)) o None in
  Forall label_ok target -> Forall label_ok front ->
  ptr < 16384 ->
  Z.of_nat (length data) + 255 <= SIZE_MAX ->
  Z.of_nat (length (wire_name (front ++ target))) <= MAXDNAME ->
  Z.of_nat (length (wire_name (front ++ target))) <= max <= SIZE_MAX ->
  unpack_dname p dst max
  = Ret (0,
         set_offset p (o + Z.of_nat (length (wire_labels front)) + 2),
         wire_name (front ++ target)).
Proof.
  intros ptr data o p Htarget Hfront Hptr Hfit Hlen Hmax.
  set (hi := ptr / 256). set (lo := ptr mod 256).
  assert (Hhi : 0 <= hi < 64) by (unfold hi, ptr in *; Z.div_mod_to_equations; lia).
  assert (Hlo : 0 <= lo < 256) by (unfold lo; Z.div_mod_to_equations; lia).
  assert (Hhl : 256 * hi + lo = ptr)
    by (unfold hi, lo; Z.div_mod_to_equations; lia).
  set (Lf := Z.of_nat (length (wire_labels front))).
  set (Lt := Z.of_nat (length (wire_labels target))).
  assert (Hwn : Z.of_nat (length (wire_name (front ++ target)))
                = Lf + Lt + 1).
  { unfold wire_name. rewrite wire_labels_app, !length_app. cbn [length].
    unfold Lf, Lt. lia. }
  assert (Ho : o = ptr + Lt + 1 + Z.of_nat (length mid)).
  { unfold o, wire_name. rewrite !length_app. cbn [length].
    unfold ptr, Lt. lia. }
  assert (Hdl : Z.of_nat (length data)
                = o + Lf + 2 + Z.of_nat (length post)).
  { unfold data. rewrite Ho. unfold wire_name. rewrite !length_app.
    cbn [length]. unfold ptr, Lt, Lf. lia. }
  assert (Hd1 : data = (pre ++ wire_name target ++ mid) ++ wire_labels front
                       ++ ([B (192 + hi); B lo] ++ post)).
  { unfold data. rewrite <- !app_assoc. reflexivity. }
  assert (Hd2 : data = ((pre ++ wire_name target ++ mid) ++ wire_labels front)
                       ++ [B (192 + hi); B lo] ++ post).
  { unfold data. rewrite <- !app_assoc. reflexivity. }
  assert (Hd3 : data = pre ++ wire_labels target
                       ++ (x00 :: mid ++ wire_labels front
                           ++ [B (192 + hi); B lo] ++ post)).
  { unfold data, wire_name. rewrite <- !app_assoc. reflexivity. }
  assert (Hd4 : data = (pre ++ wire_labels target)
                       ++ x00 :: (mid ++ wire_labels front
                                  ++ [B (192 + hi); B lo] ++ post)).
  { rewrite Hd3, <- app_assoc. reflexivity. }
  pose proof (wire_labels_length front) as Hnf.
  pose proof (wire_labels_length target) as Hnt.
  unfold MAXDNAME in Hlen.
  (* the loop, with the turns it takes *)
  assert (Hloop :
    dname_loop (length front + (1 + (length target + 1))) data
               (Z.of_nat (length data))
               (mk_expand o o o 0 (Some []) max)
    = Ret (true,
           mk_expand (ptr + Lt) ptr (o + Lf + 2) (Lf + Lt)
                     (Some (wire_labels front ++ wire_labels target))
                     (max - Lf - Lt))).
  { unfold o at 1.
    rewrite (dname_loop_over_labels data _ eq_refl Hfit front _ _ _ _ _ _ _ _
               Hd1 Hfront);
      [| fold Lf; lia | fold o; lia].
    fold o. fold Lf. rewrite Z.max_r by lia.
    cbn [Nat.add dname_loop].
    replace (o + Lf)
      with (Z.of_nat (length ((pre ++ wire_name target ++ mid)
                              ++ wire_labels front)))
      by (rewrite (length_app _ (wire_labels front)); fold o; fold Lf; lia).
    rewrite (dname_turn_at_pointer data _ eq_refl Hfit _ _ hi lo _ _ _ _ _
               Hd2 Hhi Hlo);
      [| rewrite Hhl; lia].
    cbn [bind]. rewrite Hhl.
    rewrite (length_app _ (wire_labels front)). fold o. fold Lf.
    rewrite Z.max_r by lia.
    unfold ptr at 1.
    rewrite (dname_loop_over_labels data _ eq_refl Hfit target _ _ _ _ _ _ _ _
               Hd3 Htarget);
      [| fold Lt; lia | fold ptr; lia].
    fold ptr. fold Lt. rewrite Z.max_l by lia.
    cbn [dname_loop]. unfold dname_turn.
    cbn [x_offset x_start x_end x_res x_dst x_max].
    replace (ptr + Lt) with (Z.of_nat (length (pre ++ wire_labels target)))
      by (rewrite length_app; fold ptr; fold Lt; lia).
    rewrite Hd4 at 1. rewrite load_app. cbn [bind].
    change (u8 x00 =? 0) with true. cbv iota. cbn [bind app].
    reflexivity. }
  unfold unpack_dname, dname_expand. cbn [p up_err up_buf up_len up_offset].
  destruct (Z.leb_spec (Z.of_nat (length data)) o); [lia|].
  rewrite (dname_loop_more_fuel data _ _ _ _ Hloop).
  2:{ unfold dname_fuel.
      assert (Hmul : 1 * (Z.of_nat (length data) + 1)
                     <= (o + 1) * (Z.of_nat (length data) + 1))
        by (apply Z.mul_le_mono_nonneg_r; lia).
      unfold Lf, Lt in *. lia. }
  cbn [bind negb x_offset x_start x_end x_res x_dst x_max].
  rewrite (size_t_small (ptr + Lt + 1)) by lia.
  destruct (Z.ltb_spec (o + Lf + 2) (ptr + Lt + 1)); [lia|].
  destruct (Z.eqb_spec (max - Lf - Lt) 0); [lia|].
  destruct (Z.eqb_spec (Lf + Lt + 1) (-1)); [lia|].
  destruct (Z.ltb_spec (Lf + Lt + 1) 0); [lia|].
  destruct (Z.ltb_spec MAXDNAME (Lf + Lt + 1)); [unfold MAXDNAME in *; lia|].
  cbn [orb]. unfold wire_name. rewrite wire_labels_app, <- app_assoc.
  reflexivity.
Qed.

Lemma unpack_dname_compressed_witness :
  unpack_dname
    (mk_unpack
       (sample_header ++ wire_name [lit "a"] ++ bytes [0; 15; 0; 1]
        ++ wire_labels [lit "mx"]
        ++ [B (192 + Z.of_nat (length sample_header) / 256);
            B (Z.of_nat (length sample_header) mod 256)] ++ [])
       (Z.of_nat
          (length
             (sample_header ++ wire_name [lit "a"] ++ bytes [0; 15; 0; 1]
              ++ wire_labels [lit "mx"]
              ++ [B (192 + Z.of_nat (length sample_header) / 256);
                  B (Z.of_nat (length sample_header) mod 256)] ++ [])))
       (Z.of_nat (length (sample_header ++ wire_name [lit "a"]
                          ++ bytes [0; 15; 0; 1])))
       None)
    [] 255
  = Ret (0,
         set_offset
           (mk_unpack
              (sample_header ++ wire_name [lit "a"] ++ bytes [0; 15; 0; 1]
               ++ wire_labels [lit "mx"]
               ++ [B (192 + Z.of_nat (length sample_header) / 256);
                   B (Z.of_nat (length sample_header) mod 256)] ++ [])
              (Z.of_nat
                 (length
                    (sample_header ++ wire_name [lit "a"]
                     ++ bytes [0; 15; 0; 1]
                     ++ wire_labels [lit "mx"]
                     ++ [B (192 + Z.of_nat (length sample_header) / 256);
                         B (Z.of_nat (length sample_header) mod 256)] ++ [])))
              (Z.of_nat (length (sample_header ++ wire_name [lit "a"]
                                 ++ bytes [0; 15; 0; 1])))
              None)
           (Z.of_nat (length (sample_header ++ wire_name [lit "a"]
                              ++ bytes [0; 15; 0; 1]))
            + Z.of_nat (length (wire_labels [lit "mx"])) + 2),
         wire_name ([lit "mx"] ++ [lit "a"])).
Proof.
  apply (unpack_dname_compressed sample_header (bytes [0; 15; 0; 1]) []
           [lit "a"] [lit "mx"] [] 255).
  - repeat constructor; vm_compute; intros H; discriminate H.
  - repeat constructor; vm_compute; intros H; discriminate H.
  - vm_compute. reflexivity.
  - vm_compute. discriminate.
  - vm_compute. discriminate.
  - split; vm_compute; discriminate.
Defined.

(** ** Answers on the wire *)

(** [unpack_query] over a question on the wire. *)
Lemma unpack_query_question (pre post : list byte) (name : list (list byte))
    (type class : Z) (q : dns_query) :
  let data := pre ++ wire_query name type class ++ post in
  let p := mk_unpack data (Z.of_nat (length data))
                     (Z.of_nat (length pre)) None in
  Forall label_ok name ->
  Z.of_nat (length (wire_name name)) <= MAXDNAME ->
  0 <= type < 65536 -> 0 <= class < 65536 ->
  Z.of_nat (length data) + 255 <= SIZE_MAX ->
  unpack_query p q
  = Ret (0,
         set_offset p (Z.of_nat (length pre)
                       + Z.of_nat (length (wire_query name type class))),
         mk_query (wire_name name) type class).
Proof.
  intros data p Hname Hlen Htype Hclass Hfit.
  assert (Hmax : MAXDNAME <= SIZE_MAX) by (unfold MAXDNAME, SIZE_MAX; lia).
  assert (Hdata : data = pre ++ wire_name name ++ be16 type ++ be16 class
                         ++ post).
  { unfold data, wire_query. rewrite <- !app_assoc. reflexivity. }
  unfold unpack_query.
  rewrite (unpack_dname_labels p pre (be16 type ++ be16 class ++ post)
             name (q_dname q) MAXDNAME Hdata eq_refl eq_refl eq_refl
             Hname Hfit Hlen (conj Hlen Hmax)).
  cbn [bind].
  set (p1 := set_offset p _).
  rewrite (unpack_u16_be16 p1 (pre ++ wire_name name) (be16 class ++ post)
             type (q_type q));
    [| cbn [p1 p set_offset up_buf]; rewrite Hdata, <- !app_assoc; reflexivity
     | reflexivity
     | cbn [p1 p set_offset up_offset]; rewrite length_app; lia
     | reflexivity
     | cbn [p1 p set_offset up_len]; lia
     | exact Htype].
  cbn [bind].
  set (p2 := set_offset p1 _).
  rewrite (unpack_u16_be16 p2 (pre ++ wire_name name ++ be16 type) post
             class (q_class q));
    [| cbn [p2 p1 p set_offset up_buf]; rewrite Hdata, <- !app_assoc;
       reflexivity
     | reflexivity
     | cbn [p2 p1 p set_offset up_offset]; rewrite !length_app;
       cbn [length be16]; lia
     | reflexivity
     | cbn [p2 p1 p set_offset up_len]; lia
     | exact Hclass].
  cbn [bind]. unfold failed, set_offset, wire_query.
  cbn [p2 p1 p set_offset up_buf up_len up_err up_offset].
  rewrite !length_app. cbn [length be16].
  f_equal. f_equal. f_equal. f_equal. lia.
Qed.

(** [unpack_header] over a header on the wire. *)
Lemma unpack_header_wire (id flags qdcount ancount nscount arcount : Z)
    (post : list byte) (h : dns_header) :
  let data := wire_header id flags qdcount ancount nscount arcount ++ post in
  0 <= ancount < 65536 ->
  Z.of_nat (length data) <= SIZE_MAX ->
  exists h',
    unpack_header (unpack_init data (Z.of_nat (length data))) h
    = Ret (0, mk_unpack data (Z.of_nat (length data)) 12 None, h')
    /\ h_ancount h' = ancount.
Proof.
  intros data Han Hfit. unfold unpack_header, unpack_init.
  rewrite (unpack_data_chunk
             (mk_unpack data (Z.of_nat (length data)) 0 None) []
             (wire_header id flags qdcount ancount nscount arcount) post []
             eq_refl eq_refl eq_refl eq_refl Hfit
           : unpack_data _ [] HFIXEDSZ = _).
  cbn [bind Z.eqb]. eexists. split; [reflexivity|].
  cbn [h_ancount]. apply (be_value_be16 ancount Han).
Qed.

(** The answer section over MX records on the wire. *)
Lemma answer_section_records (data post : list byte) :
  forall (records : list mx_record) (pre : list byte) (r : dns_rr),
    data = pre ++ concat (map wire_record records) ++ post ->
    Forall mx_record_ok records ->
    Z.of_nat (length data) + 255 <= SIZE_MAX ->
    answer_section (length records)
      (mk_unpack data (Z.of_nat (length data)) (Z.of_nat (length pre)) None) r
    = Ret (map decoded records).
Proof.
  induction records as [|m records IH]; intros pre r Hdata Hok Hfit;
    [reflexivity|].
  inversion Hok as [|m0 ms0 Hm Hrest]; subst m0 ms0.
  destruct Hm as (Hown & Hexch & Hlo & Hle & Hclass & Httl & Hpref & _).
  cbn [length answer_section map concat] in *.
  assert (Hd : data = pre ++ wire_mx (mr_owner m) (mr_class m) (mr_ttl m)
                               (mr_pref m) (mr_exch m)
                      ++ (concat (map wire_record records) ++ post)).
  { rewrite Hdata. unfold wire_record. rewrite <- !app_assoc. reflexivity. }
  pose proof (unpack_rr_mx_record pre
                (concat (map wire_record records) ++ post)
                (mr_owner m) (mr_exch m) (mr_class m) (mr_ttl m) (mr_pref m)
                r) as Hrr.
  cbv zeta in Hrr. rewrite <- Hd in Hrr.
  rewrite (Hrr Hown Hexch Hlo Hle Hclass Httl Hpref Hfit). cbn [bind Z.eqb].
  unfold set_offset. cbn [up_buf up_len up_err].
  replace (Z.of_nat (length pre)
           + Z.of_nat (length (wire_mx (mr_owner m) (mr_class m) (mr_ttl m)
                                       (mr_pref m) (mr_exch m))))
    with (Z.of_nat (length (pre ++ wire_record m)))
    by (rewrite length_app; unfold wire_record; lia).
  rewrite (IH (pre ++ wire_record m) _); [reflexivity | | exact Hrest
                                         | exact Hfit].
  rewrite Hdata, <- !app_assoc. reflexivity.
Qed.

Lemma mx_records_decoded (records : list mx_record) :
  mx_records (map decoded records) = map decoded records.
Proof.
  induction records as [|m records IH]; [reflexivity|].
  cbn [map]. rewrite mx_records_cons. cbn [decoded rr_type].
  rewrite Z.eqb_refl, IH. reflexivity.
Qed.

Lemma exchange_host_decoded (m : mx_record) :
  mx_record_ok m ->
  exchange_host (decoded m) = Ret (removelast (dotted (mr_exch m))).
Proof.
  intros (_ & Hexch & _ & Hle & _ & _ & _ & Hnz).
  apply exchange_host_labels; [reflexivity | assumption..].
Qed.

Lemma spawned_for_decoded (records : list mx_record) :
  forall new : list (asr_query * callback),
    Forall mx_record_ok records ->
    Forall2 spawned_for (map decoded records) new ->
    new = map lookup_of records.
Proof.
  induction records as [|m records IH]; intros new Hok Hsp.
  - inversion Hsp. reflexivity.
  - inversion Hok as [|m0 ms0 Hm Hrest]; subst m0 ms0.
    cbn [map] in Hsp.
    inversion Hsp as [|d e ds es (host & Hhost & He) Hsp']; subst d ds new.
    rewrite (exchange_host_decoded m Hm) in Hhost. injection Hhost as <-.
    cbn [map]. rewrite (IH es Hrest Hsp'), He. reflexivity.
Qed.

(** X18. The question of a message, a name without pointers followed by
    its type and class, is decoded by [unpack_query] into that name, type
    and class, wherever it stands in the buffer; the cursor then stands
    just after the class. *)
Theorem unpack_query_wire_query (pre post : list byte)
    (name : list (list byte)) (type class : Z) (q : dns_query) :
  let data := pre ++ wire_query name type class ++ post in
  let p := mk_unpack data (Z.of_nat (length data))
                     (Z.of_nat (length pre)) None in
  Forall label_ok name ->
  Z.of_nat (length (wire_name name)) <= MAXDNAME ->
  0 <= type < 65536 -> 0 <= class < 65536 ->
  Z.of_nat (length data) + 255 <= SIZE_MAX ->
  unpack_query p q
  = Ret (0,
         set_offset p (Z.of_nat (length pre)
                       + Z.of_nat (length (wire_query name type class))),
         mk_query (wire_name name) type class).
Proof.
  intros data p. apply unpack_query_question.
Qed.

Lemma unpack_query_wire_query_witness :
  unpack_query
    (mk_unpack (sample_header ++ wire_query [lit "a"] 15 1 ++ [])
               (Z.of_nat (length (sample_header ++ wire_query [lit "a"] 15 1
                                  ++ [])))
               (Z.of_nat (length sample_header)) None)
    no_query
  = Ret (0,
         set_offset
           (mk_unpack (sample_header ++ wire_query [lit "a"] 15 1 ++ [])
                      (Z.of_nat (length (sample_header
                                         ++ wire_query [lit "a"] 15 1 ++ [])))
                      (Z.of_nat (length sample_header)) None)
           (Z.of_nat (length sample_header)
            + Z.of_nat (length (wire_query [lit "a"] 15 1))),
         mk_query (wire_name [lit "a"]) 15 1).
Proof.
  apply (unpack_query_wire_query sample_header [] [lit "a"] 15 1 no_query).
  - repeat constructor; vm_compute; intros H; discriminate H.
  - vm_compute. discriminate.
  - lia.
  - lia.
  - vm_compute. discriminate.
Defined.

(** X19. An answer on the wire with a header, a question and MX records,
    names without pointers, makes [dns_dispatch_mx] start one host lookup
    for each record, in the order of the answer, for the exchange with its
    labels separated by dots and under the preference of the record, or
    the single lookup of the domain itself under preference 0 when there is
    no record. It returns, sends nothing, and counts the lookups in the
    session; for a request that had nothing in flight the lookups then
    complete as a fan-out. *)
Theorem mx_answer_fanout (ar : asr_result) (w : world) (s : dns_session)
    (id flags qdcount nscount arcount : Z) (qname : list (list byte))
    (qtype qclass : Z) (records : list mx_record) (post : list byte) :
  w_session w = Some s ->
  ar_h_errno ar = 0 \/ ar_h_errno ar = NO_DATA ->
  ar_data ar
  = wire_answer id flags qdcount nscount arcount qname qtype qclass records
    ++ post ->
  Z.of_nat (length (ar_data ar)) + 255 <= SIZE_MAX ->
  Forall label_ok qname ->
  Z.of_nat (length (wire_name qname)) <= MAXDNAME ->
  0 <= qtype < 65536 -> 0 <= qclass < 65536 ->
  Z.of_nat (length records) < 65536 ->
  Forall mx_record_ok records ->
  exists w' s',
    dns_dispatch_mx ar w = Ret w'
    /\ w_sent w' = w_sent w
    /\ w_events w'
       = w_events w
         ++ match records with
            | [] => [(getaddrinfo_async (bare_host (s_name s))
                                        (mk_hints false PF_UNSPEC),
                      dispatch_host (mk_lookup 0))]
            | _ => map lookup_of records
            end
    /\ w_session w' = Some s'
    /\ s_refcount s'
       = s_refcount s + Z.of_nat (Nat.max 1 (length records))
    /\ (w_events w = [] -> s_refcount s = 0 ->
        filter is_terminal (w_sent w) = [] -> fanout_ok w').
Proof.
  intros Hs Herrno Hdata Hfit Hqname Hqlen Hqtype Hqclass Hn Hok.
  set (data := ar_data ar) in *.
  set (hdr := wire_header id flags qdcount (Z.of_nat (length records))
                          nscount arcount) in *.
  assert (Hd0 : data = hdr ++ (wire_query qname qtype qclass
                               ++ concat (map wire_record records) ++ post)).
  { rewrite Hdata. unfold wire_answer. fold hdr.
    rewrite <- !app_assoc. reflexivity. }
  assert (Hd1 : data = hdr ++ wire_query qname qtype qclass
                       ++ (concat (map wire_record records) ++ post))
    by exact Hd0.
  assert (Hd2 : data = (hdr ++ wire_query qname qtype qclass)
                       ++ concat (map wire_record records) ++ post)
    by (rewrite Hd0, <- !app_assoc; reflexivity).
  (* the header *)
  destruct (unpack_header_wire id flags qdcount (Z.of_nat (length records))
              nscount arcount
              (wire_query qname qtype qclass
               ++ concat (map wire_record records) ++ post) no_header)
    as (h & Hh & Han); [lia | fold hdr; rewrite <- Hd0; lia |].
  fold hdr in Hh. rewrite <- Hd0 in Hh.
  (* the question *)
  pose proof (unpack_query_question hdr
                (concat (map wire_record records) ++ post)
                qname qtype qclass no_query) as Hq.
  cbv zeta in Hq. rewrite <- Hd1 in Hq.
  specialize (Hq Hqname Hqlen Hqtype Hqclass Hfit).
  change (Z.of_nat (length hdr)) with 12 in Hq.
  (* the records *)
  pose proof (answer_section_records data post records
                (hdr ++ wire_query qname qtype qclass) no_rr Hd2 Hok Hfit)
    as Hans.
  assert (Hprint : Forall (fun m => exists host, exchange_host m = Ret host)
                          (mx_records (map decoded records))).
  { rewrite mx_records_decoded. apply Forall_map.
    eapply Forall_impl; [|exact Hok].
    intros m Hm. eexists. apply (exchange_host_decoded m Hm). }
  unfold dns_dispatch_mx, the_session. rewrite Hs. cbn [bind].
  assert (Hno : negb (ar_h_errno ar =? 0) && negb (ar_h_errno ar =? NO_DATA)
                = false).
  { destruct Herrno as [-> | ->]; reflexivity. }
  rewrite Hno. unfold ar_datalen. fold data. rewrite Hh.
  cbn [bind Z.eqb]. rewrite Hq. cbn [bind Z.eqb].
  rewrite Han, Nat2Z.id.
  unfold set_offset. cbn [up_buf up_len up_err].
  replace (12 + Z.of_nat (length (wire_query qname qtype qclass)))
    with (Z.of_nat (length (hdr ++ wire_query qname qtype qclass)))
    by (rewrite length_app; change (length hdr) with 12%nat; lia).
  destruct (mx_walk_spec (length records)
              (mk_unpack data (Z.of_nat (length data))
                 (Z.of_nat (length (hdr ++ wire_query qname qtype qclass)))
                 None)
              no_rr w 0 (map decoded records) s)
    as (w1 & new & Hwalk & Hev & Hsent & Hsp & s' & Hs' & Hname & Href);
    [exact Hs|lia|unfold SIZE_MAX; lia|exact Hans|exact Hprint|].
  rewrite mx_records_decoded in Hsp.
  apply (spawned_for_decoded records new Hok) in Hsp. subst new.
  rewrite Hwalk. cbn [bind]. rewrite Z.add_0_l, length_map.
  rewrite length_map in Href.
  destruct records as [|m records].
  - cbn [length Z.of_nat Z.eqb map].
    rewrite (dns_lookup_host_spec _ _ _ _ Hs').
    cbn [map] in Hev. rewrite app_nil_r in Hev.
    eexists. eexists. split; [reflexivity|].
    cbn [w_events w_sent w_session s_refcount].
    rewrite Hev, Hsent, Hname.
    split; [reflexivity|]. split; [reflexivity|]. split; [reflexivity|].
    split; [cbn [s_refcount length Nat.max]; change (Z.of_nat 1) with 1;
            cbn [length Z.of_nat] in Href; lia|].
    intros Hev0 Href0 Hterm. unfold fanout_ok.
    cbn [w_events w_sent w_session s_refcount].
    rewrite Hev0. cbn [app forallb is_host_lookup length].
    split; [reflexivity|]. split; [cbn [length] in *; lia|].
    split; [discriminate | exact Hterm].
  - assert (Hnz : (Z.of_nat (length (m :: records)) =? 0) = false)
      by (apply Z.eqb_neq; cbn [length]; lia).
    rewrite Hnz. exists w1, s'.
    split; [reflexivity|]. split; [exact Hsent|]. split; [exact Hev|].
    split; [exact Hs'|].
    split; [rewrite Href; f_equal; f_equal; cbn [length]; lia|].
    intros Hev0 Href0 Hterm. unfold fanout_ok.
    rewrite Hs', Hev, Hev0, Hsent. cbn [app].
    split; [|split; [|split]].
    + apply forallb_forall. intros e He. apply in_map_iff in He.
      destruct He as (m' & <- & _). reflexivity.
    + rewrite Href, Href0, length_map. reflexivity.
    + discriminate.
    + exact Hterm.
Qed.

Lemma mx_answer_fanout_witness :
  exists w' s',
    dns_dispatch_mx (mk_result 0 0 0 (sample_wire_answer ++ []) [] [])
                    (mk_world (Some sample_session) [] []) = Ret w'
    /\ w_sent w' = []
    /\ w_events w' = [] ++ map lookup_of sample_records
    /\ w_session w' = Some s'
    /\ s_refcount s'
       = s_refcount sample_session
         + Z.of_nat (Nat.max 1 (length sample_records))
    /\ (@nil (asr_query * callback) = [] -> s_refcount sample_session = 0 ->
        filter is_terminal (@nil message) = [] -> fanout_ok w').
Proof.
  apply (mx_answer_fanout (mk_result 0 0 0 (sample_wire_answer ++ []) [] [])
           (mk_world (Some sample_session) [] []) sample_session
           1 33152 1 0 0 [lit "a"] 15 1 sample_records []).
  - reflexivity.
  - left. reflexivity.
  - reflexivity.
  - vm_compute. discriminate.
  - repeat constructor; vm_compute; intros H; discriminate H.
  - vm_compute. discriminate.
  - lia.
  - lia.
  - vm_compute. reflexivity.
  - unfold sample_records, mx_record_ok.
    cbn [mr_owner mr_class mr_ttl mr_pref mr_exch].
    repeat (apply Forall_cons || apply Forall_nil || split);
      try lia; try (vm_compute; lia);
      try (vm_compute; intros H; discriminate H);
      try (vm_compute; discriminate).
Defined.
